(** * Triton deployment notebooks: model and verification

    The repository consists of three Jupyter notebooks
    (02 - Simple PyTorch Model, 04 - Simple TensorFlow Model,
    05 - Simple TensorRT Model).  Each code cell is transcribed below,
    statement by statement, into a small abstract syntax for the Python
    and shell subset the notebooks use; markdown cells are not executed
    and are left out.  The text of the code cells is included as it is
    in the notebook files, and the transcription is checked against it
    (lemma [cells_as_written]).

    An interpreter runs the cells in a [world] (the label file, the
    sample image, the outputs of the local model and of the server) and
    yields the operations a cell performs, in order.  A runner performs
    them, with an [oracle] that tells which operation fails, and records
    the operations performed as a trace of events.  The properties of
    the notebooks are stated on these traces and on the source.

    The classes the cells define are run as Python runs them.  Of what
    the libraries do, the model has what their documentation says of the
    calls the notebooks make, downloads into their caches included; the
    server, the contents of the exported artifacts and what the Python
    and CUDA runtimes do on their own are outside it.
    Numbers are rationals; floating-point rounding is not modelled. *)

From Stdlib Require Import ZArith QArith Ascii String List Bool Lia.
From stdpp Require Import base option list gmap strings pretty.

Set Warnings "-register-all".
Local Open Scope Z_scope.

(** ** Text helpers *)

Definition lf : string := String "010" EmptyString.
Definition dq : string := String "034" EmptyString.

(** A string between double quotes, as it appears in configuration text. *)
Definition quoted (s : string) : string := dq +:+ s +:+ dq.

(** The value of a Python triple-quoted literal whose opening quotes are
    directly followed by a line break: a line feed, then every line
    followed by a line feed. *)
Definition triple_quoted (ls : list string) : string :=
  lf +:+ foldr (fun l acc => l +:+ lf +:+ acc) EmptyString ls.

(** ** Syntax of the notebook cells *)

Inductive binop := Add | Mod | Div.

Inductive expr :=
| EName (x : string)
| EStr (s : string)
| EInt (n : Z)
| EFloat (lit : string)            (* the literal as written: 0.485, 255. *)
| EBool (b : bool)
| ETuple (es : list expr)
| EList (es : list expr)
| EDict (kvs : list (expr * expr))
| EAttr (e : expr) (a : string)
| ECall (f : expr) (args : list expr) (kwargs : list (string * expr))
| EIndex (e : expr) (i : expr)
| ESliceTo (e : expr) (hi : expr)
| EBin (op : binop) (a b : expr)
| EListComp (elt : expr) (x : string) (iter : expr).

Inductive stmt :=
| SShell (cmd : string)
| SComment (text : string)
| SImport (module : string) (asname : option string)
| SFromImport (module : string) (names : list string)
| SClass (name : string) (bases : list expr) (body : list stmt)
| SDef (decorators : list expr) (name : string) (params : list string)
       (body : list stmt)
| SReturn (e : expr)
| SSetAttr (obj : expr) (attr : string) (e : expr)
| SAssign (targets : list string) (e : expr)
| SExpr (e : expr)
| SWith (ctx : expr) (asname : string) (body : list stmt)
| SFor (x : string) (iter : expr) (body : list stmt).

Definition cell := list stmt.
Definition notebook := list cell.

(** Shorthands that keep the transcription close to the Python text. *)
Definition call (f : expr) (args : list expr) : expr := ECall f args [].
Definition attr2 (m a : string) : expr := EAttr (EName m) a.
Definition assign (x : string) (e : expr) : stmt := SAssign [x] e.

(** ** Cells shared by the notebooks *)

(** [with open('./imagenet-simple-labels.json') as file: labels = json.load(file)] *)
Definition load_labels : list stmt :=
  [ SImport "json" None;
    SWith (call (EName "open") [EStr "./imagenet-simple-labels.json"]) "file"
      [ assign "labels" (call (attr2 "json" "load") [EName "file"]) ] ].

Definition sleep_cell : cell := [ SShell "sleep 45" ].

Definition health_cell : cell := [ SShell "curl -v triton:8000/v2/health/ready" ].

(** [triton_client = tritonhttpclient.InferenceServerClient(url=url, verbose=VERBOSE)]
    and the two metadata queries. *)
Definition client_cell : cell :=
  [ assign "triton_client"
      (ECall (attr2 "tritonhttpclient" "InferenceServerClient") []
         [("url", EName "url"); ("verbose", EName "VERBOSE")]);
    assign "model_metadata"
      (ECall (attr2 "triton_client" "get_model_metadata") []
         [("model_name", EName "model_name");
          ("model_version", EName "model_version")]);
    assign "model_config"
      (ECall (attr2 "triton_client" "get_model_config") []
         [("model_name", EName "model_name");
          ("model_version", EName "model_version")]) ].

(** The request statements common to the inference cells. *)
Definition build_input (shape dtype : expr) : list stmt :=
  [ assign "input0"
      (call (attr2 "tritonhttpclient" "InferInput")
         [EName "input_name"; shape; dtype]);
    SExpr (ECall (attr2 "input0" "set_data_from_numpy")
             [EName "image_numpy"] [("binary_data", EBool false)]) ].

Definition send_request : list stmt :=
  [ assign "output"
      (ECall (attr2 "tritonhttpclient" "InferRequestedOutput")
         [EName "output_name"] [("binary_data", EBool false)]);
    assign "response"
      (ECall (attr2 "triton_client" "infer") [EName "model_name"]
         [("model_version", EName "model_version");
          ("inputs", EList [EName "input0"]);
          ("outputs", EList [EName "output"])]) ].

Definition read_logits (name : expr) : list stmt :=
  [ assign "logits" (call (attr2 "response" "as_numpy") [name]);
    assign "logits"
      (ECall (attr2 "np" "asarray") [EName "logits"]
         [("dtype", attr2 "np" "float32")]) ].

Definition infer_cell : cell :=
  build_input (EName "input_shape") (EName "input_dtype")
  ++ send_request ++ read_logits (EName "output_name").

(** [print(labels[np.argmax(logits)])] *)
Definition decode_cell : cell :=
  [ SExpr (call (EName "print")
      [EIndex (EName "labels") (call (attr2 "np" "argmax") [EName "logits"])]) ].

Definition shutdown_cell : cell :=
  [ SImport "IPython" None;
    SExpr (call
      (EAttr (EAttr (call (EAttr (attr2 "IPython" "Application") "instance") [])
                "kernel") "do_shutdown")
      [EBool true]) ].

(** The exercise cells whose right-hand sides are the placeholder [FIXME]. *)
Definition fixme_names_cell : cell :=
  map (fun x => assign x (EName "FIXME"))
    ["VERBOSE"; "input_name"; "input_shape"; "input_dtype"; "output_name";
     "model_name"; "url"; "model_version"].

Definition fixme_infer_cell : cell :=
  [ assign "input0" (EName "FIXME");
    assign "output" (EName "FIXME");
    assign "response" (EName "FIXME") ]
  ++ read_logits (EName "output_name").

Definition names_cell (input_name : string) (shape : list Z)
    (output_name model_name : string) : cell :=
  [ assign "VERBOSE" (EBool false);
    assign "input_name" (EStr input_name);
    assign "input_shape" (ETuple (map EInt shape));
    assign "input_dtype" (EStr "FP32");
    assign "output_name" (EStr output_name);
    assign "model_name" (EStr model_name);
    assign "url" (EStr "triton:8000");
    assign "model_version" (EStr "1") ].

(** ** Configuration text *)

(** The text between the triple quotes of a configuration cell.  The five
    cells differ in the model name, the platform, the tensor names, the
    input format and dims, and the spelling of the output dims. *)
Definition configuration_text (name platform input format in_dims output
    out_dims : string) : string :=
  triple_quoted
    [ "name: " +:+ quoted name;
      "platform: " +:+ quoted platform;
      "max_batch_size: 32";
      "input [";
      " {";
      "    name: " +:+ quoted input;
      "    data_type: TYPE_FP32";
      "    format: " +:+ format;
      "    dims: " +:+ in_dims;
      "  }";
      "]";
      "output {";
      "    name: " +:+ quoted output;
      "    data_type: TYPE_FP32";
      "    dims: " +:+ out_dims;
      "  }" ].

(** The assignment of the triple-quoted text to [configuration], followed
    by [with open(path, 'w') as file: file.write(configuration)]. *)
Definition config_cell (text path : string) : cell :=
  [ assign "configuration" (EStr text);
    SWith (call (EName "open") [EStr path; EStr "w"]) "file"
      [ SExpr (call (attr2 "file" "write") [EName "configuration"]) ] ].

(** A class that wraps a framework model: [__init__] stores it in
    [self.model], [forward] returns [self.model(x)]. *)
Definition wrapper_class (name : string) (init_params : list string)
    (init : expr) : stmt :=
  SClass name [attr2 "nn" "Module"]
    [ SDef [] "__init__" ("self" :: init_params)
        [ SExpr (call (EAttr (call (EName "super") [EName name; EName "self"])
                         "__init__") []);
          SSetAttr (EName "self") "model" init ];
      SDef [] "forward" ["self"; "x"]
        [ SReturn (call (attr2 "self" "model") [EName "x"]) ] ].

(** ** Notebook 02 - Simple PyTorch Model *)

Definition pytorch_config : string :=
  configuration_text "simple-pytorch-model" "pytorch_libtorch" "input__0"
    "FORMAT_NCHW" "[ 3, 224, 224 ]" "output__0" "[ 1000 ]".

Definition onnx_config : string :=
  configuration_text "simple-onnx-model" "onnxruntime_onnx" "actual_input_1"
    "FORMAT_NCHW" "[ 3, 224, 224 ]" "output1" "[ 1000]".

Definition imagenet_mean : expr :=
  EList [EFloat "0.485"; EFloat "0.456"; EFloat "0.406"].
Definition imagenet_std : expr :=
  EList [EFloat "0.485"; EFloat "0.456"; EFloat "0.406"].

Definition nb02_pytorch : notebook :=
  [ (* directory structure *)
    [ SShell "mkdir -p models/simple-pytorch-model";
      SShell "mkdir -p models/simple-pytorch-model/1";
      SShell "mkdir -p models/simple-onnx-model";
      SShell "mkdir -p models/simple-onnx-model/1" ];
    (* model definition *)
    [ SImport "torch" None;
      SFromImport "torch" ["nn"];
      SFromImport "torchvision" ["models"];
      wrapper_class "Model" []
        (ECall (attr2 "models" "resnet50") [] [("pretrained", EBool true)]);
      assign "model"
        (call (EAttr (call (EAttr (call (EName "Model") []) "eval") []) "cuda") []) ];
    (* labels *)
    load_labels ++
    [ SExpr (call (EName "print") [ESliceTo (EName "labels") (EInt 5)]) ];
    (* sample image *)
    [ SImport "numpy" (Some "np");
      SFromImport "PIL" ["Image"];
      assign "image" (call (attr2 "Image" "open") [EStr "./assets/goldfish.jpg"]);
      SExpr (EName "image") ];
    (* transformation pipeline *)
    [ SFromImport "torchvision" ["transforms"];
      assign "imagenet_mean" imagenet_mean;
      assign "imagenet_std" imagenet_std;
      assign "resize"
        (call (attr2 "transforms" "Resize") [ETuple [EInt 256; EInt 256]]);
      assign "center_crop" (call (attr2 "transforms" "CenterCrop") [EInt 224]);
      assign "to_tensor" (call (attr2 "transforms" "ToTensor") []);
      assign "normalize"
        (ECall (attr2 "transforms" "Normalize") []
           [("mean", EName "imagenet_mean"); ("std", EName "imagenet_std")]);
      assign "transform"
        (call (attr2 "transforms" "Compose")
           [EList [EName "resize"; EName "center_crop"; EName "to_tensor";
                   EName "normalize"]]) ];
    (* local validation *)
    [ assign "image_tensor"
        (call (EAttr (call (EAttr (call (EName "transform") [EName "image"])
                              "unsqueeze") [EInt 0]) "cuda") []);
      assign "logits" (call (EName "model") [EName "image_tensor"]);
      assign "K" (EInt 3);
      SAssign ["values"; "indices"]
        (call (attr2 "torch" "topk") [EName "logits"; EName "K"]);
      assign "values"
        (EIndex (call (EAttr (call (attr2 "values" "detach") []) "tolist") [])
           (EInt 0));
      assign "indices"
        (EIndex (call (EAttr (call (attr2 "indices" "detach") []) "tolist") [])
           (EInt 0));
      SFor "i" (call (EName "range") [EName "K"])
        [ SExpr (call (EName "print")
            [ EIndex (EName "values") (EName "i");
              EIndex (EName "indices") (EName "i");
              EIndex (EName "labels") (EIndex (EName "indices") (EName "i")) ]) ] ];
    (* TorchScript export *)
    [ wrapper_class "PyTorch_to_TorchScript" ["my_model"] (attr2 "my_model" "model");
      assign "torchscript_model"
        (call (EAttr (call (EAttr (call (EName "PyTorch_to_TorchScript")
                                     [EName "model"]) "eval") []) "cuda") []);
      assign "traced_script_module"
        (call (EAttr (attr2 "torch" "jit") "script") [EName "torchscript_model"]);
      SExpr (call (attr2 "traced_script_module" "save")
               [EStr "models/simple-pytorch-model/1/model.pt"]) ];
    (* ONNX export *)
    [ assign "dummy_input"
        (call (EAttr (call (attr2 "torch" "randn")
                        [EInt 1; EInt 3; EInt 224; EInt 224]) "cuda") []);
      assign "input_names"
        (EBin Add (EList [EStr "actual_input_1"])
           (EListComp (EBin Mod (EStr "learned_%d") (EName "i")) "i"
              (call (EName "range") [EInt 16])));
      assign "output_names" (EList [EStr "output1"]);
      SExpr (ECall (EAttr (attr2 "torch" "onnx") "export")
               [EName "model"; EName "dummy_input";
                EStr "models/simple-onnx-model/1/model.onnx"]
               [("verbose", EBool false);
                ("input_names", EName "input_names");
                ("output_names", EName "output_names");
                ("dynamic_axes",
                 EDict [(EStr "actual_input_1", EDict [(EInt 0, EStr "batch_size")]);
                        (EStr "output1", EDict [(EInt 0, EStr "batch_size")])])]) ];
    (* configuration files *)
    config_cell pytorch_config "models/simple-pytorch-model/config.pbtxt";
    config_cell onnx_config "models/simple-onnx-model/config.pbtxt";
    (* wait for the server, then query it *)
    sleep_cell;
    health_cell;
    [ SShell "curl -v triton:8000/v2/models/simple-pytorch-model" ];
    [ SShell "curl -v triton:8000/v2/models/simple-onnx-model" ];
    (* inference request *)
    [ SImport "tritonclient.http" (Some "tritonhttpclient") ];
    names_cell "input__0" [1; 3; 224; 224] "output__0" "simple-pytorch-model";
    client_cell;
    [ assign "image_numpy"
        (call (EAttr (call (attr2 "image_tensor" "cpu") []) "numpy") []);
      SExpr (call (EName "print") [attr2 "image_numpy" "shape"]) ];
    infer_cell ++ [ SExpr (call (EName "print") [attr2 "logits" "shape"]) ];
    decode_cell;
    (* exercise: the ONNX model *)
    fixme_names_cell;
    names_cell "actual_input_1" [1; 3; 224; 224] "output1" "simple-onnx-model";
    [ assign "triton_client"
        (ECall (attr2 "tritonhttpclient" "FIXME") []
           [("url", EName "url"); ("verbose", EName "VERBOSE")]);
      assign "model_metadata"
        (ECall (attr2 "triton_client" "FIXME") []
           [("model_name", EName "model_name");
            ("model_version", EName "model_version")]);
      assign "model_config"
        (ECall (attr2 "triton_client" "FIXME") []
           [("model_name", EName "model_name");
            ("model_version", EName "model_version")]) ];
    client_cell;
    [ assign "image_numpy"
        (call (EAttr (call (attr2 "image_tensor" "cpu") []) "numpy") []);
      SExpr (call (EName "print") [attr2 "image_numpy" "shape"]) ];
    fixme_infer_cell;
    infer_cell;
    decode_cell;
    shutdown_cell ].

(** ** Notebook 04 - Simple TensorFlow Model *)

Definition tensorflow_config : string :=
  configuration_text "simple-tensorflow-model" "tensorflow_savedmodel" "input_0"
    "FORMAT_NHWC" "[ 224, 224, 3 ]" "output_0" "[ 1000 ]".

(** [img = image.load_img(...)] up to [preprocess_input(image_numpy)]. *)
Definition keras_preprocess : list stmt :=
  [ assign "img"
      (ECall (attr2 "image" "load_img") [EName "img_path"]
         [("target_size", ETuple [EInt 224; EInt 224])]);
    assign "image_numpy" (call (attr2 "image" "img_to_array") [EName "img"]);
    assign "image_numpy"
      (ECall (attr2 "np" "expand_dims") [EName "image_numpy"] [("axis", EInt 0)]);
    assign "image_numpy" (call (EName "preprocess_input") [EName "image_numpy"]) ].

Definition open_image_cell : cell :=
  [ SImport "numpy" (Some "np");
    SFromImport "PIL" ["Image"];
    assign "img_path" (EStr "./assets/goldfish.jpg");
    assign "image_pil" (call (attr2 "Image" "open") [EName "img_path"]);
    SExpr (EName "image_pil") ].

Definition nb04_tensorflow : notebook :=
  [ [ SShell "mkdir -p models/simple-tensorflow-model/";
      SShell "mkdir -p models/simple-tensorflow-model/1/" ];
    (* model definition and SavedModel export *)
    [ SImport "tensorflow" (Some "tf");
      SExpr (call (EAttr (EAttr (attr2 "tf" "config") "optimizer") "set_jit")
               [EBool true]);
      SClass "WrappedModel" [attr2 "tf" "Module"]
        [ SDef [] "__init__" ["self"]
            [ SExpr (call (EAttr (call (EName "super")
                                    [EName "WrappedModel"; EName "self"])
                             "__init__") []);
              SSetAttr (EName "self") "model"
                (call (EAttr (EAttr (attr2 "tf" "keras") "applications")
                         "ResNet50") []) ];
          SDef [attr2 "tf" "function"] "__call__" ["self"; "x"]
            [ SReturn (call (attr2 "self" "model") [EName "x"]) ] ];
      assign "model" (call (EName "WrappedModel") []);
      assign "call"
        (call (EAttr (attr2 "model" "__call__") "get_concrete_function")
           [ECall (attr2 "tf" "TensorSpec")
              [EList [EName "None"; EName "None"; EName "None"; EName "None"];
               attr2 "tf" "float32"]
              [("name", EStr "input_0")]]);
      SExpr (ECall (EAttr (attr2 "tf" "saved_model") "save")
               [EName "model";
                EStr "models/simple-tensorflow-model/1/model.savedmodel"]
               [("signatures", EName "call")]) ];
    load_labels ++
    [ SExpr (call (EName "print") [ESliceTo (EName "labels") (EInt 5)]) ];
    open_image_cell;
    (* local validation with Keras *)
    [ SFromImport "tensorflow.keras.applications.resnet50" ["ResNet50"];
      SFromImport "tensorflow.keras.preprocessing" ["image"];
      SFromImport "tensorflow.keras.applications.resnet50"
        ["preprocess_input"; "decode_predictions"];
      SImport "numpy" (Some "np");
      assign "model" (ECall (EName "ResNet50") [] [("weights", EStr "imagenet")]) ]
    ++ keras_preprocess ++
    [ assign "preds" (call (attr2 "model" "predict") [EName "image_numpy"]);
      SComment "decode the results into a list of tuples (class, description, probability)";
      SComment "(one such list for each sample in the batch)";
      SExpr (call (EName "print")
        [EStr "Predicted:";
         EIndex (ECall (EName "decode_predictions") [EName "preds"]
                   [("top", EInt 3)]) (EInt 0)]) ];
    config_cell tensorflow_config "models/simple-tensorflow-model/config.pbtxt";
    sleep_cell;
    health_cell;
    [ SShell "curl -v triton:8000/v2/models/simple-tensorflow-model" ];
    [ SImport "tritonclient.http" (Some "tritonhttpclient");
      SFromImport "tritonclient.utils" ["triton_to_np_dtype"] ];
    names_cell "input_0" [1; 224; 224; 3] "output_0" "simple-tensorflow-model";
    client_cell;
    infer_cell;
    decode_cell;
    [ SShell "rm -rf models/simple-tensorflow-model" ];
    shutdown_cell ].

(** ** Notebook 05 - Simple TensorRT Model *)

Definition tensorrt_fp32_config : string :=
  configuration_text "simple-tensorrt-fp32-model" "tensorrt_plan" "actual_input_1"
    "FORMAT_NCHW" "[ 3, 224, 224 ]" "output1" "[ 1000 ]".

Definition tensorrt_fp16_config : string :=
  configuration_text "simple-tensorrt-fp16-model" "tensorrt_plan" "actual_input_1"
    "FORMAT_NCHW" "[ 3, 224, 224 ]" "output1" "[ 1000 ]".

(** The [trtexec] command line; the backslash-continued lines of the cell
    are joined with single spaces. *)
Definition trtexec_cmd (engine : string) (extra : string) : string :=
  "trtexec --onnx=models/simple-onnx-model/1/model.onnx --explicitBatch"
  +:+ " --optShapes=actual_input_1:16x3x224x224"
  +:+ " --maxShapes=actual_input_1:32x3x224x224"
  +:+ " --minShapes=actual_input_1:1x3x224x224"
  +:+ " --shapes=actual_input_1:1x3x224x224"
  +:+ " --saveEngine=" +:+ engine +:+ extra.

Definition nb05_tensorrt : notebook :=
  [ [ SShell "mkdir -p models/simple-tensorrt-fp32-model/";
      SShell "mkdir -p models/simple-tensorrt-fp32-model/1/";
      SShell "mkdir -p models/simple-tensorrt-fp16-model/";
      SShell "mkdir -p models/simple-tensorrt-fp16-model/1/" ];
    [ SComment "!trtexec" ];
    [ SShell (trtexec_cmd "models/simple-tensorrt-fp32-model/1/model.plan" "") ];
    [ SShell (trtexec_cmd "models/simple-tensorrt-fp16-model/1/model.plan" " --fp16") ];
    config_cell tensorrt_fp32_config "models/simple-tensorrt-fp32-model/config.pbtxt";
    config_cell tensorrt_fp16_config "models/simple-tensorrt-fp16-model/config.pbtxt";
    sleep_cell;
    health_cell;
    [ SShell "curl -v triton:8000/v2/models/simple-tensorrt-fp32-model" ];
    [ SShell "curl -v triton:8000/v2/models/simple-tensorrt-fp16-model" ];
    [ SImport "tritonclient.http" (Some "tritonhttpclient");
      SFromImport "tritonclient.utils" ["triton_to_np_dtype"] ];
    load_labels;
    open_image_cell;
    [ SFromImport "tensorflow.keras.preprocessing" ["image"];
      SFromImport "tensorflow.keras.applications.resnet50" ["preprocess_input"];
      SImport "numpy" (Some "np") ]
    ++ keras_preprocess ++
    [ assign "image_numpy"
        (EBin Div
           (call (attr2 "np" "transpose")
              [EName "image_numpy"; EList [EInt 0; EInt 3; EInt 1; EInt 2]])
           (EFloat "255."));
      SExpr (call (EName "print") [attr2 "image_numpy" "shape"]) ];
    (* inference request: the FP32 model *)
    [ assign "VERBOSE" (EBool false);
      assign "input_name" (EStr "actual_input_1");
      assign "output_name" (EStr "output1");
      assign "model_name" (EStr "simple-tensorrt-fp32-model");
      assign "url" (EStr "triton:8000");
      assign "model_version" (EStr "1") ];
    client_cell;
    build_input (ETuple [EInt 1; EInt 3; EInt 224; EInt 224]) (EStr "FP32")
    ++ send_request ++ read_logits (EStr "output1");
    decode_cell;
    (* exercise: the FP16 model *)
    fixme_names_cell;
    names_cell "actual_input_1" [1; 3; 224; 224] "output1"
      "simple-tensorrt-fp16-model";
    [ assign "triton_client" (EName "FIXME");
      assign "model_metadata" (EName "FIXME");
      assign "model_config" (EName "FIXME") ];
    client_cell;
    fixme_infer_cell;
    infer_cell;
    decode_cell;
    shutdown_cell ].

Definition notebooks : list notebook :=
  [ nb02_pytorch; nb04_tensorflow; nb05_tensorrt ].

(** ** The text of the cells

    The cells above are compared with the text of the notebook files: a
    cell is printed as Python text, and both texts are cut into logical
    lines, each with its indentation and its content without the white
    space outside string literals.  *)

Definition sq : string := String "039" EmptyString.
Definition dq3 : string := dq +:+ dq +:+ dq.

(** Lines joined by line feeds. *)
Definition text (ls : list string) : string := String.concat lf ls.

Fixpoint has_lf (s : string) : bool :=
  match s with
  | EmptyString => false
  | String a s' => Ascii.eqb a "010" || has_lf s'
  end.

Definition commas (l : list string) : string := String.concat ", " l.

Definition render_op (op : binop) : string :=
  match op with
  | Add => "+"
  | Mod => "%"
  | Div => "/"
  end.

Fixpoint render_expr (e : expr) : string :=
  match e with
  | EName x => x
  | EStr s => if has_lf s then dq3 +:+ s +:+ dq3 else sq +:+ s +:+ sq
  | EInt n => pretty n
  | EFloat lit => lit
  | EBool b => if b then "True" else "False"
  | ETuple es => "(" +:+ commas (map render_expr es) +:+ ")"
  | EList es => "[" +:+ commas (map render_expr es) +:+ "]"
  | EDict kvs =>
      "{" +:+ commas (map (fun kv => render_expr (fst kv) +:+ ": "
                                     +:+ render_expr (snd kv)) kvs) +:+ "}"
  | EAttr e' a => render_expr e' +:+ "." +:+ a
  | ECall f args kws =>
      render_expr f +:+ "("
      +:+ commas (map render_expr args
                  ++ map (fun kv => fst kv +:+ "=" +:+ render_expr (snd kv)) kws)
      +:+ ")"
  | EIndex e' i => render_expr e' +:+ "[" +:+ render_expr i +:+ "]"
  | ESliceTo e' hi => render_expr e' +:+ "[:" +:+ render_expr hi +:+ "]"
  | EBin op a b =>
      render_expr a +:+ " " +:+ render_op op +:+ " " +:+ render_expr b
  | EListComp elt x iter =>
      "[" +:+ render_expr elt +:+ " for " +:+ x +:+ " in "
      +:+ render_expr iter +:+ "]"
  end.

Fixpoint spaces (n : nat) : string :=
  match n with
  | O => EmptyString
  | S n' => String " " (spaces n')
  end.

(** The lines of a statement at indentation [ind]; a block is indented by
    four more spaces. *)
Fixpoint render_stmt (ind : nat) (s : stmt) : list string :=
  let block := fix block (ss : list stmt) : list string :=
    match ss with
    | [] => []
    | s' :: r => render_stmt (4 + ind) s' ++ block r
    end in
  match s with
  | SShell cmd => [spaces ind +:+ "!" +:+ cmd]
  | SComment t => [spaces ind +:+ "# " +:+ t]
  | SImport m None => [spaces ind +:+ "import " +:+ m]
  | SImport m (Some a) => [spaces ind +:+ "import " +:+ m +:+ " as " +:+ a]
  | SFromImport m names =>
      [spaces ind +:+ "from " +:+ m +:+ " import " +:+ commas names]
  | SClass name bases body =>
      (spaces ind +:+ "class " +:+ name +:+ "("
       +:+ commas (map render_expr bases) +:+ "):") :: block body
  | SDef decs name params body =>
      map (fun d => spaces ind +:+ "@" +:+ render_expr d) decs
      ++ (spaces ind +:+ "def " +:+ name +:+ "(" +:+ commas params +:+ "):")
      :: block body
  | SReturn e => [spaces ind +:+ "return " +:+ render_expr e]
  | SSetAttr o a e =>
      [spaces ind +:+ render_expr o +:+ "." +:+ a +:+ " = " +:+ render_expr e]
  | SAssign xs e => [spaces ind +:+ commas xs +:+ " = " +:+ render_expr e]
  | SExpr e => [spaces ind +:+ render_expr e]
  | SWith ctx x body =>
      (spaces ind +:+ "with " +:+ render_expr ctx +:+ " as " +:+ x +:+ ":")
      :: block body
  | SFor x iter body =>
      (spaces ind +:+ "for " +:+ x +:+ " in " +:+ render_expr iter +:+ ":")
      :: block body
  end.

Definition render_cell (c : cell) : string :=
  text (flat_map (render_stmt 0) c).

Inductive lex_mode := InCode | InSingle | InTriple | InComment.

Definition opens (a : ascii) : bool :=
  Ascii.eqb a "(" || Ascii.eqb a "[" || Ascii.eqb a "{".
Definition closes (a : ascii) : bool :=
  Ascii.eqb a ")" || Ascii.eqb a "]" || Ascii.eqb a "}".

Definition emit_line (indent : nat) (cur : string) : list (nat * string) :=
  match cur with
  | EmptyString => []
  | _ => [(indent, String.rev cur)]
  end.

(** [scan s mode depth fresh indent cur]: [depth] counts the brackets that
    are open, [fresh] tells whether only white space was read on the
    logical line so far, [indent] is its indentation and [cur] its content
    so far, reversed.  A line feed ends a logical line unless a bracket is
    open, a backslash precedes it or a triple-quoted string is open. *)
Fixpoint scan (s : string) (mode : lex_mode) (depth : nat) (fresh : bool)
    (indent : nat) (cur : string) : list (nat * string) :=
  match s with
  | EmptyString => emit_line indent cur
  | String a s' =>
      match mode with
      | InSingle =>
          scan s' (if Ascii.eqb a "039" then InCode else InSingle)
            depth false indent (String a cur)
      | InTriple =>
          match s' with
          | String b (String c s3) =>
              if Ascii.eqb a "034" && Ascii.eqb b "034" && Ascii.eqb c "034"
              then scan s3 InCode depth false indent
                     (String c (String b (String a cur)))
              else scan s' InTriple depth false indent (String a cur)
          | _ => scan s' InTriple depth false indent (String a cur)
          end
      | InComment =>
          if Ascii.eqb a "010" then
            if Nat.eqb depth 0
            then emit_line indent cur ++ scan s' InCode 0 true 0 EmptyString
            else scan s' InCode depth fresh indent cur
          else if Ascii.is_space a then scan s' InComment depth fresh indent cur
          else scan s' InComment depth false indent (String a cur)
      | InCode =>
          if Ascii.eqb a "010" then
            if Nat.eqb depth 0
            then emit_line indent cur ++ scan s' InCode 0 true 0 EmptyString
            else scan s' InCode depth fresh indent cur
          else if Ascii.is_space a then
            scan s' InCode depth fresh (if fresh then S indent else indent) cur
          else if Ascii.eqb a "\" then
            match s' with
            | String b s2 =>
                if Ascii.eqb b "010" then scan s2 InCode depth fresh indent cur
                else scan s' InCode depth fresh indent cur
            | EmptyString => emit_line indent cur
            end
          else if Ascii.eqb a "039" then
            scan s' InSingle depth false indent (String a cur)
          else if Ascii.eqb a "#" then
            scan s' InComment depth false indent (String a cur)
          else if Ascii.eqb a "034" then
            match s' with
            | String b (String c s3) =>
                if Ascii.eqb b "034" && Ascii.eqb c "034"
                then scan s3 InTriple depth false indent
                       (String c (String b (String a cur)))
                else scan s' InCode depth false indent (String a cur)
            | _ => scan s' InCode depth false indent (String a cur)
            end
          else
            scan s' InCode
              (if opens a then S depth else if closes a then pred depth else depth)
              false indent (String a cur)
      end
  end.

Definition logical_lines (s : string) : list (nat * string) :=
  scan s InCode 0 true 0 EmptyString.

(** The code cells of notebook 02, as they are in the notebook file. *)
Definition source_02 : list string :=
  [ text
    [ "!mkdir -p models/simple-pytorch-model";
      "!mkdir -p models/simple-pytorch-model/1";
      "!mkdir -p models/simple-onnx-model";
      "!mkdir -p models/simple-onnx-model/1" ];
    text
    [ "import torch";
      "from torch import nn";
      "from torchvision import models";
      EmptyString;
      EmptyString;
      "class Model(nn.Module):";
      "    def __init__(self):";
      "        super(Model, self).__init__()";
      "        self.model = models.resnet50(pretrained=True)";
      "        ";
      "    def forward(self, x):";
      "        return self.model(x)";
      EmptyString;
      "model = Model().eval().cuda()" ];
    text
    [ "import json";
      EmptyString;
      "with open('./imagenet-simple-labels.json') as file:";
      "    labels = json.load(file)";
      EmptyString;
      "print(labels[:5])" ];
    text
    [ "import numpy as np";
      "from PIL import Image";
      EmptyString;
      EmptyString;
      "image = Image.open('./assets/goldfish.jpg')";
      "image" ];
    text
    [ "from torchvision import transforms";
      EmptyString;
      EmptyString;
      "imagenet_mean = [0.485, 0.456, 0.406]";
      "imagenet_std = [0.485, 0.456, 0.406]";
      EmptyString;
      "resize = transforms.Resize((256, 256))";
      "center_crop = transforms.CenterCrop(224)";
      "to_tensor = transforms.ToTensor()";
      "normalize = transforms.Normalize(mean=imagenet_mean,";
      "                                 std=imagenet_std)";
      EmptyString;
      "transform = transforms.Compose([resize, center_crop, to_tensor, normalize])" ];
    text
    [ "image_tensor = transform(image).unsqueeze(0).cuda()";
      "logits = model(image_tensor)";
      EmptyString;
      "K = 3";
      "values, indices = torch.topk(logits, K)";
      EmptyString;
      "values = values.detach().tolist()[0]";
      "indices = indices.detach().tolist()[0]";
      EmptyString;
      "for i in range(K):";
      "    print(values[i], indices[i], labels[indices[i]])" ];
    text
    [ "class PyTorch_to_TorchScript(nn.Module):";
      "    def __init__(self, my_model):";
      "        super(PyTorch_to_TorchScript, self).__init__()";
      "        self.model = my_model.model";
      "    ";
      "    def forward(self, x):";
      "        return self.model(x)";
      EmptyString;
      "torchscript_model = PyTorch_to_TorchScript(model).eval().cuda()";
      "traced_script_module = torch.jit.script(torchscript_model)";
      "traced_script_module.save('models/simple-pytorch-model/1/model.pt')" ];
    text
    [ "dummy_input = torch.randn(1, 3, 224, 224).cuda()";
      EmptyString;
      "input_names = ['actual_input_1'] + ['learned_%d' % i for i in range(16)]";
      "output_names = ['output1']";
      EmptyString;
      "torch.onnx.export(model, dummy_input, ";
      "                  'models/simple-onnx-model/1/model.onnx', verbose=False, ";
      "                  input_names=input_names, output_names=output_names, ";
      "                  dynamic_axes={'actual_input_1': {0: 'batch_size'}, 'output1': {0: 'batch_size'}})" ];
    text
    [ ("configuration = " +:+ dq +:+ dq +:+ dq);
      ("name: " +:+ dq +:+ "simple-pytorch-model" +:+ dq);
      ("platform: " +:+ dq +:+ "pytorch_libtorch" +:+ dq);
      "max_batch_size: 32";
      "input [";
      " {";
      ("    name: " +:+ dq +:+ "input__0" +:+ dq);
      "    data_type: TYPE_FP32";
      "    format: FORMAT_NCHW";
      "    dims: [ 3, 224, 224 ]";
      "  }";
      "]";
      "output {";
      ("    name: " +:+ dq +:+ "output__0" +:+ dq);
      "    data_type: TYPE_FP32";
      "    dims: [ 1000 ]";
      "  }";
      (dq +:+ dq +:+ dq);
      EmptyString;
      "with open('models/simple-pytorch-model/config.pbtxt', 'w') as file:";
      "    file.write(configuration)" ];
    text
    [ ("configuration = " +:+ dq +:+ dq +:+ dq);
      ("name: " +:+ dq +:+ "simple-onnx-model" +:+ dq);
      ("platform: " +:+ dq +:+ "onnxruntime_onnx" +:+ dq);
      "max_batch_size: 32";
      "input [";
      " {";
      ("    name: " +:+ dq +:+ "actual_input_1" +:+ dq);
      "    data_type: TYPE_FP32";
      "    format: FORMAT_NCHW";
      "    dims: [ 3, 224, 224 ]";
      "  }";
      "]";
      "output {";
      ("    name: " +:+ dq +:+ "output1" +:+ dq);
      "    data_type: TYPE_FP32";
      "    dims: [ 1000]";
      "  }";
      (dq +:+ dq +:+ dq);
      EmptyString;
      "with open('models/simple-onnx-model/config.pbtxt', 'w') as file:";
      "    file.write(configuration)" ];
    text
    [ "!sleep 45" ];
    text
    [ "!curl -v triton:8000/v2/health/ready" ];
    text
    [ "!curl -v triton:8000/v2/models/simple-pytorch-model" ];
    text
    [ "!curl -v triton:8000/v2/models/simple-onnx-model" ];
    text
    [ "import tritonclient.http as tritonhttpclient" ];
    text
    [ "VERBOSE = False";
      "input_name = 'input__0'";
      "input_shape = (1, 3, 224, 224)";
      "input_dtype = 'FP32'";
      "output_name = 'output__0'";
      "model_name = 'simple-pytorch-model'";
      "url = 'triton:8000'";
      "model_version = '1'" ];
    text
    [ "triton_client = tritonhttpclient.InferenceServerClient(url=url, verbose=VERBOSE)";
      "model_metadata = triton_client.get_model_metadata(model_name=model_name, model_version=model_version)";
      "model_config = triton_client.get_model_config(model_name=model_name, model_version=model_version)" ];
    text
    [ "image_numpy = image_tensor.cpu().numpy()";
      "print(image_numpy.shape)" ];
    text
    [ "input0 = tritonhttpclient.InferInput(input_name, input_shape, input_dtype)";
      "input0.set_data_from_numpy(image_numpy, binary_data=False)";
      EmptyString;
      "output = tritonhttpclient.InferRequestedOutput(output_name, binary_data=False)";
      "response = triton_client.infer(model_name, model_version=model_version, ";
      "                               inputs=[input0], outputs=[output])";
      "logits = response.as_numpy(output_name)";
      "logits = np.asarray(logits, dtype=np.float32)";
      "print(logits.shape)" ];
    text
    [ "print(labels[np.argmax(logits)])" ];
    text
    [ "VERBOSE = FIXME";
      "input_name = FIXME";
      "input_shape = FIXME";
      "input_dtype = FIXME";
      "output_name = FIXME";
      "model_name = FIXME";
      "url = FIXME";
      "model_version = FIXME" ];
    text
    [ "VERBOSE = False";
      "input_name = 'actual_input_1'";
      "input_shape = (1, 3, 224, 224)";
      "input_dtype = 'FP32'";
      "output_name = 'output1'";
      "model_name = 'simple-onnx-model'";
      "url = 'triton:8000'";
      "model_version = '1'" ];
    text
    [ "triton_client = tritonhttpclient.FIXME(url=url, verbose=VERBOSE)";
      "model_metadata = triton_client.FIXME(model_name=model_name, model_version=model_version)";
      "model_config = triton_client.FIXME(model_name=model_name, model_version=model_version)" ];
    text
    [ "triton_client = tritonhttpclient.InferenceServerClient(url=url, verbose=VERBOSE)";
      "model_metadata = triton_client.get_model_metadata(model_name=model_name, model_version=model_version)";
      "model_config = triton_client.get_model_config(model_name=model_name, model_version=model_version)" ];
    text
    [ "image_numpy = image_tensor.cpu().numpy()";
      "print(image_numpy.shape)" ];
    text
    [ "input0 = FIXME";
      EmptyString;
      "output = FIXME";
      "response = FIXME";
      EmptyString;
      "logits = response.as_numpy(output_name)";
      "logits = np.asarray(logits, dtype=np.float32)" ];
    text
    [ "input0 = tritonhttpclient.InferInput(input_name, input_shape, input_dtype)";
      "input0.set_data_from_numpy(image_numpy, binary_data=False)";
      EmptyString;
      "output = tritonhttpclient.InferRequestedOutput(output_name, binary_data=False)";
      "response = triton_client.infer(model_name, model_version=model_version, ";
      "                               inputs=[input0], outputs=[output])";
      "logits = response.as_numpy(output_name)";
      "logits = np.asarray(logits, dtype=np.float32)" ];
    text
    [ "print(labels[np.argmax(logits)])" ];
    text
    [ "import IPython";
      "IPython.Application.instance().kernel.do_shutdown(True)" ] ].

(** The code cells of notebook 04, as they are in the notebook file. *)
Definition source_04 : list string :=
  [ text
    [ "!mkdir -p models/simple-tensorflow-model/";
      "!mkdir -p models/simple-tensorflow-model/1/" ];
    text
    [ "import tensorflow as tf";
      "tf.config.optimizer.set_jit(True)";
      EmptyString;
      EmptyString;
      "class WrappedModel(tf.Module):";
      "    def __init__(self):";
      "        super(WrappedModel, self).__init__()";
      "        self.model = tf.keras.applications.ResNet50()";
      "    @tf.function";
      "    def __call__(self, x):";
      "        return self.model(x)";
      EmptyString;
      "model = WrappedModel()";
      "call = model.__call__.get_concrete_function(tf.TensorSpec([None, None, None, None], ";
      "                                            tf.float32, name='input_0'))";
      "tf.saved_model.save(model, ";
      "                    'models/simple-tensorflow-model/1/model.savedmodel', ";
      "                    signatures=call)" ];
    text
    [ "import json";
      EmptyString;
      "with open('./imagenet-simple-labels.json') as file:";
      "    labels = json.load(file)";
      EmptyString;
      "print(labels[:5])" ];
    text
    [ "import numpy as np";
      "from PIL import Image";
      EmptyString;
      EmptyString;
      "img_path = './assets/goldfish.jpg'";
      "image_pil = Image.open(img_path)";
      "image_pil" ];
    text
    [ "from tensorflow.keras.applications.resnet50 import ResNet50";
      "from tensorflow.keras.preprocessing import image";
      "from tensorflow.keras.applications.resnet50 import preprocess_input, decode_predictions";
      "import numpy as np";
      EmptyString;
      "model = ResNet50(weights='imagenet')";
      EmptyString;
      "img = image.load_img(img_path, target_size=(224, 224))";
      "image_numpy = image.img_to_array(img)";
      "image_numpy = np.expand_dims(image_numpy, axis=0)";
      "image_numpy = preprocess_input(image_numpy)";
      EmptyString;
      "preds = model.predict(image_numpy)";
      "# decode the results into a list of tuples (class, description, probability)";
      "# (one such list for each sample in the batch)";
      "print('Predicted:', decode_predictions(preds, top=3)[0])" ];
    text
    [ ("configuration = " +:+ dq +:+ dq +:+ dq);
      ("name: " +:+ dq +:+ "simple-tensorflow-model" +:+ dq);
      ("platform: " +:+ dq +:+ "tensorflow_savedmodel" +:+ dq);
      "max_batch_size: 32";
      "input [";
      " {";
      ("    name: " +:+ dq +:+ "input_0" +:+ dq);
      "    data_type: TYPE_FP32";
      "    format: FORMAT_NHWC";
      "    dims: [ 224, 224, 3 ]";
      "  }";
      "]";
      "output {";
      ("    name: " +:+ dq +:+ "output_0" +:+ dq);
      "    data_type: TYPE_FP32";
      "    dims: [ 1000 ]";
      "  }";
      (dq +:+ dq +:+ dq);
      EmptyString;
      "with open('models/simple-tensorflow-model/config.pbtxt', 'w') as file:";
      "    file.write(configuration)" ];
    text
    [ "!sleep 45" ];
    text
    [ "!curl -v triton:8000/v2/health/ready" ];
    text
    [ "!curl -v triton:8000/v2/models/simple-tensorflow-model" ];
    text
    [ "import tritonclient.http as tritonhttpclient";
      "from tritonclient.utils import triton_to_np_dtype" ];
    text
    [ "VERBOSE = False";
      "input_name = 'input_0'";
      "input_shape = (1, 224, 224, 3)";
      "input_dtype = 'FP32'";
      "output_name = 'output_0'";
      "model_name = 'simple-tensorflow-model'";
      "url = 'triton:8000'";
      "model_version = '1'" ];
    text
    [ "triton_client = tritonhttpclient.InferenceServerClient(url=url, verbose=VERBOSE)";
      "model_metadata = triton_client.get_model_metadata(model_name=model_name, model_version=model_version)";
      "model_config = triton_client.get_model_config(model_name=model_name, model_version=model_version)" ];
    text
    [ "input0 = tritonhttpclient.InferInput(input_name, input_shape, input_dtype)";
      "input0.set_data_from_numpy(image_numpy, binary_data=False)";
      EmptyString;
      "output = tritonhttpclient.InferRequestedOutput(output_name, binary_data=False)";
      "response = triton_client.infer(model_name, model_version=model_version, ";
      "                               inputs=[input0], outputs=[output])";
      "logits = response.as_numpy(output_name)";
      "logits = np.asarray(logits, dtype=np.float32)" ];
    text
    [ "print(labels[np.argmax(logits)])" ];
    text
    [ "!rm -rf models/simple-tensorflow-model" ];
    text
    [ "import IPython";
      "IPython.Application.instance().kernel.do_shutdown(True)" ] ].

(** The code cells of notebook 05, as they are in the notebook file. *)
Definition source_05 : list string :=
  [ text
    [ "!mkdir -p models/simple-tensorrt-fp32-model/";
      "!mkdir -p models/simple-tensorrt-fp32-model/1/";
      "!mkdir -p models/simple-tensorrt-fp16-model/";
      "!mkdir -p models/simple-tensorrt-fp16-model/1/" ];
    text
    [ "# !trtexec" ];
    text
    [ "!trtexec \";
      "  --onnx=models/simple-onnx-model/1/model.onnx \";
      "  --explicitBatch \";
      "  --optShapes=actual_input_1:16x3x224x224 \";
      "  --maxShapes=actual_input_1:32x3x224x224 \";
      "  --minShapes=actual_input_1:1x3x224x224 \";
      "  --shapes=actual_input_1:1x3x224x224 \";
      "  --saveEngine=models/simple-tensorrt-fp32-model/1/model.plan";
      EmptyString ];
    text
    [ "!trtexec \";
      "  --onnx=models/simple-onnx-model/1/model.onnx \";
      "  --explicitBatch \";
      "  --optShapes=actual_input_1:16x3x224x224 \";
      "  --maxShapes=actual_input_1:32x3x224x224 \";
      "  --minShapes=actual_input_1:1x3x224x224 \";
      "  --shapes=actual_input_1:1x3x224x224 \";
      "  --saveEngine=models/simple-tensorrt-fp16-model/1/model.plan \";
      "  --fp16";
      EmptyString ];
    text
    [ ("configuration = " +:+ dq +:+ dq +:+ dq);
      ("name: " +:+ dq +:+ "simple-tensorrt-fp32-model" +:+ dq);
      ("platform: " +:+ dq +:+ "tensorrt_plan" +:+ dq);
      "max_batch_size: 32";
      "input [";
      " {";
      ("    name: " +:+ dq +:+ "actual_input_1" +:+ dq);
      "    data_type: TYPE_FP32";
      "    format: FORMAT_NCHW";
      "    dims: [ 3, 224, 224 ]";
      "  }";
      "]";
      "output {";
      ("    name: " +:+ dq +:+ "output1" +:+ dq);
      "    data_type: TYPE_FP32";
      "    dims: [ 1000 ]";
      "  }";
      (dq +:+ dq +:+ dq);
      EmptyString;
      "with open('models/simple-tensorrt-fp32-model/config.pbtxt', 'w') as file:";
      "    file.write(configuration)" ];
    text
    [ ("configuration = " +:+ dq +:+ dq +:+ dq);
      ("name: " +:+ dq +:+ "simple-tensorrt-fp16-model" +:+ dq);
      ("platform: " +:+ dq +:+ "tensorrt_plan" +:+ dq);
      "max_batch_size: 32";
      "input [";
      " {";
      ("    name: " +:+ dq +:+ "actual_input_1" +:+ dq);
      "    data_type: TYPE_FP32";
      "    format: FORMAT_NCHW";
      "    dims: [ 3, 224, 224 ]";
      "  }";
      "]";
      "output {";
      ("    name: " +:+ dq +:+ "output1" +:+ dq);
      "    data_type: TYPE_FP32";
      "    dims: [ 1000 ]";
      "  }";
      (dq +:+ dq +:+ dq);
      EmptyString;
      "with open('models/simple-tensorrt-fp16-model/config.pbtxt', 'w') as file:";
      "    file.write(configuration)" ];
    text
    [ "!sleep 45" ];
    text
    [ "!curl -v triton:8000/v2/health/ready" ];
    text
    [ "!curl -v triton:8000/v2/models/simple-tensorrt-fp32-model" ];
    text
    [ "!curl -v triton:8000/v2/models/simple-tensorrt-fp16-model" ];
    text
    [ "import tritonclient.http as tritonhttpclient";
      "from tritonclient.utils import triton_to_np_dtype" ];
    text
    [ "import json";
      EmptyString;
      "with open('./imagenet-simple-labels.json') as file:";
      "    labels = json.load(file)" ];
    text
    [ "import numpy as np";
      "from PIL import Image";
      EmptyString;
      EmptyString;
      "img_path = './assets/goldfish.jpg'";
      "image_pil = Image.open(img_path)";
      "image_pil" ];
    text
    [ "from tensorflow.keras.preprocessing import image";
      "from tensorflow.keras.applications.resnet50 import preprocess_input";
      "import numpy as np";
      EmptyString;
      EmptyString;
      "img = image.load_img(img_path, target_size=(224, 224))";
      "image_numpy = image.img_to_array(img)";
      "image_numpy = np.expand_dims(image_numpy, axis=0)";
      "image_numpy = preprocess_input(image_numpy)";
      "image_numpy = np.transpose(image_numpy, [0, 3, 1, 2]) / 255.";
      "print(image_numpy.shape)" ];
    text
    [ "VERBOSE = False";
      "input_name = 'actual_input_1'";
      "output_name = 'output1'";
      "model_name = 'simple-tensorrt-fp32-model'";
      "url = 'triton:8000'";
      "model_version = '1'" ];
    text
    [ "triton_client = tritonhttpclient.InferenceServerClient(url=url, verbose=VERBOSE)";
      "model_metadata = triton_client.get_model_metadata(model_name=model_name, model_version=model_version)";
      "model_config = triton_client.get_model_config(model_name=model_name, model_version=model_version)" ];
    text
    [ "input0 = tritonhttpclient.InferInput(input_name, (1, 3, 224, 224), 'FP32')";
      "input0.set_data_from_numpy(image_numpy, binary_data=False)";
      EmptyString;
      "output = tritonhttpclient.InferRequestedOutput(output_name, binary_data=False)";
      "response = triton_client.infer(model_name, model_version=model_version, ";
      "                               inputs=[input0], outputs=[output])";
      "logits = response.as_numpy('output1')";
      "logits = np.asarray(logits, dtype=np.float32)" ];
    text
    [ "print(labels[np.argmax(logits)])" ];
    text
    [ "VERBOSE = FIXME";
      "input_name = FIXME";
      "input_shape = FIXME";
      "input_dtype = FIXME";
      "output_name = FIXME";
      "model_name = FIXME";
      "url = FIXME";
      "model_version = FIXME" ];
    text
    [ "VERBOSE = False";
      "input_name = 'actual_input_1'";
      "input_shape = (1, 3, 224, 224)";
      "input_dtype = 'FP32'";
      "output_name = 'output1'";
      "model_name = 'simple-tensorrt-fp16-model'";
      "url = 'triton:8000'";
      "model_version = '1'" ];
    text
    [ "triton_client = FIXME";
      "model_metadata = FIXME";
      "model_config = FIXME" ];
    text
    [ "triton_client = tritonhttpclient.InferenceServerClient(url=url, verbose=VERBOSE)";
      "model_metadata = triton_client.get_model_metadata(model_name=model_name, model_version=model_version)";
      "model_config = triton_client.get_model_config(model_name=model_name, model_version=model_version)" ];
    text
    [ "input0 = FIXME";
      EmptyString;
      "output = FIXME";
      "response = FIXME";
      EmptyString;
      "logits = response.as_numpy(output_name)";
      "logits = np.asarray(logits, dtype=np.float32)" ];
    text
    [ "input0 = tritonhttpclient.InferInput(input_name, input_shape, input_dtype)";
      "input0.set_data_from_numpy(image_numpy, binary_data=False)";
      EmptyString;
      "output = tritonhttpclient.InferRequestedOutput(output_name, binary_data=False)";
      "response = triton_client.infer(model_name, model_version=model_version, ";
      "                               inputs=[input0], outputs=[output])";
      "logits = response.as_numpy(output_name)";
      "logits = np.asarray(logits, dtype=np.float32)" ];
    text
    [ "print(labels[np.argmax(logits)])" ];
    text
    [ "import IPython";
      "IPython.Application.instance().kernel.do_shutdown(True)" ] ].

Definition sources : list (list string) := [source_02; source_04; source_05].

(** ** The words of the code

    The names and keywords of a cell: maximal runs of letters, digits and
    underscores outside string literals, comments and shell lines. *)

Inductive word_mode := WCode | WSingle | WTriple | WComment | WShell.

Definition is_word_char (a : ascii) : bool :=
  let n := nat_of_ascii a in
  ((48 <=? n) && (n <=? 57) || (65 <=? n) && (n <=? 90)
   || (97 <=? n) && (n <=? 122) || (n =? 95))%nat.

Definition flush_word (cur : string) : list string :=
  match cur with
  | EmptyString => []
  | _ => [String.rev cur]
  end.

Fixpoint words_scan (s : string) (mode : word_mode) (fresh : bool)
    (cur : string) : list string :=
  match s with
  | EmptyString => flush_word cur
  | String a s' =>
      match mode with
      | WSingle =>
          words_scan s' (if Ascii.eqb a "039" then WCode else WSingle) false cur
      | WTriple =>
          match s' with
          | String b (String c s3) =>
              if Ascii.eqb a "034" && Ascii.eqb b "034" && Ascii.eqb c "034"
              then words_scan s3 WCode false cur
              else words_scan s' WTriple false cur
          | _ => words_scan s' WTriple false cur
          end
      | WComment =>
          if Ascii.eqb a "010" then words_scan s' WCode true cur
          else words_scan s' WComment false cur
      | WShell =>
          if Ascii.eqb a "\" then
            match s' with
            | String _ s2 => words_scan s2 WShell false cur
            | EmptyString => []
            end
          else if Ascii.eqb a "010" then words_scan s' WCode true cur
          else words_scan s' WShell false cur
      | WCode =>
          if is_word_char a then words_scan s' WCode false (String a cur)
          else
            flush_word cur ++
            (if Ascii.eqb a "010" then words_scan s' WCode true EmptyString
             else if Ascii.is_space a then words_scan s' WCode fresh EmptyString
             else if Ascii.eqb a "039" then words_scan s' WSingle false EmptyString
             else if Ascii.eqb a "#" then words_scan s' WComment false EmptyString
             else if Ascii.eqb a "!" && fresh
                  then words_scan s' WShell false EmptyString
             else if Ascii.eqb a "034" then
               match s' with
               | String b (String c s3) =>
                   if Ascii.eqb b "034" && Ascii.eqb c "034"
                   then words_scan s3 WTriple false EmptyString
                   else words_scan s' WCode false EmptyString
               | _ => words_scan s' WCode false EmptyString
               end
             else words_scan s' WCode false EmptyString)
      end
  end.

Definition code_words (s : string) : list string :=
  words_scan s WCode true EmptyString.

(** The keywords of Python that branch, loop without bound, or raise and
    handle errors. *)
Definition control_words : list string :=
  [ "if"; "elif"; "else"; "while"; "try"; "except"; "finally"; "raise";
    "assert"; "break"; "continue"; "lambda"; "yield"; "async"; "await" ].

Definition uses_control (src : list string) : bool :=
  existsb (fun w => existsb (String.eqb w) control_words)
    (flat_map code_words src).

Definition count_word (w : string) (src : list string) : nat :=
  length (List.filter (String.eqb w) (flat_map code_words src)).

(** ** Values, state and events *)

Inductive value :=
| VNone
| VBool (b : bool)
| VInt (n : Z)
| VNum (q : Q)
| VStr (s : string)
| VTuple (vs : list value)
| VList (vs : list value)
| VDict (kvs : list (value * value))
| VArr (data : value)              (* tensor or ndarray: nested lists of numbers *)
| VLib (path : string)             (* library entity named by its dotted path *)
| VClass (name : string) (bases : list value) (body : list stmt)
                                   (* class defined in a cell *)
| VFunc (name : string) (params : list string) (body : list stmt)
                                   (* function defined in a cell *)
| VInst (cls : string) (loc : nat) (* instance of a class of a cell, held in the store *)
| VSuper (base : value) (self : value)   (* super(C, self) *)
| VNet (ctor : string)             (* network built by a library constructor *)
| VObj (tag : string)              (* opaque library object, tagged by its origin *)
| VAttr (self : value) (name : string)
| VFile (path mode : string)
| VRef (loc : nat)                 (* an InferInput object, held in the heap *)
| VOutput (name : string)          (* InferRequestedOutput *)
| VClient (url : string)
| VResponse (model : string) (outputs : list string) (data : list value)
| VNormalize (mean std : list Q)
| VCompose (ts : list value)
| VBuiltin (name : string).

(** [tritonhttpclient.InferInput]: created with name, shape and datatype;
    [set_data_from_numpy] fills in the data later, in place. *)
Record infer_input := InferInput {
  in_name : string;
  in_shape : list Z;
  in_dtype : string;
  in_data : option value
}.

(** An instance of a class defined in a cell: its class and its
    attributes. *)
Record object := Object {
  ob_class : value;
  ob_attrs : gmap string value
}.

Record request := Request {
  rq_model : string;
  rq_version : string;
  rq_inputs : list infer_input;
  rq_outputs : list string
}.

Inductive event :=
| EvMkdir (path : string)
| EvRemove (path : string)
| EvSleep (secs : Z)
| EvCurl (url : string)
| EvTrtexec (flags : list (string * string))
| EvShell (argv : list string)
| EvOpen (path mode : string)
| EvRead (path : string)
| EvWrite (path data : string)
| EvExport (api path : string)
| EvQuery (method model version : string)
| EvInfer (req : request)
| EvOutput (model name : string)   (* an output tensor read from the response *)
| EvCall (f : string)
| EvFetch (path : string)          (* a library takes a file from its cache,
                                      downloading it first if it is not there *)
| EvLocal (model : string) (input : value)
| EvPrint (vs : list value)
| EvDisplay (v : value)
| EvShutdown.

Inductive exn :=
| NameError (x : string)
| AttributeError (a : string)
| IndexError
| TypeError (what : string)
| RuntimeError (what : string)
| RecursionError
| ExternalError (msg : string).

(** The kernel's global namespace (a Python dict shared by all cells),
    the objects that are mutated in place, and the local namespaces of the
    calls in progress, innermost first. *)
Record state := State {
  ns : gmap string value;
  heap : list infer_input;
  objects : list object;
  frames : list (gmap string value)
}.

Definition initial : state := State ∅ [] [] [].

(** The sample image after [Resize], [CenterCrop] and [ToTensor]: one plane
    of rows of numbers per colour channel. *)
Record image := Image {
  red : list (list Q);
  green : list (list Q);
  blue : list (list Q)
}.

(** What the notebooks read from outside: the label file, the sample
    image, the output of the local model on an input, and the output the
    server returns for a model and the input data sent to it. *)
Record world := World {
  w_labels : list string;
  w_image : image;
  w_local : value -> list Q;
  w_server : string -> list value -> list Q
}.

(** ** Programs: the operations a computation performs, in order

    [Op ev st k] performs the external operation [ev] in state [st] and
    continues as [k] when the operation succeeds.  [Check ok e st k]
    raises [e] in state [st] unless [ok] holds, and continues as [k]
    otherwise: it is how an operation on data (an index out of range, an
    empty [argmax]) raises. *)
Inductive prog (A : Type) :=
| Done (a : A) (st : state)
| Throw (e : exn) (st : state)
| Op (ev : event) (st : state) (k : prog A)
| Check (ok : bool) (e : exn) (st : state) (k : prog A).

Arguments Done {A} a st.
Arguments Throw {A} e st.
Arguments Op {A} ev st k.
Arguments Check {A} ok e st k.

Fixpoint bind {A B : Type} (p : prog A) (f : A -> state -> prog B) : prog B :=
  match p with
  | Done a st => f a st
  | Throw e st => Throw e st
  | Op ev st k => Op ev st (bind k f)
  | Check ok e st k => Check ok e st (bind k f)
  end.

Definition M (A : Type) : Type := state -> prog A.

Definition ret {A : Type} (a : A) : M A := fun st => Done a st.
Definition raise {A : Type} (e : exn) : M A := fun st => Throw e st.
Definition emit (ev : event) : M unit := fun st => Op ev st (Done tt st).
Definition require (ok : bool) (e : exn) : M unit :=
  fun st => Check ok e st (Done tt st).
Definition then_ {A B : Type} (m : M A) (f : A -> M B) : M B :=
  fun st => bind (m st) f.

Declare Scope py_scope.
Delimit Scope py_scope with py.
Notation "x <- m ;; k" := (then_ m (fun x => k))
  (at level 100, m at next level, right associativity) : py_scope.
Notation "m ;;; k" := (then_ m (fun _ => k))
  (at level 100, right associativity) : py_scope.
Local Open Scope py_scope.

(** The namespace assignments go to: the local one inside a call, the
    global one otherwise. *)
Definition scope (st : state) : gmap string value :=
  match frames st with
  | fr :: _ => fr
  | [] => ns st
  end.

Definition with_scope (st : state) (m : gmap string value) : state :=
  match frames st with
  | _ :: r => State (ns st) (heap st) (objects st) (m :: r)
  | [] => State m (heap st) (objects st) []
  end.

Definition get_var (x : string) : M (option value) :=
  fun st => Done (scope st !! x) st.
Definition set_var (x : string) (v : value) : M unit :=
  fun st => Done tt (with_scope st (<[x := v]> (scope st))).
Definition del_var (x : string) : M unit :=
  fun st => Done tt (with_scope st (delete x (scope st))).

(** A name is looked up in the local namespace first, then in the global
    one. *)
Definition resolve (x : string) : M (option value) :=
  fun st => Done (match frames st with
                  | fr :: _ => match fr !! x with
                               | Some v => Some v
                               | None => ns st !! x
                               end
                  | [] => ns st !! x
                  end) st.

(** Allocation of an in-place mutable object, its update and its read. *)
Definition alloc (o : infer_input) : M nat :=
  fun st => Done (length (heap st))
              (State (ns st) (heap st ++ [o]) (objects st) (frames st)).
Definition store (l : nat) (o : infer_input) : M unit :=
  fun st => Done tt (State (ns st) (<[l := o]> (heap st)) (objects st) (frames st)).
Definition load (l : nat) : M infer_input :=
  fun st => match heap st !! l with
            | Some o => Done o st
            | None => Throw (TypeError "dangling reference") st
            end.

(** The same for the instances of the classes of the cells. *)
Definition alloc_object (o : object) : M nat :=
  fun st => Done (length (objects st))
              (State (ns st) (heap st) (objects st ++ [o]) (frames st)).
Definition store_object (l : nat) (o : object) : M unit :=
  fun st => Done tt (State (ns st) (heap st) (<[l := o]> (objects st)) (frames st)).
Definition load_object (l : nat) : M object :=
  fun st => match objects st !! l with
            | Some o => Done o st
            | None => Throw (TypeError "dangling reference") st
            end.

(** A call runs in a local namespace of its own, which is dropped when
    the call returns or raises. *)
Definition pop_frame (st : state) : state :=
  State (ns st) (heap st) (objects st) (tail (frames st)).

Fixpoint leaving {A : Type} (p : prog A) : prog A :=
  match p with
  | Done a st => Done a (pop_frame st)
  | Throw e st => Throw e (pop_frame st)
  | Op ev st k => Op ev (pop_frame st) (leaving k)
  | Check ok e st k => Check ok e (pop_frame st) (leaving k)
  end.

Definition in_frame {A : Type} (fr : gmap string value) (m : M A) : M A :=
  fun st =>
    leaving (m (State (ns st) (heap st) (objects st) (fr :: frames st))).

(** ** Text and number helpers used by the interpreter *)

Fixpoint split_go (c : ascii) (cur : string) (s : string) : list string :=
  match s with
  | EmptyString => [String.rev cur]
  | String a s' =>
      if Ascii.eqb a c then String.rev cur :: split_go c EmptyString s'
      else split_go c (String a cur) s'
  end.

(** [split_on c s]: the pieces of [s] between occurrences of [c]. *)
Definition split_on (c : ascii) (s : string) : list string :=
  split_go c EmptyString s.

Fixpoint parse_digits (acc : Z) (s : string) : option Z :=
  match s with
  | EmptyString => Some acc
  | String a s' =>
      match Ascii.is_nat a with
      | Some d => parse_digits (10 * acc + Z.of_nat d) s'
      | None => None
      end
  end.

Definition parse_nat (s : string) : option Z :=
  match s with
  | EmptyString => None
  | _ => parse_digits 0 s
  end.

(** The value of a decimal literal [digits.digits], as a rational. *)
Definition float_value (lit : string) : Q :=
  match split_on "." lit with
  | [i] => inject_Z (from_option id 0 (parse_digits 0 i))
  | [i; f] =>
      Qmake (from_option id 0 (parse_digits 0 (i +:+ f)))
            (Z.to_pos (10 ^ Z.of_nat (String.length f)))
  | _ => 0%Q
  end.

(** The first piece of a dotted module path. *)
Definition top_package (m : string) : string :=
  match split_on "." m with
  | p :: _ => p
  | [] => m
  end.

(** [fmt % n] for a format with one [%d]. *)
Definition format_d (fmt : string) (n : Z) : string :=
  match index 0 "%d" fmt with
  | Some i =>
      substring 0 i fmt +:+ pretty n
      +:+ substring (i + 2) (String.length fmt - (i + 2)) fmt
  | None => fmt
  end.

Definition Qlt_bool (a b : Q) : bool := negb (Qle_bool b a).

(** [np.argmax] on the flattened data: the first position of a maximum. *)
Fixpoint argmax_from (best_i : nat) (best : Q) (i : nat) (xs : list Q) : nat :=
  match xs with
  | [] => best_i
  | x :: r =>
      if Qlt_bool best x then argmax_from i x (S i) r
      else argmax_from best_i best (S i) r
  end.

Definition argmax (xs : list Q) : nat :=
  match xs with
  | [] => O
  | x :: r => argmax_from 0 x 1 r
  end.

(** [torch.topk]: the positions of the [k] largest entries, largest first. *)
Fixpoint best_of (best : nat * Q) (xs : list (nat * Q)) : nat * Q :=
  match xs with
  | [] => best
  | x :: r => if Qlt_bool (snd best) (snd x) then best_of x r else best_of best r
  end.

Fixpoint topk_pairs (k : nat) (xs : list (nat * Q)) : list (nat * Q) :=
  match k with
  | O => []
  | S k' =>
      let b := best_of (from_option id (O, 0%Q) (head xs)) xs in
      b :: topk_pairs k' (List.filter (fun p => negb (Nat.eqb (fst p) (fst b))) xs)
  end.

Fixpoint number_from (i : nat) (xs : list Q) : list (nat * Q) :=
  match xs with
  | [] => []
  | x :: r => (i, x) :: number_from (S i) r
  end.

Definition topk (k : nat) (xs : list Q) : list (nat * Q) :=
  topk_pairs k (number_from 0 xs).

Fixpoint flatten (v : value) : list Q :=
  match v with
  | VNum q => [q]
  | VInt n => [inject_Z n]
  | VList vs => (fix go (l : list value) : list Q :=
                   match l with
                   | [] => []
                   | x :: r => flatten x ++ go r
                   end) vs
  | _ => []
  end.

Fixpoint shape_of (v : value) : list Z :=
  match v with
  | VList vs =>
      Z.of_nat (length vs)
      :: match vs with
         | x :: _ => shape_of x
         | [] => []
         end
  | _ => []
  end.

Fixpoint map_nums (f : Q -> Q) (v : value) : value :=
  match v with
  | VNum q => VNum (f q)
  | VInt n => VNum (f (inject_Z n))
  | VList vs => VList ((fix go (l : list value) : list value :=
                          match l with
                          | [] => []
                          | x :: r => map_nums f x :: go r
                          end) vs)
  | _ => v
  end.

(** [transforms.Normalize(mean, std)] on a tensor of channels: channel [c]
    becomes [(x - mean[c]) / std[c]], over the rationals. *)
Definition normalize_px (m s x : Q) : Q := (x - m) / s.

Fixpoint normalize_channels (mean std : list Q) (chans : list value)
    : option (list value) :=
  match chans, mean, std with
  | [], [], [] => Some []
  | c :: cs, m :: ms, s :: ss =>
      option_map (cons (map_nums (normalize_px m s) c))
        (normalize_channels ms ss cs)
  | _, _, _ => None
  end.

Definition plane (rows : list (list Q)) : value :=
  VList (map (fun r => VList (map VNum r)) rows).

(** The image as a tensor value: one plane per channel. *)
Definition tensor_of (img : image) : value :=
  VList [plane (red img); plane (green img); plane (blue img)].

(** A batch holding one row of numbers, as a model returns it. *)
Definition row (xs : list Q) : value := VList (map VNum xs).
Definition row_batch (xs : list Q) : value := VArr (VList [row xs]).

Definition nums (v : value) : list Q := flatten v.

(** Python indexing of a list or tuple: negative positions count from the
    end; a position outside [-n, n) raises [IndexError]. *)
Definition in_range (vs : list value) (i : Z) : bool :=
  let n := Z.of_nat (length vs) in
  (- n <=? i) && (i <? n).

Definition py_get (vs : list value) (i : Z) : value :=
  let n := Z.of_nat (length vs) in
  nth (Z.to_nat (if i <? 0 then n + i else i)) vs VNone.

Definition is_nil {A : Type} (l : list A) : bool :=
  match l with
  | [] => true
  | _ :: _ => false
  end.

Definition as_int (v : value) : option Z :=
  match v with
  | VInt n => Some n
  | VBool b => Some (if b then 1 else 0)
  | _ => None
  end.

Definition as_str (v : value) : option string :=
  match v with
  | VStr s => Some s
  | _ => None
  end.

Definition kwarg (k : string) (kws : list (string * value)) : option value :=
  snd <$> find (fun p => String.eqb (fst p) k) kws.

(** A printable name for an opaque value, used to tag what it produces. *)
Fixpoint describe (v : value) : string :=
  match v with
  | VLib p => p
  | VClass c _ _ => c
  | VFunc f _ _ => f
  | VInst c _ => c
  | VSuper b _ => describe b
  | VNet c => c
  | VObj t => t
  | VAttr s a => describe s +:+ "." +:+ a
  | VArr _ => "array"
  | VClient _ => "tritonclient.http.InferenceServerClient"
  | VResponse _ _ _ => "tritonclient.http.InferResult"
  | _ => "object"
  end.

(** ** Shell lines

    A line that starts with [!] runs a command in a subshell.  IPython does
    not raise when the command fails, so these operations never abort a
    cell. *)

Definition flag_of (arg : string) : option (string * string) :=
  if String.prefix "--" arg then
    match split_on "=" arg with
    | [k] => Some (k, EmptyString)
    | [k; v] => Some (k, v)
    | _ => None
    end
  else None.

Fixpoint emit_all (evs : list event) : M unit :=
  match evs with
  | [] => ret tt
  | ev :: r => emit ev ;;; emit_all r
  end.

Definition exec_shell (argv : list string) : M unit :=
  match argv with
  | cmd :: args =>
      if String.eqb cmd "mkdir" then
        match args with
        | flag :: paths =>
            if String.eqb flag "-p" then emit_all (map EvMkdir paths)
            else emit (EvShell argv)
        | [] => emit (EvShell argv)
        end
      else if String.eqb cmd "rm" then
        match args with
        | flag :: paths =>
            if String.eqb flag "-rf" then emit_all (map EvRemove paths)
            else emit (EvShell argv)
        | [] => emit (EvShell argv)
        end
      else if String.eqb cmd "sleep" then
        match args with
        | [n] => match parse_nat n with
                 | Some z => emit (EvSleep z)
                 | None => emit (EvShell argv)
                 end
        | _ => emit (EvShell argv)
        end
      else if String.eqb cmd "curl" then
        match args with
        | [flag; url] =>
            if String.eqb flag "-v" then emit (EvCurl url)
            else emit (EvShell argv)
        | _ => emit (EvShell argv)
        end
      else if String.eqb cmd "trtexec" then
        emit (EvTrtexec (omap flag_of args))
      else emit (EvShell argv)
  | [] => ret tt
  end.

(** ** Library calls

    What the interpreter knows about the libraries the notebooks call:
    - [open] opens a file and [file.write] writes the text to it;
    - [json.load] reads the label file, [Image.open] the image file;
    - [transforms.Compose] applies its transforms in order; [ToTensor]
      yields the image of the world, [Normalize(mean, std)] normalizes a
      tensor channel by channel, [Resize] and [CenterCrop] keep the image
      opaque;
    - [models.resnet50], [tf.keras.applications.ResNet50] and [ResNet50]
      build a network; with pretrained weights asked for they take the
      weight file from the cache directory of the library, and
      [decode_predictions] takes the class index from there; calling a
      network, or its [predict], returns the output of the local model
      for the input;
    - a class defined in a cell is instantiated by running its [__init__];
      calling an instance runs its [__call__], or its [forward] if the
      class derives from [nn.Module]; [super(C, self)] stands for the
      first base class of [C];
    - [torch.topk], [np.argmax], [np.asarray], list indexing and slicing,
      [+] on lists and [%] on a format string compute as in Python;
    - [ScriptModule.save], [torch.onnx.export] and [tf.saved_model.save]
      write an artifact to the path they are given;
    - [InferenceServerClient], [InferInput], [set_data_from_numpy],
      [InferRequestedOutput], [get_model_metadata], [get_model_config],
      [infer] and [as_numpy] behave as the request and response objects of
      the client library: the request carries model name, version, inputs
      (name, shape, datatype, data) and the names of the outputs asked
      for; [as_numpy] returns the named output if it was asked for and
      [None] otherwise;
    - [eval], [cuda], [cpu], [detach] and [numpy] return the object they
      are called on.
    Calls that are not listed are recorded as [EvCall] and return an opaque
    object tagged with the name of the callee. *)

Definition builtins : list string := ["print"; "open"; "range"; "super"].

Definition lookup_name (x : string) : M value :=
  o <- resolve x ;;
  match o with
  | Some v => ret v
  | None =>
      if String.eqb x "None" then ret VNone
      else if existsb (String.eqb x) builtins then ret (VBuiltin x)
      else raise (NameError x)
  end.

(** Methods that return the object they are called on. *)
Definition fluent : list string := ["eval"; "cuda"; "cpu"; "detach"; "numpy"].

(** The last definition of [m] in a class body. *)
Definition find_method (m : string) (body : list stmt)
    : option (list string * list stmt) :=
  last (omap (fun s => match s with
                       | SDef _ n ps b =>
                           if String.eqb n m then Some (ps, b) else None
                       | _ => None
                       end) body).

Definition class_body (c : value) : list stmt :=
  match c with
  | VClass _ _ body => body
  | _ => []
  end.

Definition class_bases (c : value) : list value :=
  match c with
  | VClass _ bases _ => bases
  | _ => []
  end.

Definition is_torch_module (b : value) : bool :=
  match b with
  | VLib p => String.eqb p "torch.nn.Module"
  | _ => false
  end.

(** [FIXME] is a placeholder of the exercises; no library defines it.
    An attribute of an instance is one that was set on it, a method of
    its class, or a method it inherits from a library class. *)
Definition get_attr (v : value) (a : string) : M value :=
  if String.eqb a "FIXME" then raise (AttributeError a)
  else match v with
       | VLib p => ret (VLib (p +:+ "." +:+ a))
       | VArr d => if String.eqb a "shape"
                   then ret (VTuple (map VInt (shape_of d)))
                   else ret (VAttr v a)
       | VInst _ l =>
           o <- load_object l ;;
           match ob_attrs o !! a, find_method a (class_body (ob_class o)) with
           | Some x, _ => ret x
           | None, Some _ => ret (VAttr v a)
           | None, None =>
               if existsb (String.eqb a) fluent
                  && negb (is_nil (class_bases (ob_class o)))
               then ret (VAttr v a)
               else raise (AttributeError a)
           end
       | _ => ret (VAttr v a)
       end.

Definition set_attr (o : value) (a : string) (v : value) : M unit :=
  match o with
  | VInst _ l =>
      ob <- load_object l ;;
      store_object l (Object (ob_class ob) (<[a := v]> (ob_attrs ob)))
  | _ => raise (AttributeError a)
  end.

Definition call_builtin (name : string) (args : list value) : M value :=
  if String.eqb name "print" then emit (EvPrint args) ;;; ret VNone
  else if String.eqb name "open" then
    match args with
    | [VStr p] => emit (EvOpen p "r") ;;; ret (VFile p "r")
    | [VStr p; VStr m] => emit (EvOpen p m) ;;; ret (VFile p m)
    | _ => raise (TypeError "open")
    end
  else if String.eqb name "range" then
    match args with
    | [VInt n] => ret (VList (map VInt (seqZ 0 n)))
    | _ => raise (TypeError "range")
    end
  else if String.eqb name "super" then
    match args with
    | [VClass _ bases _; VInst c l] =>
        ret (VSuper (from_option id (VLib "object") (head bases)) (VInst c l))
    | _ => raise (TypeError "super")
    end
  else ret (VObj name).

(** One step of a [transforms.Compose] pipeline. *)
Definition apply_transform (w : world) (t : value) (v : value) : option value :=
  match t with
  | VNormalize m s =>
      match v with
      | VArr (VList chans) =>
          option_map (fun cs => VArr (VList cs)) (normalize_channels m s chans)
      | _ => None
      end
  | VObj tag =>
      if String.eqb tag "torchvision.transforms.ToTensor"
      then Some (VArr (tensor_of (w_image w)))
      else Some v
  | _ => None
  end.

Fixpoint apply_transforms (w : world) (ts : list value) (v : value)
    : option value :=
  match ts with
  | [] => Some v
  | t :: r => match apply_transform w t v with
              | Some v' => apply_transforms w r v'
              | None => None
              end
  end.

Definition torch_topk (d : value) (k : Z) : M value :=
  match d with
  | VList [row] =>
      let xs := flatten row in
      let top := topk (Z.to_nat k) xs in
      require ((0 <=? k) && (Z.to_nat k <=? length xs)%nat)
        (RuntimeError "selected index k out of range") ;;;
      ret (VTuple
             [VArr (VList [VList (map (fun p => VNum (snd p)) top)]);
              VArr (VList [VList (map (fun p => VInt (Z.of_nat (fst p))) top)])])
  | _ => raise (TypeError "torch.topk")
  end.

(** Where the libraries keep what they download: the checkpoint of
    torchvision's ResNet-50 (under the name torchvision 0.9 and later give
    it), the ImageNet weights of the Keras ResNet50 and the class index
    [decode_predictions] reads.  The directories are the defaults of
    [TORCH_HOME] and [KERAS_HOME]. *)
Definition torch_weights : string :=
  "~/.cache/torch/hub/checkpoints/resnet50-0676ba61.pth".
Definition keras_weights : string :=
  "~/.keras/models/resnet50_weights_tf_dim_ordering_tf_kernels.h5".
Definition keras_class_index : string :=
  "~/.keras/models/imagenet_class_index.json".

Definition fetch_if (b : bool) (p : string) : M unit :=
  if b then emit (EvFetch p) else ret tt.

(** [pretrained] is the first parameter of [models.resnet50]. *)
Definition wants_pretrained (args : list value) (kws : list (string * value))
    : bool :=
  match kwarg "pretrained" kws, args with
  | Some (VBool b), _ => b
  | None, VBool b :: _ => b
  | _, _ => false
  end.

(** [weights] of the Keras constructor defaults to ['imagenet']. *)
Definition wants_imagenet (kws : list (string * value)) : bool :=
  match kwarg "weights" kws with
  | None => true
  | Some (VStr s) => String.eqb s "imagenet"
  | Some _ => false
  end.

Definition call_lib (w : world) (path : string) (args : list value)
    (kws : list (string * value)) : M value :=
  if String.eqb path "json.load" then
    match args with
    | [VFile p _] => emit (EvRead p) ;;; ret (VList (map VStr (w_labels w)))
    | _ => raise (TypeError path)
    end
  else if String.eqb path "PIL.Image.open" then
    match args with
    | [VStr p] => emit (EvRead p) ;;; ret (VObj "PIL.Image")
    | _ => raise (TypeError path)
    end
  else if String.eqb path "torchvision.transforms.Normalize" then
    match kwarg "mean" kws, kwarg "std" kws with
    | Some m, Some s => emit (EvCall path) ;;; ret (VNormalize (nums m) (nums s))
    | _, _ => raise (TypeError path)
    end
  else if String.eqb path "torchvision.transforms.Compose" then
    match args with
    | [VList ts] => emit (EvCall path) ;;; ret (VCompose ts)
    | _ => raise (TypeError path)
    end
  else if String.eqb path "torch.topk" then
    match args with
    | [VArr d; VInt k] => emit (EvCall path) ;;; torch_topk d k
    | _ => raise (TypeError path)
    end
  else if String.eqb path "torch.onnx.export" then
    match args with
    | [_; _; VStr p] => emit (EvExport path p) ;;; ret VNone
    | _ => raise (TypeError path)
    end
  else if String.eqb path "tensorflow.saved_model.save" then
    match args with
    | [_; VStr p] => emit (EvExport path p) ;;; ret VNone
    | _ => raise (TypeError path)
    end
  else if String.eqb path "tritonclient.http.InferenceServerClient" then
    match kwarg "url" kws with
    | Some (VStr u) => emit (EvCall path) ;;; ret (VClient u)
    | _ => raise (TypeError path)
    end
  else if String.eqb path "tritonclient.http.InferInput" then
    match args with
    | [VStr n; VTuple shape; VStr dt] =>
        emit (EvCall path) ;;;
        l <- alloc (InferInput n (omap as_int shape) dt None) ;;
        ret (VRef l)
    | _ => raise (TypeError path)
    end
  else if String.eqb path "tritonclient.http.InferRequestedOutput" then
    match args with
    | [VStr n] => emit (EvCall path) ;;; ret (VOutput n)
    | _ => raise (TypeError path)
    end
  else if String.eqb path "numpy.asarray" then
    match args with
    | [v] => emit (EvCall path) ;;; ret v
    | _ => raise (TypeError path)
    end
  else if String.eqb path "numpy.argmax" then
    match args with
    | [VArr d] =>
        emit (EvCall path) ;;;
        require (negb (is_nil (flatten d)))
          (RuntimeError "attempt to get argmax of an empty sequence") ;;;
        ret (VInt (Z.of_nat (argmax (flatten d))))
    | [VObj t] => emit (EvCall path) ;;; ret (VObj path)
    | _ => raise (TypeError path)
    end
  else if String.eqb path "torchvision.models.resnet50" then
    emit (EvCall path) ;;;
    fetch_if (wants_pretrained args kws) torch_weights ;;;
    ret (VNet path)
  else if String.eqb path "tensorflow.keras.applications.ResNet50"
          || String.eqb path "tensorflow.keras.applications.resnet50.ResNet50" then
    emit (EvCall path) ;;;
    fetch_if (wants_imagenet kws) keras_weights ;;;
    ret (VNet path)
  else if String.eqb path
            "tensorflow.keras.applications.resnet50.decode_predictions" then
    emit (EvCall path) ;;;
    emit (EvFetch keras_class_index) ;;;
    ret (VObj path)
  else emit (EvCall path) ;;; ret (VObj path).

Fixpoint load_inputs (vs : list value) : M (list infer_input) :=
  match vs with
  | [] => ret []
  | VRef l :: r => o <- load l ;; os <- load_inputs r ;; ret (o :: os)
  | _ :: _ => raise (TypeError "inputs")
  end.

Definition output_name_of (v : value) : option string :=
  match v with
  | VOutput n => Some n
  | _ => None
  end.

Definition call_client (m : string) (args : list value)
    (kws : list (string * value)) : M value :=
  if String.eqb m "infer" then
    match args, kwarg "model_version" kws, kwarg "inputs" kws,
          kwarg "outputs" kws with
    | [VStr model], Some (VStr ver), Some (VList ins), Some (VList outs) =>
        os <- load_inputs ins ;;
        let names := omap output_name_of outs in
        emit (EvInfer (Request model ver os names)) ;;;
        ret (VResponse model names (omap in_data os))
    | _, _, _, _ => raise (TypeError "infer")
    end
  else
    match kwarg "model_name" kws, kwarg "model_version" kws with
    | Some (VStr model), Some (VStr ver) =>
        emit (EvQuery m model ver) ;;;
        ret (VObj ("tritonclient.http.InferenceServerClient." +:+ m))
    | _, _ => raise (TypeError m)
    end.

Definition call_method (w : world) (self : value) (m : string)
    (args : list value) (kws : list (string * value)) : M value :=
  match self with
  | VFile p mode =>
      match args with
      | [VStr s] =>
          if String.eqb m "write" && String.eqb mode "w"
          then emit (EvWrite p s) ;;; ret (VInt (Z.of_nat (String.length s)))
          else raise (TypeError m)
      | _ => raise (TypeError m)
      end
  | VRef l =>
      match args with
      | [data] =>
          if String.eqb m "set_data_from_numpy" then
            emit (EvCall "tritonclient.http.InferInput.set_data_from_numpy") ;;;
            o <- load l ;;
            store l (InferInput (in_name o) (in_shape o) (in_dtype o) (Some data)) ;;;
            ret VNone
          else raise (AttributeError m)
      | _ => raise (TypeError m)
      end
  | VClient _ => call_client m args kws
  | VResponse model outs data =>
      match args with
      | [VStr n] =>
          if String.eqb m "as_numpy" then
            emit (EvOutput model n) ;;;
            if existsb (String.eqb n) outs
            then ret (row_batch (w_server w model data))
            else ret VNone
          else raise (AttributeError m)
      | _ => raise (TypeError m)
      end
  | VArr d =>
      if existsb (String.eqb m) fluent then emit (EvCall ("tensor." +:+ m)) ;;; ret self
      else if String.eqb m "tolist" then ret d
      else if String.eqb m "unsqueeze" then
        match args with
        | [VInt 0] => ret (VArr (VList [d]))
        | _ => raise (TypeError m)
        end
      else raise (AttributeError m)
  | VObj tag =>
      let name := tag +:+ "." +:+ m in
      if existsb (String.eqb m) fluent then emit (EvCall name) ;;; ret self
      else if String.eqb name "torch.jit.script.save" then
        match args with
        | [VStr p] => emit (EvExport "torch.jit.ScriptModule.save" p) ;;; ret VNone
        | _ => raise (TypeError m)
        end
      else emit (EvCall name) ;;; ret (VObj name)
  | VInst tag _ =>
      let name := tag +:+ "." +:+ m in
      if existsb (String.eqb m) fluent then emit (EvCall name) ;;; ret self
      else emit (EvCall name) ;;; ret (VObj name)
  | VNet tag =>
      let name := tag +:+ "." +:+ m in
      if existsb (String.eqb m) fluent then emit (EvCall name) ;;; ret self
      else if String.eqb m "predict" then
        match args with
        | [x] => emit (EvLocal tag x) ;;; ret (row_batch (w_local w x))
        | _ => raise (TypeError m)
        end
      else emit (EvCall name) ;;; ret (VObj name)
  | VSuper base _ =>
      let name := describe base +:+ "." +:+ m in
      emit (EvCall name) ;;;
      if String.eqb m "__init__" then ret VNone else ret (VObj name)
  | _ =>
      if String.eqb m "do_shutdown" then emit EvShutdown ;;; ret (VObj "shutdown")
      else
        let name := describe self +:+ "." +:+ m in
        emit (EvCall name) ;;; ret (VObj name)
  end.

(** How classes, functions and instances defined in the cells are called;
    the interpreter below is given one. *)
Definition caller : Type := value -> list value -> list (string * value) -> M value.

(** Calling a value.  Calling a network runs the model on the local
    machine. *)
Definition call_value (w : world) (cu : caller) (f : value) (args : list value)
    (kws : list (string * value)) : M value :=
  match f with
  | VBuiltin name => call_builtin name args
  | VLib path => call_lib w path args kws
  | VClass _ _ _ | VFunc _ _ _ | VInst _ _ => cu f args kws
  | VAttr self m =>
      match self with
      | VInst _ l =>
          o <- load_object l ;;
          match find_method m (class_body (ob_class o)) with
          | Some _ => cu f args kws
          | None => call_method w self m args kws
          end
      | _ => call_method w self m args kws
      end
  | VNet ctor =>
      match args with
      | [x] => emit (EvLocal ctor x) ;;; ret (row_batch (w_local w x))
      | _ => raise (TypeError "model call")
      end
  | VCompose ts =>
      match args with
      | [v] =>
          emit (EvCall "torchvision.transforms.Compose.__call__") ;;;
          match apply_transforms w ts v with
          | Some r => ret r
          | None => raise (TypeError "transform")
          end
      | _ => raise (TypeError "transform")
      end
  | VObj tag => emit (EvCall tag) ;;; ret (VObj (tag +:+ "()"))
  | _ => raise (TypeError "not callable")
  end.

Definition index_value (v i : value) : M value :=
  match v with
  | VList vs | VTuple vs =>
      match as_int i with
      | Some z => require (in_range vs z) IndexError ;;; ret (py_get vs z)
      | None => raise (TypeError "index")
      end
  | VObj t => ret (VObj (t +:+ "[]"))
  | _ => raise (TypeError "index")
  end.

Definition slice_to (v hi : value) : M value :=
  match v, hi with
  | VList vs, VInt n =>
      if 0 <=? n then ret (VList (take (Z.to_nat n) vs))
      else ret (VList (take (length vs - Z.to_nat (- n)) vs))
  | _, _ => raise (TypeError "slice")
  end.

Definition binop_value (op : binop) (a b : value) : M value :=
  match op, a, b with
  | Add, VList x, VList y => ret (VList (x ++ y))
  | Add, VStr x, VStr y => ret (VStr (x +:+ y))
  | Add, VInt x, VInt y => ret (VInt (x + y))
  | Mod, VStr fmt, VInt n => ret (VStr (format_d fmt n))
  | Div, VObj t, _ => ret (VObj t)
  | Div, VNum x, VNum y => ret (VNum (x / y))
  | _, _, _ => raise (TypeError "operand")
  end.

(** Restore a name to what it was: comprehension variables do not leak. *)
Definition restore_var (x : string) (old : option value) : M unit :=
  match old with
  | Some v => set_var x v
  | None => del_var x
  end.

(** ** The interpreter *)

Fixpoint eval (w : world) (cu : caller) (e : expr) {struct e} : M value :=
  let evals := fix evals (es : list expr) : M (list value) :=
    match es with
    | [] => ret []
    | e' :: es' => v <- eval w cu e' ;; vs <- evals es' ;; ret (v :: vs)
    end in
  match e with
  | EName x => lookup_name x
  | EStr s => ret (VStr s)
  | EInt n => ret (VInt n)
  | EFloat lit => ret (VNum (float_value lit))
  | EBool b => ret (VBool b)
  | ETuple es => vs <- evals es ;; ret (VTuple vs)
  | EList es => vs <- evals es ;; ret (VList vs)
  | EDict kvs =>
      ps <- (fix go (l : list (expr * expr)) : M (list (value * value)) :=
               match l with
               | [] => ret []
               | (k, v) :: r =>
                   kv <- eval w cu k ;; vv <- eval w cu v ;; rs <- go r ;;
                   ret ((kv, vv) :: rs)
               end) kvs ;;
      ret (VDict ps)
  | EAttr e' a => v <- eval w cu e' ;; get_attr v a
  | ECall f args kwargs =>
      fv <- eval w cu f ;;
      vs <- evals args ;;
      kws <- (fix go (l : list (string * expr)) : M (list (string * value)) :=
                match l with
                | [] => ret []
                | (k, v) :: r =>
                    vv <- eval w cu v ;; rs <- go r ;; ret ((k, vv) :: rs)
                end) kwargs ;;
      call_value w cu fv vs kws
  | EIndex e' i => v <- eval w cu e' ;; iv <- eval w cu i ;; index_value v iv
  | ESliceTo e' hi => v <- eval w cu e' ;; hv <- eval w cu hi ;; slice_to v hv
  | EBin op a b => va <- eval w cu a ;; vb <- eval w cu b ;; binop_value op va vb
  | EListComp elt x iter =>
      it <- eval w cu iter ;;
      match it with
      | VList items =>
          old <- get_var x ;;
          rs <- (fix loop (l : list value) : M (list value) :=
                   match l with
                   | [] => ret []
                   | v :: r =>
                       set_var x v ;;; y <- eval w cu elt ;; ys <- loop r ;;
                       ret (y :: ys)
                   end) items ;;
          restore_var x old ;;;
          ret (VList rs)
      | _ => raise (TypeError "not iterable")
      end
  end.

Fixpoint bind_targets (xs : list string) (vs : list value) : M unit :=
  match xs, vs with
  | [], [] => ret tt
  | x :: xs', v :: vs' => set_var x v ;;; bind_targets xs' vs'
  | _, _ => raise (TypeError "cannot unpack")
  end.

Definition assign_targets (xs : list string) (v : value) : M unit :=
  match xs with
  | [x] => set_var x v
  | _ => match v with
         | VTuple vs | VList vs => bind_targets xs vs
         | _ => raise (TypeError "cannot unpack")
         end
  end.

Definition import_as (module : string) (asname : option string) : M unit :=
  match asname with
  | Some a => set_var a (VLib module)
  | None => set_var (top_package module) (VLib (top_package module))
  end.

Fixpoint import_names (module : string) (names : list string) : M unit :=
  match names with
  | [] => ret tt
  | n :: r => set_var n (VLib (module +:+ "." +:+ n)) ;;; import_names module r
  end.

Fixpoint eval_all (w : world) (cu : caller) (es : list expr) : M (list value) :=
  match es with
  | [] => ret []
  | e :: r => v <- eval w cu e ;; vs <- eval_all w cu r ;; ret (v :: vs)
  end.

(** A decorator is called with the function it decorates, when the
    definition is executed; the decorator written last is applied first.
    The function stays callable as it is defined. *)
Fixpoint decorate (w : world) (cu : caller) (decs : list value) (name : string)
    : M unit :=
  match decs with
  | [] => ret tt
  | d :: r => call_value w cu d [VObj name] [] ;;; decorate w cu r name
  end.

(** The body of a class statement: its method definitions. *)
Fixpoint define_methods (w : world) (cu : caller) (body : list stmt) : M unit :=
  match body with
  | [] => ret tt
  | SDef decs name _ _ :: r =>
      ds <- eval_all w cu decs ;;
      decorate w cu (rev ds) name ;;;
      define_methods w cu r
  | SComment _ :: r => define_methods w cu r
  | _ :: _ => raise (TypeError "class body")
  end.

Definition in_function : M bool :=
  fun st => Done (negb (is_nil (frames st))) st.

(** A statement yields [Some v] when it returns [v] from the function it
    is in, and [None] when execution goes on with the next statement. *)
Fixpoint exec_stmt (w : world) (cu : caller) (s : stmt) {struct s}
    : M (option value) :=
  let block := fix block (ss : list stmt) : M (option value) :=
    match ss with
    | [] => ret None
    | s' :: ss' =>
        r <- exec_stmt w cu s' ;;
        match r with
        | Some v => ret (Some v)
        | None => block ss'
        end
    end in
  match s with
  | SShell cmd => exec_shell (String.words cmd) ;;; ret None
  | SComment _ => ret None
  | SImport module asname => import_as module asname ;;; ret None
  | SFromImport module names => import_names module names ;;; ret None
  | SClass name bases body =>
      bs <- eval_all w cu bases ;;
      define_methods w cu body ;;;
      set_var name (VClass name bs body) ;;; ret None
  | SDef decs name params body =>
      ds <- eval_all w cu decs ;;
      decorate w cu (rev ds) name ;;;
      set_var name (VFunc name params body) ;;; ret None
  | SReturn e =>
      inside <- in_function ;;
      if inside then v <- eval w cu e ;; ret (Some v)
      else raise (TypeError "return outside a function")
  | SSetAttr obj a e =>
      v <- eval w cu e ;; o <- eval w cu obj ;; set_attr o a v ;;; ret None
  | SAssign xs e => v <- eval w cu e ;; assign_targets xs v ;;; ret None
  | SExpr e => eval w cu e ;;; ret None
  | SWith ctx x body => v <- eval w cu ctx ;; set_var x v ;;; block body
  | SFor x iter body =>
      it <- eval w cu iter ;;
      match it with
      | VList items =>
          (fix loop (l : list value) : M (option value) :=
             match l with
             | [] => ret None
             | v :: r =>
                 set_var x v ;;;
                 o <- block body ;;
                 match o with
                 | Some res => ret (Some res)
                 | None => loop r
                 end
             end) items
      | _ => raise (TypeError "not iterable")
      end
  end.

Fixpoint exec_block (w : world) (cu : caller) (ss : list stmt)
    : M (option value) :=
  match ss with
  | [] => ret None
  | s :: r =>
      o <- exec_stmt w cu s ;;
      match o with
      | Some v => ret (Some v)
      | None => exec_block w cu r
      end
  end.

(** The local namespace of a call: positional arguments first, then
    keywords; every parameter gets exactly one value and every keyword
    names a parameter. *)
Fixpoint bind_params (params : list string) (args : list value)
    (kws : list (string * value)) : option (gmap string value) :=
  match params, args with
  | p :: ps, a :: r =>
      match kwarg p kws with
      | Some _ => None
      | None => insert p a <$> bind_params ps r kws
      end
  | p :: ps, [] =>
      match kwarg p kws with
      | Some v => insert p v <$> bind_params ps [] kws
      | None => None
      end
  | [], [] => Some ∅
  | [], _ :: _ => None
  end.

Definition bind_args (params : list string) (args : list value)
    (kws : list (string * value)) : option (gmap string value) :=
  if forallb (fun kv => existsb (String.eqb (fst kv)) params) kws
  then bind_params params args kws
  else None.

(** Calls of what the cells define, at most [depth] deep: a function runs
    its body in a new local namespace; a class makes an instance and runs
    [__init__] on it; an instance runs its [__call__], or its [forward] if
    its class derives from [nn.Module]; a method runs with the instance as
    first argument.  A function that ends without [return] yields
    [None]. *)
Fixpoint call_user (depth : nat) (w : world) (f : value) (args : list value)
    (kws : list (string * value)) {struct depth} : M value :=
  match depth with
  | O => raise RecursionError
  | S d =>
      let invoke (params : list string) (body : list stmt)
                 (actual : list value) : M value :=
        match bind_args params actual kws with
        | Some fr =>
            in_frame fr (r <- exec_block w (call_user d w) body ;;
                         ret (from_option id VNone r))
        | None => raise (TypeError "arguments")
        end in
      match f with
      | VFunc _ params body => invoke params body args
      | VClass name _ body =>
          emit (EvCall name) ;;;
          l <- alloc_object (Object f ∅) ;;
          match find_method "__init__" body with
          | Some (params, b) =>
              invoke params b (VInst name l :: args) ;;; ret (VInst name l)
          | None => ret (VInst name l)
          end
      | VInst _ l =>
          o <- load_object l ;;
          match find_method "__call__" (class_body (ob_class o)),
                find_method "forward" (class_body (ob_class o)) with
          | Some (params, b), _ => invoke params b (f :: args)
          | None, Some (params, b) =>
              if existsb is_torch_module (class_bases (ob_class o))
              then invoke params b (f :: args)
              else raise (TypeError "not callable")
          | None, None => raise (TypeError "not callable")
          end
      | VAttr (VInst c l) m =>
          o <- load_object l ;;
          match find_method m (class_body (ob_class o)) with
          | Some (params, b) => invoke params b (VInst c l :: args)
          | None => raise (AttributeError m)
          end
      | _ => raise (TypeError "not callable")
      end
  end.

(** Python's default limit on the depth of calls. *)
Definition recursion_limit : nat := 1000.

Definition calls (w : world) : caller := call_user recursion_limit w.

(** A cell runs its statements in order; the value of a final expression
    statement is displayed unless it is [None]. *)
Fixpoint exec_cell (w : world) (c : cell) : M unit :=
  match c with
  | [] => ret tt
  | [SExpr e] =>
      v <- eval w (calls w) e ;;
      match v with
      | VNone => ret tt
      | _ => emit (EvDisplay v)
      end
  | s :: c' => exec_stmt w (calls w) s ;;; exec_cell w c'
  end.

(** ** Running a notebook *)

(** Operations performed by Python code can raise; shell lines, [print],
    the display of a value and the decoding of a response that has
    arrived do not abort a cell.  A download belongs to the call that asks
    for it: when it fails, that call fails. *)
Definition fallible (ev : event) : bool :=
  match ev with
  | EvOpen _ _ | EvRead _ | EvWrite _ _ | EvExport _ _ | EvQuery _ _ _
  | EvInfer _ | EvCall _ | EvLocal _ _ | EvShutdown => true
  | _ => false
  end.

(** Which attempts of fallible operations fail, counted from [0] over the
    whole session, and with which error. *)
Definition oracle := nat -> option string.

Definition no_failure : oracle := fun _ => None.

Record session := Session {
  s_state : state;
  s_trace : list event;          (* operations performed so far *)
  s_attempts : nat               (* fallible operations attempted so far *)
}.

(** [perform fail p s]: performs the operations of [p] in order; the first
    one that fails ends the computation with that error. *)
Fixpoint perform {A : Type} (fail : oracle) (p : prog A) (tr : list event)
    (n : nat) : session * (exn + A) :=
  match p with
  | Done a st => (Session st tr n, inr a)
  | Throw e st => (Session st tr n, inl e)
  | Op ev st k =>
      if fallible ev then
        match fail n with
        | Some msg => (Session st tr (S n), inl (ExternalError msg))
        | None => perform fail k (tr ++ [ev]) (S n)
        end
      else perform fail k (tr ++ [ev]) n
  | Check ok e st k =>
      if ok then perform fail k tr n else (Session st tr n, inl e)
  end.

(** [RunAll] is the kernel's "run all cells": it stops at the first cell
    that raises.  [Interactive] runs every cell in order, as a reader does
    who steps through the notebook; a cell that raises leaves the
    namespace as it was at that point. *)
Inductive mode := RunAll | Interactive.

Record outcome := Outcome {
  o_session : session;
  o_errors : list (nat * exn)    (* cells that raised, by position *)
}.

Fixpoint run_cells (w : world) (fail : oracle) (m : mode) (i : nat)
    (cs : list cell) (s : session) : outcome :=
  match cs with
  | [] => Outcome s []
  | c :: cs' =>
      match perform fail (exec_cell w c (s_state s)) (s_trace s) (s_attempts s) with
      | (s', inr _) => run_cells w fail m (S i) cs' s'
      | (s', inl e) =>
          match m with
          | RunAll => Outcome s' [(i, e)]
          | Interactive =>
              let o := run_cells w fail m (S i) cs' s' in
              Outcome (o_session o) ((i, e) :: o_errors o)
          end
      end
  end.

Definition run (w : world) (fail : oracle) (m : mode) (nb : notebook) : outcome :=
  run_cells w fail m 0 nb (Session initial [] 0).

Definition trace (w : world) (m : mode) (nb : notebook) : list event :=
  s_trace (o_session (run w no_failure m nb)).

Definition errors (w : world) (m : mode) (nb : notebook) : list (nat * exn) :=
  o_errors (run w no_failure m nb).

(** A small world for examples: three labels, a 1x2 image, and model
    outputs whose largest entry is at position 1. *)
Definition tiny_world : world :=
  World ["tench"; "goldfish"; "great white shark"]
        (Image [[1 # 2; 1 # 4]] [[1 # 2; 1 # 4]] [[1 # 2; 1 # 4]])
        (fun _ => [1 # 10; 9 # 10; 3 # 10])
        (fun _ _ => [2 # 10; 7 # 10; 1 # 10]).


(** ** Runs in which no data check fails

    [guards p] lists the conditions of the data checks of [p], [strip p]
    is [p] without them.  When every guard holds the two programs behave
    alike (lemma [perform_strip] below); the stripped run does not depend
    on the numbers in the world, only on where they are used. *)

Fixpoint guards {A : Type} (p : prog A) : list bool :=
  match p with
  | Done _ _ | Throw _ _ => []
  | Op _ _ k => guards k
  | Check ok _ _ k => ok :: guards k
  end.

Fixpoint strip {A : Type} (p : prog A) : prog A :=
  match p with
  | Done a st => Done a st
  | Throw e st => Throw e st
  | Op ev st k => Op ev st (strip k)
  | Check _ _ _ k => strip k
  end.

Fixpoint run_cells_unchecked (w : world) (fail : oracle) (m : mode) (i : nat)
    (cs : list cell) (s : session) : outcome :=
  match cs with
  | [] => Outcome s []
  | c :: cs' =>
      match perform fail (strip (exec_cell w c (s_state s)))
              (s_trace s) (s_attempts s) with
      | (s', inr _) => run_cells_unchecked w fail m (S i) cs' s'
      | (s', inl e) =>
          match m with
          | RunAll => Outcome s' [(i, e)]
          | Interactive =>
              let o := run_cells_unchecked w fail m (S i) cs' s' in
              Outcome (o_session o) ((i, e) :: o_errors o)
          end
      end
  end.

(** The guards met along the unchecked run. *)
Fixpoint run_guards (w : world) (fail : oracle) (m : mode)
    (cs : list cell) (s : session) : list bool :=
  match cs with
  | [] => []
  | c :: cs' =>
      let p := exec_cell w c (s_state s) in
      guards p ++
      match perform fail (strip p) (s_trace s) (s_attempts s) with
      | (s', inr _) => run_guards w fail m cs' s'
      | (s', inl _) =>
          match m with
          | RunAll => []
          | Interactive => run_guards w fail m cs' s'
          end
      end
  end.

Definition start : session := Session initial [] 0.

(** ** Well-formed worlds

    The local model and the server return at least one number, the local
    model at least three (the notebook asks for the top three), and the
    label file has a label for every position a model output has. *)
Definition wf_world (w : world) : Prop :=
  (forall x, 3 <= length (w_local w x) <= length (w_labels w))%nat /\
  (forall m d, 0 < length (w_server w m d) <= length (w_labels w))%nat.

(** ** Reading a configuration text

    The configuration files use the protobuf text format.  The reader
    below covers the part of it the notebooks write: scalar fields
    [key: value], bracketed lists, and messages in braces with or without
    a colon after the key. *)

Inductive token :=
| TIdent (s : string)
| TStr (s : string)
| TNum (n : Z)
| TColon | TComma | TLBrack | TRBrack | TLBrace | TRBrace.

Definition word_token (w : string) : token :=
  match parse_nat w with
  | Some n => TNum n
  | None => TIdent w
  end.

Definition flush (cur : string) : list token :=
  match cur with
  | EmptyString => []
  | _ => [word_token (String.rev cur)]
  end.

Definition punct (a : ascii) : option token :=
  if Ascii.eqb a ":" then Some TColon
  else if Ascii.eqb a "," then Some TComma
  else if Ascii.eqb a "[" then Some TLBrack
  else if Ascii.eqb a "]" then Some TRBrack
  else if Ascii.eqb a "{" then Some TLBrace
  else if Ascii.eqb a "}" then Some TRBrace
  else None.

(** [lex s cur instr]: [cur] is the word or string read so far, reversed;
    [instr] tells whether the reader is inside double quotes. *)
Fixpoint lex (s : string) (cur : string) (instr : bool) : list token :=
  match s with
  | EmptyString => if instr then [TStr (String.rev cur)] else flush cur
  | String a s' =>
      if instr then
        if Ascii.eqb a "034" then TStr (String.rev cur) :: lex s' EmptyString false
        else lex s' (String a cur) true
      else if Ascii.eqb a "034" then flush cur ++ lex s' EmptyString true
      else if Ascii.is_space a then flush cur ++ lex s' EmptyString false
      else match punct a with
           | Some t => flush cur ++ t :: lex s' EmptyString false
           | None => lex s' (String a cur) false
           end
  end.

Definition tokens (s : string) : list token := lex s EmptyString false.

Inductive pb :=
| PStr (s : string)
| PNum (n : Z)
| PIdent (s : string)
| PList (items : list pb)
| PMsg (fields : list (string * pb)).

Fixpoint parse_value (fuel : nat) (ts : list token) : option (pb * list token) :=
  match fuel with
  | O => None
  | S fuel' =>
      match ts with
      | TStr s :: r => Some (PStr s, r)
      | TNum n :: r => Some (PNum n, r)
      | TIdent s :: r => Some (PIdent s, r)
      | TLBrack :: r =>
          match parse_items fuel' r with
          | Some (items, r') => Some (PList items, r')
          | None => None
          end
      | TLBrace :: r =>
          match parse_fields fuel' r with
          | Some (fields, TRBrace :: r') => Some (PMsg fields, r')
          | _ => None
          end
      | _ => None
      end
  end
with parse_items (fuel : nat) (ts : list token) : option (list pb * list token) :=
  match fuel with
  | O => None
  | S fuel' =>
      match ts with
      | TRBrack :: r => Some ([], r)
      | TComma :: r => parse_items fuel' r
      | _ =>
          match parse_value fuel' ts with
          | Some (v, r) =>
              match parse_items fuel' r with
              | Some (vs, r') => Some (v :: vs, r')
              | None => None
              end
          | None => None
          end
      end
  end
with parse_fields (fuel : nat) (ts : list token)
    : option (list (string * pb) * list token) :=
  match fuel with
  | O => None
  | S fuel' =>
      match ts with
      | TIdent k :: r =>
          let r1 := match r with
                    | TColon :: r0 => r0
                    | _ => r
                    end in
          match parse_value fuel' r1 with
          | Some (v, r2) =>
              match parse_fields fuel' r2 with
              | Some (fs, r3) => Some ((k, v) :: fs, r3)
              | None => None
              end
          | None => None
          end
      | _ => Some ([], ts)
      end
  end.

(** A whole text: fields up to the end of the input. *)
Definition parse_pbtxt (s : string) : option (list (string * pb)) :=
  let ts := tokens s in
  match parse_fields (S (2 * length ts)) ts with
  | Some (fs, []) => Some fs
  | _ => None
  end.

Record tensor := Tensor {
  t_name : string;
  t_type : string;
  t_dims : list Z
}.

Record model_config := ModelConfig {
  c_name : string;
  c_platform : string;
  c_max_batch_size : Z;
  c_inputs : list tensor;
  c_outputs : list tensor
}.

Definition field (k : string) (fs : list (string * pb)) : option pb :=
  snd <$> find (fun p => String.eqb (fst p) k) fs.

Definition fields_named (k : string) (fs : list (string * pb)) : list pb :=
  map snd (List.filter (fun p => String.eqb (fst p) k) fs).

(** A repeated message field is written as one message or as a list. *)
Definition messages (v : pb) : list pb :=
  match v with
  | PList items => items
  | _ => [v]
  end.

Definition pb_num (v : pb) : option Z :=
  match v with
  | PNum n => Some n
  | _ => None
  end.

Definition tensor_of_msg (v : pb) : option tensor :=
  match v with
  | PMsg fs =>
      match field "name" fs, field "data_type" fs, field "dims" fs with
      | Some (PStr n), Some (PIdent t), Some (PList ds) =>
          if forallb (fun d => match pb_num d with Some _ => true | None => false end) ds
          then Some (Tensor n t (omap pb_num ds))
          else None
      | _, _, _ => None
      end
  | _ => None
  end.

Fixpoint all_some {A : Type} (l : list (option A)) : option (list A) :=
  match l with
  | [] => Some []
  | Some a :: r => option_map (cons a) (all_some r)
  | None :: _ => None
  end.

Definition parse_config (s : string) : option model_config :=
  match parse_pbtxt s with
  | Some fs =>
      match field "name" fs, field "platform" fs, field "max_batch_size" fs,
            all_some (map tensor_of_msg (flat_map messages (fields_named "input" fs))),
            all_some (map tensor_of_msg (flat_map messages (fields_named "output" fs)))
      with
      | Some (PStr n), Some (PStr p), Some (PNum b), Some ins, Some outs =>
          Some (ModelConfig n p b ins outs)
      | _, _, _, _, _ => None
      end
  | None => None
  end.

(** ** Observations on a trace *)

(** The six steps the notebooks are described by. *)
Inductive stage :=
| CreateDirs | ExportModel | WriteConfig | PollServer | SendRequest | PrintResult.

Definition stage_eqb (a b : stage) : bool :=
  match a, b with
  | CreateDirs, CreateDirs | ExportModel, ExportModel
  | WriteConfig, WriteConfig | PollServer, PollServer
  | SendRequest, SendRequest | PrintResult, PrintResult => true
  | _, _ => false
  end.

(** The step an operation belongs to, if any.  The decoded result is the
    value printed directly after the [np.argmax] call.  Operations that
    belong to no step are auxiliary: label and image loading, local
    validation, other prints, clean-up and kernel shutdown. *)
Definition stage_of (prev : option event) (ev : event) : option stage :=
  match ev with
  | EvMkdir _ => Some CreateDirs
  | EvExport _ _ | EvTrtexec _ => Some ExportModel
  | EvWrite _ _ => Some WriteConfig
  | EvOpen _ m => if String.eqb m "w" then Some WriteConfig else None
  | EvSleep _ | EvCurl _ => Some PollServer
  | EvQuery _ _ _ | EvInfer _ | EvOutput _ _ => Some SendRequest
  | EvCall f => if String.prefix "tritonclient." f then Some SendRequest else None
  | EvPrint _ =>
      match prev with
      | Some (EvCall f) =>
          if String.eqb f "numpy.argmax" then Some PrintResult else None
      | _ => None
      end
  | _ => None
  end.

Fixpoint stages_from (prev : option event) (tr : list event) : list stage :=
  match tr with
  | [] => []
  | ev :: r =>
      match stage_of prev ev with
      | Some s => s :: stages_from (Some ev) r
      | None => stages_from (Some ev) r
      end
  end.

(** Consecutive operations of one step count once. *)
Fixpoint collapse (l : list stage) : list stage :=
  match l with
  | a :: (b :: _) as r => if stage_eqb a b then collapse r else a :: collapse r
  | _ => l
  end.

Definition stages (tr : list event) : list stage :=
  collapse (stages_from None tr).

Definition six_steps : list stage :=
  [CreateDirs; ExportModel; WriteConfig; PollServer; SendRequest; PrintResult].

(** An operation that belongs to none of the six steps. *)
Fixpoint auxiliary_from (prev : option event) (tr : list event) : list event :=
  match tr with
  | [] => []
  | ev :: r =>
      match stage_of prev ev with
      | Some _ => auxiliary_from (Some ev) r
      | None => ev :: auxiliary_from (Some ev) r
      end
  end.

(** The trace without its data: printed and displayed values, the input
    of the local model and the data of a request are erased. *)
Definition skeleton (ev : event) : event :=
  match ev with
  | EvPrint vs => EvPrint (map (fun _ => VNone) vs)
  | EvDisplay _ => EvDisplay VNone
  | EvLocal m _ => EvLocal m VNone
  | EvInfer (Request m v ins outs) =>
      EvInfer (Request m v
                 (map (fun i => InferInput (in_name i) (in_shape i) (in_dtype i) None) ins)
                 outs)
  | _ => ev
  end.

Definition writes (tr : list event) : list (string * string) :=
  omap (fun ev => match ev with
                  | EvWrite p d => Some (p, d)
                  | _ => None
                  end) tr.

Definition requests (tr : list event) : list request :=
  omap (fun ev => match ev with
                  | EvInfer r => Some r
                  | _ => None
                  end) tr.

Definition flag (k : string) (flags : list (string * string)) : option string :=
  snd <$> find (fun p => String.eqb (fst p) k) flags.

Definition trtexecs (tr : list event) : list (list (string * string)) :=
  omap (fun ev => match ev with
                  | EvTrtexec fl => Some fl
                  | _ => None
                  end) tr.

(** The file an operation writes at a path the cell gives, if it writes
    one. *)
Definition written_path (ev : event) : option string :=
  match ev with
  | EvWrite p _ => Some p
  | EvOpen p m => if String.eqb m "w" then Some p else None
  | EvExport _ p => Some p
  | EvTrtexec fl => flag "--saveEngine" fl
  | _ => None
  end.

(** Every path a cell names for an operation that creates, writes or
    removes it.  A library call has none of its own: what it writes where
    the cell tells it to is an [EvExport] or an [EvWrite], what it
    downloads an [EvFetch]. *)
Definition touched_paths (ev : event) : list string :=
  match ev with
  | EvMkdir p | EvRemove p => [p]
  | _ => option_list (written_path ev)
  end.

(** The files the libraries look for in their caches. *)
Definition fetched (tr : list event) : list string :=
  omap (fun ev => match ev with
                  | EvFetch p => Some p
                  | _ => None
                  end) tr.

(** The files and directories an operation creates, changes or removes,
    [cached] telling which files the library caches hold already: a file
    that is not there is downloaded and stored. *)
Definition changed_paths (cached : string -> bool) (ev : event) : list string :=
  match ev with
  | EvFetch p => if cached p then [] else [p]
  | _ => touched_paths ev
  end.

(** The calls of the notebooks that create or change no file themselves,
    by the documentation of their libraries: they compute in memory, read
    a file, or talk to the server.  What such a call is told to write is
    recorded as [EvExport], what it downloads as [EvFetch].  What the
    Python and CUDA runtimes store on their own (bytecode and kernel
    caches) is not part of a call. *)
Definition calls_without_files : list string :=
  [ "Model"; "PyTorch_to_TorchScript"; "WrappedModel";
    "torch.nn.Module.__init__"; "tensorflow.Module.__init__";
    "Model.eval"; "Model.cuda";
    "PyTorch_to_TorchScript.eval"; "PyTorch_to_TorchScript.cuda";
    "torchvision.models.resnet50";
    "torchvision.transforms.Resize"; "torchvision.transforms.CenterCrop";
    "torchvision.transforms.ToTensor"; "torchvision.transforms.Normalize";
    "torchvision.transforms.Compose"; "torchvision.transforms.Compose.__call__";
    "tensor.cuda"; "tensor.cpu"; "tensor.detach"; "tensor.numpy";
    "torch.topk"; "torch.randn"; "torch.randn.cuda"; "torch.jit.script";
    "tensorflow.config.optimizer.set_jit"; "tensorflow.function";
    "tensorflow.TensorSpec"; "WrappedModel.__call__.get_concrete_function";
    "tensorflow.keras.applications.ResNet50";
    "tensorflow.keras.applications.resnet50.ResNet50";
    "tensorflow.keras.applications.resnet50.decode_predictions";
    "tensorflow.keras.applications.resnet50.preprocess_input";
    "tensorflow.keras.preprocessing.image.load_img";
    "tensorflow.keras.preprocessing.image.img_to_array";
    "numpy.expand_dims"; "numpy.transpose"; "numpy.asarray"; "numpy.argmax";
    "tritonclient.http.InferenceServerClient";
    "tritonclient.http.InferInput";
    "tritonclient.http.InferInput.set_data_from_numpy";
    "tritonclient.http.InferRequestedOutput";
    "IPython.Application.instance" ].

(** The file effects of the operation are known: a library call is one of
    [calls_without_files], and a shell line is one the interpreter
    understands. *)
Definition accounted (ev : event) : bool :=
  match ev with
  | EvCall f => existsb (String.eqb f) calls_without_files
  | EvShell _ => false
  | _ => true
  end.

Definition exported (tr : list event) : list string :=
  omap (fun ev => match ev with
                  | EvExport _ p => Some p
                  | EvTrtexec fl => flag "--saveEngine" fl
                  | _ => None
                  end) tr.

Definition under_models (p : string) : bool := String.prefix "models/" p.

(** [models/<m>/config.pbtxt] *)
Definition config_dir (p : string) : option string :=
  match split_on "/" p with
  | [root; m; file] =>
      if String.eqb root "models" && String.eqb file "config.pbtxt"
      then Some m else None
  | _ => None
  end.

(** [models/<m>/1/<file>] *)
Definition artifact_dir (p : string) : option string :=
  match split_on "/" p with
  | [root; m; version; file] =>
      if String.eqb root "models" && String.eqb version "1"
         && negb (String.eqb file EmptyString)
      then Some m else None
  | _ => None
  end.

Definition opt_eqb (a : option string) (b : string) : bool :=
  match a with
  | Some x => String.eqb x b
  | None => false
  end.

(** The operations after the first [EvWrite] to [p]. *)
Fixpoint after_write (p : string) (tr : list event) : list event :=
  match tr with
  | [] => []
  | EvWrite q _ :: r => if String.eqb q p then r else after_write p r
  | _ :: r => after_write p r
  end.

(** A configuration written to [p] with text [d] follows the repository
    layout in trace [tr]: [p] is [models/<m>/config.pbtxt], the name in the
    text is [<m>], and an artifact was exported to [models/<m>/1/]. *)
Definition deployed_ok (tr : list event) (pd : string * string) : bool :=
  match config_dir (fst pd) with
  | Some m =>
      opt_eqb (c_name <$> parse_config (snd pd)) m
      && existsb (fun a => opt_eqb (artifact_dir a) m) (exported tr)
  | None => false
  end.

(** The model of the configuration is requested after it was written. *)
Definition requested_later (tr : list event) (pd : string * string) : bool :=
  existsb (fun r => opt_eqb (config_dir (fst pd)) (rq_model r))
    (requests (after_write (fst pd) tr)).

(** The request names a model whose configuration was written before. *)
Fixpoint requests_deployed (seen : list string) (tr : list event) : bool :=
  match tr with
  | [] => true
  | EvWrite p _ :: r => requests_deployed (option_list (config_dir p) ++ seen) r
  | EvInfer q :: r =>
      existsb (String.eqb (rq_model q)) seen && requests_deployed seen r
  | _ :: r => requests_deployed seen r
  end.

Definition sleeps (tr : list event) : list Z :=
  omap (fun ev => match ev with
                  | EvSleep n => Some n
                  | _ => None
                  end) tr.

Definition curls (tr : list event) : list string :=
  omap (fun ev => match ev with
                  | EvCurl u => Some u
                  | _ => None
                  end) tr.

Definition is_sleep (ev : event) : bool :=
  match ev with
  | EvSleep _ => true
  | _ => false
  end.

Definition is_config_write (ev : event) : bool :=
  match ev with
  | EvWrite _ _ => true
  | _ => false
  end.

Definition is_server_request (ev : event) : bool :=
  match ev with
  | EvCurl _ | EvQuery _ _ _ | EvInfer _ => true
  | _ => false
  end.

Fixpoint before_sleep (tr : list event) : list event :=
  match tr with
  | [] => []
  | ev :: r => if is_sleep ev then [] else ev :: before_sleep r
  end.

Fixpoint after_sleep (tr : list event) : list event :=
  match tr with
  | [] => []
  | ev :: r => if is_sleep ev then r else after_sleep r
  end.

(** The values printed directly after an [np.argmax] call. *)
Fixpoint decoded_prints (prev : option event) (tr : list event)
    : list (list value) :=
  match tr with
  | [] => []
  | ev :: r =>
      match stage_of prev ev, ev with
      | Some PrintResult, EvPrint vs => vs :: decoded_prints (Some ev) r
      | _, _ => decoded_prints (Some ev) r
      end
  end.

(** Every output tensor read from a response belongs to the latest request
    and is one of the outputs that request asked for. *)
Fixpoint outputs_requested (last : option request) (tr : list event) : bool :=
  match tr with
  | [] => true
  | EvInfer r :: t => outputs_requested (Some r) t
  | EvOutput m n :: t =>
      match last with
      | Some r => String.eqb (rq_model r) m && existsb (String.eqb n) (rq_outputs r)
      | None => false
      end && outputs_requested last t
  | _ :: t => outputs_requested last t
  end.

Definition outputs_read (tr : list event) : list (string * string) :=
  omap (fun ev => match ev with
                  | EvOutput m n => Some (m, n)
                  | _ => None
                  end) tr.

Definition locals (tr : list event) : list value :=
  omap (fun ev => match ev with
                  | EvLocal _ x => Some x
                  | _ => None
                  end) tr.

(** [name:AxBxC...] as written in a [trtexec] shape flag. *)
Definition parse_shape (s : string) : option (string * list Z) :=
  match split_on ":" s with
  | [name; dims] =>
      option_map (pair name) (all_some (map parse_nat (split_on "x" dims)))
  | _ => None
  end.

Definition shape_flag (k : string) (fl : list (string * string))
    : option (string * list Z) :=
  match flag k fl with
  | Some v => parse_shape v
  | None => None
  end.

(** ** Observations on the source *)

Fixpoint subexprs (e : expr) : list expr :=
  let all := fix all (es : list expr) : list expr :=
    match es with
    | [] => []
    | x :: r => subexprs x ++ all r
    end in
  e :: match e with
       | ETuple es | EList es => all es
       | EDict kvs =>
           (fix go (l : list (expr * expr)) : list expr :=
              match l with
              | [] => []
              | (k, v) :: r => subexprs k ++ subexprs v ++ go r
              end) kvs
       | EAttr e' _ => subexprs e'
       | ECall f args kws =>
           subexprs f ++ all args ++
           (fix go (l : list (string * expr)) : list expr :=
              match l with
              | [] => []
              | (_, v) :: r => subexprs v ++ go r
              end) kws
       | EIndex a b | ESliceTo a b | EBin _ a b => subexprs a ++ subexprs b
       | EListComp elt _ iter => subexprs elt ++ subexprs iter
       | _ => []
       end.

Fixpoint substmts (s : stmt) : list stmt :=
  let all := fix all (ss : list stmt) : list stmt :=
    match ss with
    | [] => []
    | x :: r => substmts x ++ all r
    end in
  s :: match s with
       | SClass _ _ body | SDef _ _ _ body | SWith _ _ body | SFor _ _ body =>
           all body
       | _ => []
       end.

(** The expressions written directly in a statement. *)
Definition own_exprs (s : stmt) : list expr :=
  match s with
  | SClass _ bases _ => bases
  | SDef decs _ _ _ => decs
  | SReturn e | SAssign _ e | SExpr e => [e]
  | SSetAttr o _ e => [o; e]
  | SWith ctx _ _ => [ctx]
  | SFor _ iter _ => [iter]
  | _ => []
  end.

Definition all_stmts (nb : notebook) : list stmt :=
  flat_map substmts (concat nb).

Definition all_exprs (nb : notebook) : list expr :=
  flat_map subexprs (flat_map own_exprs (all_stmts nb)).


(** The attributes read from the variable [x]. *)
Definition attrs_on (x : string) (nb : notebook) : list string :=
  omap (fun e => match e with
                 | EAttr (EName y) a => if String.eqb x y then Some a else None
                 | _ => None
                 end) (all_exprs nb).

(** How often the variable [x] is read. *)
Definition reads (x : string) (nb : notebook) : nat :=
  length (List.filter (fun e => match e with
                           | EName y => String.eqb x y
                           | _ => false
                           end) (all_exprs nb)).

(** ** What the notebooks compute from the world *)

(** The label the notebooks print for the output [xs] of a model. *)
Definition label_of (labels : list string) (xs : list Q) : string :=
  nth (argmax xs) labels EmptyString.

(** The sample image as notebook 02 sends it: a batch of one image whose
    channel [c] holds [normalize_px m_c s_c x] for every number [x]. *)
Definition normalized (mean std : list Q) (img : image) : value :=
  VArr (VList [VList
    [ map_nums (normalize_px (nth 0 mean 0%Q) (nth 0 std 0%Q)) (plane (red img));
      map_nums (normalize_px (nth 1 mean 0%Q) (nth 1 std 0%Q)) (plane (green img));
      map_nums (normalize_px (nth 2 mean 0%Q) (nth 2 std 0%Q)) (plane (blue img)) ]]).

Definition mean_02 : list Q := [485 # 1000; 456 # 1000; 406 # 1000].

(** The per-channel standard deviations of ImageNet. *)
Definition imagenet_std_reference : list Q := [229 # 1000; 224 # 1000; 225 # 1000].

(** ** Statements about the notebooks *)

(** The two data checks of a decoding cell on the model output [xs]: the
    output is not empty, and the position of its maximum has a label. *)
Definition decode_checks (labels : list string) (xs : list Q) : list bool :=
  [ negb (is_nil (flatten (VList [row xs])));
    in_range (map VStr labels) (Z.of_nat (argmax (flatten (VList [row xs])))) ].

(** The data checks of one round of the top-3 loop of notebook 02 on the
    local output [xs]: [values[i]], [indices[i]] (twice) and the label. *)
Definition topk_label_check (labels : list string) (xs : list Q) (i : nat)
    : list bool :=
  [ true; true; true;
    in_range (map VStr labels)
      (Z.of_nat (fst (nth i (topk (Z.to_nat 3) (flatten (row xs)))
                        (0%nat, 0%Q)))) ].

(** The model directories for which a configuration is written. *)
Definition deployed (tr : list event) : list string :=
  omap (fun pd => config_dir (fst pd)) (writes tr).

(** What a configuration written to the directory [dir] says. *)
Definition describes_tensors (dir : string) (c : model_config) : Prop :=
  c_name c = dir /\
  c_platform c <> EmptyString /\
  c_max_batch_size c = 32 /\
  exists i o,
    c_inputs c = [i] /\ c_outputs c = [o] /\
    t_name i <> EmptyString /\ t_type i = "TYPE_FP32" /\
    length (t_dims i) = 3%nat /\
    t_name o <> EmptyString /\ t_type o = "TYPE_FP32" /\
    t_dims o = [1000].

Definition is_some {A : Type} (o : option A) : bool :=
  match o with
  | Some _ => true
  | None => false
  end.

(** The file effects of the operation are known; a file it writes at a
    path the cell gives is a configuration file or an artifact in a
    version directory; and every path the cell names for it to create,
    write or remove is inside [models/]. *)
Definition fs_ok (ev : event) : bool :=
  accounted ev
  && forallb under_models (touched_paths ev)
  && match written_path ev with
     | Some p => is_some (config_dir p) || is_some (artifact_dir p)
     | None => true
     end.

(** The number of fallible operations in a trace. *)
Definition attempted (tr : list event) : nat :=
  length (List.filter fallible tr).

(** The numbers the server returns for the request [r]. *)
Definition served (w : world) (r : request) : list Q :=
  w_server w (rq_model r) (omap in_data (rq_inputs r)).

(** The value the decoding cell computes for the request [r]. *)
Definition decoded_raw (w : world) (r : request) : list value :=
  [ py_get (map VStr (w_labels w))
      (Z.of_nat (argmax (flatten (VList
         [row (w_server w (rq_model r) (omap in_data (rq_inputs r)))])))) ].

(** A channel after normalization with mean [m] and deviation [s]. *)
Definition normalize_plane (m s : Q) (rows : list (list Q)) : value :=
  plane (map (map (normalize_px m s)) rows).

(** The batch notebook 02 feeds to the local model and sends to the
    server: every channel normalized with its mean as the deviation. *)
Definition image_02 (img : image) : value :=
  VArr (VList [VList
    [ normalize_plane (485 # 1000) (485 # 1000) (red img);
      normalize_plane (456 # 1000) (456 # 1000) (green img);
      normalize_plane (406 # 1000) (406 # 1000) (blue img) ]]).

(** The first attempt that fails is attempt [k], with error [msg]. *)
Definition first_failure (fail : oracle) (k : nat) (msg : string) : Prop :=
  fail k = Some msg /\ forall j, (j < k)%nat -> fail j = None.

(** An oracle that fails attempt [k] only. *)
Definition fail_at (k : nat) (msg : string) : oracle :=
  fun j => if Nat.eqb j k then Some msg else None.

(** The input [i] of a request has the name the engine built with the
    flags [fl] expects and a batch size within the engine's bounds. *)
Definition batch_within (fl : list (string * string)) (i : infer_input) : bool :=
  match shape_flag "--minShapes" fl, shape_flag "--maxShapes" fl, in_shape i with
  | Some (n1, lo :: _), Some (n2, hi :: _), b :: _ =>
      String.eqb n1 (in_name i) && String.eqb n2 (in_name i)
      && (lo <=? b) && (b <=? hi)
  | _, _, _ => false
  end.

(** ** Requests against configurations *)

(** The configuration written for the model directory [m], if one was. *)
Definition config_of (tr : list event) (m : string) : option model_config :=
  match List.filter (fun pd => opt_eqb (config_dir (fst pd)) m) (writes tr) with
  | pd :: _ => parse_config (snd pd)
  | [] => None
  end.

(** [models/<m>/<version>/<file>]: the version directory of an artifact of
    the model [m]. *)
Definition artifact_version (m : string) (p : string) : option string :=
  match split_on "/" p with
  | [root; m'; version; _] =>
      if String.eqb root "models" && String.eqb m' m then Some version else None
  | _ => None
  end.

(** The input [i] of a request fits the input tensor [t] of a
    configuration with maximal batch size [b]: the same name, the datatype
    of the tensor without its [TYPE_] prefix, a shape made of a batch size
    between 1 and [b] followed by the dims of the tensor, and data set. *)
Definition input_fits (b : Z) (t : tensor) (i : infer_input) : bool :=
  String.eqb (in_name i) (t_name t)
  && String.eqb ("TYPE_" +:+ in_dtype i) (t_type t)
  && match in_shape i with
     | n :: dims => (1 <=? n) && (n <=? b) && bool_decide (dims = t_dims t)
     | [] => false
     end
  && is_some (in_data i).

(** The request [r] fits what the trace [tr] deployed for its model: one
    input, which fits the input of the configuration; the output of the
    configuration as the only output asked for; and as version the
    version directory of an exported artifact of the model. *)
Definition request_fits (tr : list event) (r : request) : bool :=
  match config_of tr (rq_model r) with
  | Some c =>
      match c_inputs c, rq_inputs r, c_outputs c with
      | [t], [i], [o] =>
          input_fits (c_max_batch_size c) t i
          && bool_decide (rq_outputs r = [t_name o])
          && existsb (fun p => opt_eqb (artifact_version (rq_model r) p)
                                 (rq_version r)) (exported tr)
      | _, _, _ => false
      end
  | None => false
  end.

(** ** The file tree *)

(** A path as the list of its components: [a/b/] and [a/b] name the same
    directory. *)
Definition components (p : string) : list string :=
  List.filter (fun c => negb (String.eqb c EmptyString)) (split_on "/" p).

Fixpoint is_prefix (a b : list string) : bool :=
  match a, b with
  | [], _ => true
  | x :: a', y :: b' => String.eqb x y && is_prefix a' b'
  | _ :: _, [] => false
  end.

Definition path_eqb (a b : list string) : bool :=
  is_prefix a b && is_prefix b a.

(** The directories [mkdir -p] makes sure exist: the path and the
    directories above it. *)
Fixpoint ancestors (p : list string) : list (list string) :=
  match p with
  | [] => []
  | c :: r => [c] :: map (cons c) (ancestors r)
  end.

(** The files and directories that exist, as far as the operations of a
    trace tell: [mkdir -p] creates a directory and those above it, a write
    or an export creates the file, a library leaves the file it looks for
    in its cache, [rm -rf] removes a path and everything below it. *)
Definition tree := list (list string).

Definition tree_step (t : tree) (ev : event) : tree :=
  match ev with
  | EvMkdir p | EvFetch p => ancestors (components p) ++ t
  | EvRemove p => List.filter (fun q => negb (is_prefix (components p) q)) t
  | _ => match written_path ev with
         | Some q => components q :: t
         | None => t
         end
  end.

Definition tree_after (t : tree) (tr : list event) : tree :=
  fold_left tree_step tr t.

Definition exists_in (t : tree) (p : list string) : bool :=
  existsb (path_eqb p) t.


(** The files an operation reads: [open] for reading, [json.load],
    [Image.open], and the [--onnx] input of [trtexec]. *)
Definition read_paths (ev : event) : list string :=
  match ev with
  | EvRead p => [p]
  | EvOpen p m => if String.eqb m "r" then [p] else []
  | EvTrtexec fl => option_list (flag "--onnx" fl)
  | _ => []
  end.

(** Every file is written into a directory that exists at that point. *)
Fixpoint parents_exist (t : tree) (tr : list event) : bool :=
  match tr with
  | [] => true
  | ev :: r =>
      match written_path ev with
      | Some q => exists_in t (removelast (components q))
      | None => true
      end && parents_exist (tree_step t ev) r
  end.

(** The files read that do not exist at that point: what a trace needs
    from outside. *)
Fixpoint missing_inputs (t : tree) (tr : list event) : list string :=
  match tr with
  | [] => []
  | ev :: r =>
      List.filter (fun p => negb (exists_in t (components p))) (read_paths ev)
      ++ missing_inputs (tree_step t ev) r
  end.


Definition labels_file : string := "./imagenet-simple-labels.json".
Definition image_file : string := "./assets/goldfish.jpg".
Definition onnx_file : string := "models/simple-onnx-model/1/model.onnx".

(** The flags of a [trtexec] run that do not name the engine file. *)
Definition build_flags (fl : list (string * string)) : list (string * string) :=
  List.filter (fun kv => negb (String.eqb (fst kv) "--saveEngine")) fl.

(** ** The namespace at the end of a run *)

Definition binding (w : world) (m : mode) (nb : notebook) (x : string)
    : option value :=
  ns (s_state (o_session (run w no_failure m nb))) !! x.

(** The address part of a URL without scheme: what precedes the first
    slash. *)
Definition host_of (url : string) : string :=
  match split_on "/" url with
  | h :: _ => h
  | [] => url
  end.

(** ** What is printed *)

Definition prints (tr : list event) : list (list value) :=
  omap (fun ev => match ev with
                  | EvPrint vs => Some vs
                  | _ => None
                  end) tr.

(** The shape of an array, as [print(a.shape)] shows it. *)
Definition shape_value (a : value) : value :=
  match a with
  | VArr d => VTuple (map VInt (shape_of d))
  | _ => VNone
  end.

(** One line of the top-3 loop of notebook 02, for the entry [p] of
    [torch.topk]: value, position, label. *)
Definition topk_line (labels : list string) (p : nat * Q) : list value :=
  [ VNum (snd p); VInt (Z.of_nat (fst p));
    VStr (nth (fst p) labels EmptyString) ].

(** The same line as the cell computes it, the label by list indexing. *)
Definition topk_line_raw (labels : list string) (p : nat * Q) : list value :=
  [ VNum (snd p); VInt (Z.of_nat (fst p));
    py_get (map VStr labels) (Z.of_nat (fst p)) ].

(** The entry [topk_pairs] picks first, and the list it goes on with. *)
Definition pick (ps : list (nat * Q)) : nat * Q :=
  best_of (from_option id (0%nat, 0%Q) (head ps)) ps.

Definition drop_position (b : nat * Q) (ps : list (nat * Q)) : list (nat * Q) :=
  List.filter (fun p => negb (Nat.eqb (fst p) (fst b))) ps.

(** ** Cells in an arbitrary session *)

(** The cell that loads the labels and prints the first five. *)
Definition labels_cell : cell :=
  load_labels ++
  [ SExpr (call (EName "print") [ESliceTo (EName "labels") (EInt 5)]) ].

(** A session between two cells: no call is in progress, and the
    builtins [open] and [print] are not redefined. *)
Definition between_cells (st : state) : Prop :=
  frames st = [] /\ ns st !! "open" = None /\ ns st !! "print" = None.

(** The namespace of a session that ran the cells before a decoding
    cell: the list of labels, the output of the model as a batch of one
    row, and numpy under its usual name. *)
Definition ready_to_decode (st : state) (labels : list string) (xs : list Q)
    : Prop :=
  ns st !! "labels" = Some (VList (map VStr labels)) /\
  ns st !! "logits" = Some (row_batch xs) /\
  ns st !! "np" = Some (VLib "numpy").

(** The variables an inference cell reads. *)
Record request_names := RequestNames {
  n_input : string;
  n_shape : list Z;
  n_dtype : string;
  n_output : string;
  n_model : string;
  n_version : string;
  n_url : string
}.

(** The namespace before an inference cell: the client library and numpy
    under their names, the names of the request, the client, and the data
    to send. *)
Definition ready_to_infer (st : state) (q : request_names) (data : value)
    : Prop :=
  ns st !! "tritonhttpclient" = Some (VLib "tritonclient.http") /\
  ns st !! "np" = Some (VLib "numpy") /\
  ns st !! "input_name" = Some (VStr (n_input q)) /\
  ns st !! "input_shape" = Some (VTuple (map VInt (n_shape q))) /\
  ns st !! "input_dtype" = Some (VStr (n_dtype q)) /\
  ns st !! "output_name" = Some (VStr (n_output q)) /\
  ns st !! "model_name" = Some (VStr (n_model q)) /\
  ns st !! "model_version" = Some (VStr (n_version q)) /\
  ns st !! "triton_client" = Some (VClient (n_url q)) /\
  ns st !! "image_numpy" = Some data.

(** The request the names describe, with its data. *)
Definition request_of (q : request_names) (data : value) : request :=
  Request (n_model q) (n_version q)
    [InferInput (n_input q) (n_shape q) (n_dtype q) (Some data)] [n_output q].

(** The state with another global namespace and another store of request
    inputs. *)
Definition with_globals (st : state) (g : gmap string value)
    (h : list infer_input) : state :=
  State g h (objects st) (frames st).

(** ** The classes of the cells *)

(** The statements of a class definition. *)
Definition class_statements (s : stmt) : list stmt :=
  match s with
  | SClass _ _ body => body
  | _ => []
  end.

(** The body of the class [name] as a notebook defines it. *)
Definition class_named (name : string) (nb : notebook) : list stmt :=
  from_option class_statements []
    (List.find (fun s => match s with
                         | SClass n _ _ => String.eqb n name
                         | _ => false
                         end) (concat nb)).

(** The three classes of the notebooks, as values: each derives from one
    library class. *)
Definition Model_class : value :=
  VClass "Model" [VLib "torch.nn.Module"] (class_named "Model" nb02_pytorch).
Definition PyTorch_to_TorchScript_class : value :=
  VClass "PyTorch_to_TorchScript" [VLib "torch.nn.Module"]
    (class_named "PyTorch_to_TorchScript" nb02_pytorch).
Definition WrappedModel_class : value :=
  VClass "WrappedModel" [VLib "tensorflow.Module"]
    (class_named "WrappedModel" nb04_tensorflow).

Definition notebook_classes : list value :=
  [Model_class; PyTorch_to_TorchScript_class; WrappedModel_class].

(** The instance at [l] is an instance of the class [c] whose attribute
    [model] holds [v]. *)
Definition holds_model (st : state) (l : nat) (c : value) (v : value) : Prop :=
  exists attrs,
    objects st !! l = Some (Object c attrs) /\ attrs !! "model" = Some v.

(** The state with one more instance in the store. *)
Definition with_new_object (st : state) (o : object) : state :=
  State (ns st) (heap st) (objects st ++ [o]) (frames st).

(** The networks a trace builds: the calls of the constructors. *)
Definition networks_built (tr : list event) : list string :=
  omap (fun ev => match ev with
                  | EvCall f =>
                      if existsb (String.eqb f)
                           [ "torchvision.models.resnet50";
                             "tensorflow.keras.applications.ResNet50";
                             "tensorflow.keras.applications.resnet50.ResNet50" ]
                      then Some f else None
                  | _ => None
                  end) tr.

(** The networks a trace runs on the local machine. *)
Definition networks_run (tr : list event) : list string :=
  omap (fun ev => match ev with
                  | EvLocal c _ => Some c
                  | _ => None
                  end) tr.

(** The instances in the store at the end of a run, each with the name of
    its class and the value of its attribute [model]. *)
Definition instances (w : world) (m : mode) (nb : notebook)
    : list (string * option value) :=
  map (fun o => (describe (ob_class o), ob_attrs o !! "model"))
    (objects (s_state (o_session (run w no_failure m nb)))).

(** ** The names given to the ONNX export *)

(** ['actual_input_1'] followed by [learned_0] to [learned_15]. *)
Definition onnx_input_names : list string :=
  "actual_input_1" :: map (fun k => "learned_" +:+ pretty k) (seqZ 0 16).

(** ** Sample sessions *)

(** A session whose only instance is a [Model] that holds a network. *)
Definition session_with_model : state :=
  State (<["PyTorch_to_TorchScript" := PyTorch_to_TorchScript_class]> ∅) []
    [Object Model_class (<["model" := VNet "torchvision.models.resnet50"]> ∅)]
    [].

(** A session right after the imports and the class definition of the
    second cell of notebook 02. *)
Definition session_with_class : state :=
  State (<["Model" := Model_class]>
         (<["models" := VLib "torchvision.models"]> ∅)) [] [] [].

(** Case analysis on the three notebooks. *)
Ltac each_notebook H := destruct H as [<-|[<-|[<-|[]]]].

(** An equation between a run in an arbitrary world and its value, checked
    by evaluating both sides. *)
Ltac by_vm :=
  match goal with
  | |- _ = ?r => vm_cast_no_check (@eq_refl _ r)
  end.

(** ** Properties of the runner *)

Lemma perform_strip {A : Type} (fail : oracle) (p : prog A) :
  forall tr n,
    Forall (fun b => b = true) (guards p) ->
    perform fail p tr n = perform fail (strip p) tr n.
Proof.
  induction p as [a st|e st|ev st k IH|ok e st k IH]; intros tr n Hg; simpl in *.
  - reflexivity.
  - reflexivity.
  - destruct (fallible ev).
    + destruct (fail n); [reflexivity|]. apply IH, Hg.
    + apply IH, Hg.
  - inversion Hg as [|b l Hb Hl]; subst. simpl. apply IH, Hl.
Qed.

Lemma run_cells_unchecked_eq (w : world) (fail : oracle) (m : mode) :
  forall cs i s,
    Forall (fun b => b = true) (run_guards w fail m cs s) ->
    run_cells w fail m i cs s = run_cells_unchecked w fail m i cs s.
Proof.
  induction cs as [|c cs IH]; intros i s Hg; simpl in *; [reflexivity|].
  apply Forall_app in Hg as [Hc Hr].
  rewrite (perform_strip fail _ _ _ Hc).
  destruct (perform fail (strip (exec_cell w c (s_state s))) (s_trace s)
              (s_attempts s)) as [s' [e|u]].
  - destruct m; [reflexivity|]. rewrite (IH _ _ Hr). reflexivity.
  - apply IH, Hr.
Qed.

(** ** Properties of the numeric helpers *)

Lemma flatten_row (xs : list Q) : flatten (row xs) = xs.
Proof.
  unfold row. induction xs as [|x xs IH]; simpl; [reflexivity|].
  simpl in IH. f_equal. exact IH.
Qed.

Lemma flatten_batch (xs : list Q) : flatten (VList [row xs]) = xs.
Proof.
  change (flatten (VList [row xs])) with (flatten (row xs) ++ []).
  rewrite app_nil_r. apply flatten_row.
Qed.

Lemma argmax_from_bound (xs : list Q) :
  forall bi b i, (bi < i)%nat -> (argmax_from bi b i xs < i + length xs)%nat.
Proof.
  induction xs as [|x xs IH]; intros bi b i Hlt; simpl.
  - lia.
  - destruct (Qlt_bool b x).
    + specialize (IH i x (S i)). lia.
    + specialize (IH bi b (S i)). lia.
Qed.

Lemma argmax_bound (xs : list Q) :
  (0 < length xs)%nat -> (argmax xs < length xs)%nat.
Proof.
  destruct xs as [|x xs]; simpl; [lia|]. intros _.
  pose proof (argmax_from_bound xs 0 x 1). lia.
Qed.

Lemma Qlt_bool_true (a b : Q) : Qlt_bool a b = true -> (a < b)%Q.
Proof.
  unfold Qlt_bool. intros H. apply negb_true_iff in H.
  apply Qnot_le_lt. intros Hle. apply Qle_bool_iff in Hle. congruence.
Qed.

Lemma Qlt_bool_false (a b : Q) : Qlt_bool a b = false -> (b <= a)%Q.
Proof.
  unfold Qlt_bool. intros H. apply negb_false_iff in H.
  apply Qle_bool_iff. exact H.
Qed.

Lemma Qlt_bool_irrefl (a : Q) : Qlt_bool a a = false.
Proof. unfold Qlt_bool. apply negb_false_iff, Qle_bool_iff, Qle_refl. Qed.

(** [argmax_from bi b (length pre) xs] continues a scan that has read
    [pre] and found its first maximum [b] at position [bi]. *)
Lemma argmax_from_spec (xs : list Q) :
  forall pre bi b,
    (bi < length pre)%nat ->
    nth bi pre 0%Q = b ->
    (forall j, (j < length pre)%nat -> (nth j pre 0 <= b)%Q) ->
    (forall j, (j < bi)%nat -> (nth j pre 0 < b)%Q) ->
    let a := argmax_from bi b (length pre) xs in
    (a < length (pre ++ xs))%nat /\
    (forall j, (j < length (pre ++ xs))%nat ->
               (nth j (pre ++ xs) 0 <= nth a (pre ++ xs) 0)%Q) /\
    (forall j, (j < a)%nat -> (nth j (pre ++ xs) 0 < nth a (pre ++ xs) 0)%Q).
Proof.
  induction xs as [|x xs IH]; intros pre bi b Hbi Hb Hle Hlt; simpl.
  - rewrite app_nil_r, Hb. repeat split; assumption.
  - assert (Hlen : length (pre ++ [x]) = S (length pre)).
    { rewrite length_app. simpl. lia. }
    assert (Hpre : forall j, (j < length pre)%nat ->
                             nth j (pre ++ [x]) 0%Q = nth j pre 0%Q).
    { intros j Hj. apply app_nth1. exact Hj. }
    assert (Hx : nth (length pre) (pre ++ [x]) 0%Q = x).
    { rewrite app_nth2 by lia. rewrite Nat.sub_diag. reflexivity. }
    replace (pre ++ x :: xs) with ((pre ++ [x]) ++ xs)
      by (rewrite <- app_assoc; reflexivity).
    rewrite <- Hlen.
    destruct (Qlt_bool b x) eqn:E.
    + apply Qlt_bool_true in E.
      apply (IH (pre ++ [x]) (length pre) x).
      * lia.
      * exact Hx.
      * intros j Hj. rewrite Hlen in Hj.
        destruct (Nat.eq_dec j (length pre)) as [->|Hne].
        -- rewrite Hx. apply Qle_refl.
        -- rewrite Hpre by lia. apply Qle_trans with b; [apply Hle; lia|].
           apply Qlt_le_weak. exact E.
      * intros j Hj. rewrite Hpre by lia.
        apply Qle_lt_trans with b; [apply Hle; lia|exact E].
    + apply Qlt_bool_false in E.
      apply (IH (pre ++ [x]) bi b).
      * lia.
      * rewrite Hpre by lia. exact Hb.
      * intros j Hj. rewrite Hlen in Hj.
        destruct (Nat.eq_dec j (length pre)) as [->|Hne].
        -- rewrite Hx. exact E.
        -- rewrite Hpre by lia. apply Hle. lia.
      * intros j Hj. rewrite Hpre by lia. apply Hlt. exact Hj.
Qed.

(** The position [argmax] returns holds a largest number of the list, and
    no earlier position holds one as large. *)
Lemma argmax_spec (xs : list Q) :
  xs <> [] ->
  (argmax xs < length xs)%nat /\
  (forall j, (j < length xs)%nat -> (nth j xs 0 <= nth (argmax xs) xs 0)%Q) /\
  (forall j, (j < argmax xs)%nat -> (nth j xs 0 < nth (argmax xs) xs 0)%Q).
Proof.
  destruct xs as [|x xs]; [congruence|]. intros _.
  apply (argmax_from_spec xs [x] 0%nat x).
  - simpl. lia.
  - reflexivity.
  - intros j Hj. simpl in Hj. destruct j; [apply Qle_refl|lia].
  - intros j Hj. lia.
Qed.

(** A position that holds a number larger than all others is the one
    [argmax] returns. *)
Lemma argmax_unique (xs : list Q) (g : nat) :
  (g < length xs)%nat ->
  (forall j, (j < length xs)%nat -> j <> g -> (nth j xs 0 < nth g xs 0)%Q) ->
  argmax xs = g.
Proof.
  intros Hg Hmax.
  assert (Hne : xs <> []) by (destruct xs; [simpl in Hg; lia|discriminate]).
  destruct (argmax_spec xs Hne) as (Ha & Hle & _).
  destruct (Nat.eq_dec (argmax xs) g) as [E|E]; [exact E|].
  exfalso. apply (Qlt_irrefl (nth g xs 0%Q)).
  apply Qle_lt_trans with (nth (argmax xs) xs 0%Q); [apply Hle, Hg|].
  apply Hmax; assumption.
Qed.

Lemma in_range_of_nat (vs : list value) (n : nat) :
  (n < length vs)%nat -> in_range vs (Z.of_nat n) = true.
Proof.
  intros H. unfold in_range. apply andb_true_intro. split.
  - apply Z.leb_le. lia.
  - apply Z.ltb_lt. lia.
Qed.

Lemma py_get_of_nat (vs : list value) (n : nat) :
  py_get vs (Z.of_nat n) = nth n vs VNone.
Proof.
  unfold py_get. destruct (Z.ltb_spec (Z.of_nat n) 0) as [H|H]; [lia|].
  rewrite Nat2Z.id. reflexivity.
Qed.

Lemma nth_label (labels : list string) (n : nat) :
  (n < length labels)%nat ->
  nth n (map VStr labels) VNone = VStr (nth n labels EmptyString).
Proof.
  revert n. induction labels as [|l ls IH]; intros n H; simpl in *; [lia|].
  destruct n as [|n]; [reflexivity|]. apply IH. lia.
Qed.

Lemma best_of_cases (xs : list (nat * Q)) :
  forall b, best_of b xs = b \/ In (best_of b xs) xs.
Proof.
  induction xs as [|x xs IH]; intros b; simpl; [left; reflexivity|].
  destruct (Qlt_bool (snd b) (snd x)).
  - right. destruct (IH x) as [H|H]; [left; symmetry; exact H|right; exact H].
  - destruct (IH b) as [H|H]; [left; exact H|right; right; exact H].
Qed.

Lemma number_from_fst (xs : list Q) :
  forall i p, In p (number_from i xs) -> (fst p < i + length xs)%nat.
Proof.
  induction xs as [|x xs IH]; intros i p H; simpl in *; [contradiction|].
  destruct H as [H|H]; [subst; simpl; lia|].
  specialize (IH (S i) p H). lia.
Qed.

Lemma topk_pairs_fst (N : nat) (k : nat) :
  forall ps,
    (0 < N)%nat ->
    (forall p, In p ps -> (fst p < N)%nat) ->
    forall p, In p (topk_pairs k ps) -> (fst p < N)%nat.
Proof.
  induction k as [|k IH]; intros ps HN Hps p Hp; simpl in *; [contradiction|].
  destruct Hp as [Hp|Hp].
  - subst p. destruct ps as [|q qs]; [exact HN|].
    change (from_option id (0%nat, 0%Q) (head (q :: qs))) with q.
    destruct (best_of_cases (q :: qs) q) as [H|H].
    + rewrite H. apply Hps. left. reflexivity.
    + apply Hps. exact H.
  - apply (IH _ HN) in Hp; [exact Hp|].
    intros q Hq. apply List.filter_In in Hq as [Hq _]. apply Hps, Hq.
Qed.

Lemma topk_index_bound (k : nat) (xs : list Q) (i : nat) :
  (0 < length xs)%nat ->
  (fst (nth i (topk k xs) (0%nat, 0%Q)) < length xs)%nat.
Proof.
  intros Hx.
  destruct (Nat.lt_ge_cases i (length (topk k xs))) as [Hi|Hi].
  - apply (topk_pairs_fst (length xs) k (number_from 0 xs) Hx).
    + intros p Hp. apply number_from_fst in Hp. lia.
    + apply nth_In. exact Hi.
  - rewrite nth_overflow by exact Hi. exact Hx.
Qed.

(** ** The data checks hold in a well-formed world *)

Lemma nonempty_ok (xs : list Q) :
  (0 < length xs)%nat -> negb (is_nil (flatten (VList [row xs]))) = true.
Proof.
  rewrite flatten_batch. destruct xs; simpl; [lia|reflexivity].
Qed.

Lemma decode_ok (labels : list string) (xs : list Q) :
  (0 < length xs <= length labels)%nat ->
  in_range (map VStr labels) (Z.of_nat (argmax (flatten (VList [row xs])))) = true.
Proof.
  intros [H0 Hl]. rewrite flatten_batch. apply in_range_of_nat.
  rewrite length_map. pose proof (argmax_bound xs H0). lia.
Qed.

Lemma topk_ok (xs : list Q) :
  (3 <= length xs)%nat ->
  ((0 <=? 3) && (Z.to_nat 3 <=? length (flatten (row xs)))%nat) = true.
Proof.
  intros H. rewrite flatten_row. apply andb_true_intro. split; [reflexivity|].
  apply Nat.leb_le. simpl. lia.
Qed.

Lemma topk_label_ok (labels : list string) (xs : list Q) (i : nat) :
  (3 <= length xs <= length labels)%nat ->
  in_range (map VStr labels)
    (Z.of_nat (fst (nth i (topk (Z.to_nat 3) (flatten (row xs))) (0%nat, 0%Q))))
  = true.
Proof.
  intros [H3 Hl]. rewrite flatten_row. apply in_range_of_nat.
  rewrite length_map. pose proof (topk_index_bound (Z.to_nat 3) xs i). lia.
Qed.

Lemma decoded_label (labels : list string) (xs : list Q) :
  (0 < length xs <= length labels)%nat ->
  py_get (map VStr labels) (Z.of_nat (argmax (flatten (VList [row xs]))))
  = VStr (label_of labels xs).
Proof.
  intros [H0 Hl]. rewrite flatten_batch, py_get_of_nat. apply nth_label.
  pose proof (argmax_bound xs H0). lia.
Qed.

(** The data checks met by the notebooks, in the order they are met. *)
Section Guards.
Variable labels : list string.
Variable img : image.
Variable local : value -> list Q.
Variable server : string -> list value -> list Q.

Lemma guards_nb02 (m : mode) :
  let x := normalized mean_02 mean_02 img in
  run_guards (World labels img local server) no_failure m nb02_pytorch start =
  [ (0 <=? 3) && (Z.to_nat 3 <=? length (flatten (row (local x))))%nat;
    true; true ]
  ++ topk_label_check labels (local x) 0
  ++ topk_label_check labels (local x) 1
  ++ topk_label_check labels (local x) 2
  ++ decode_checks labels (server "simple-pytorch-model" [x])
  ++ match m with
     | RunAll => []
     | Interactive => decode_checks labels (server "simple-onnx-model" [x])
     end.
Proof. destruct m; reflexivity. Qed.

Lemma guards_nb04 (m : mode) :
  run_guards (World labels img local server) no_failure m nb04_tensorflow start =
  decode_checks labels
    (server "simple-tensorflow-model"
       [VObj "tensorflow.keras.applications.resnet50.preprocess_input"]).
Proof. destruct m; reflexivity. Qed.

Lemma guards_nb05 (m : mode) :
  run_guards (World labels img local server) no_failure m nb05_tensorrt start =
  decode_checks labels
    (server "simple-tensorrt-fp32-model" [VObj "numpy.transpose"])
  ++ match m with
     | RunAll => []
     | Interactive =>
         decode_checks labels
           (server "simple-tensorrt-fp16-model" [VObj "numpy.transpose"])
     end.
Proof. destruct m; reflexivity. Qed.

Hypothesis Hwf : wf_world (World labels img local server).

Lemma decode_checks_ok (m : string) (d : list value) :
  Forall (fun b => b = true) (decode_checks labels (server m d)).
Proof.
  destruct Hwf as [_ Hs]. specialize (Hs m d). simpl in Hs.
  apply List.Forall_cons; [apply nonempty_ok; lia|].
  apply List.Forall_cons; [apply decode_ok; exact Hs|]. apply List.Forall_nil.
Qed.

Lemma topk_label_check_ok (x : value) (i : nat) :
  Forall (fun b => b = true) (topk_label_check labels (local x) i).
Proof.
  destruct Hwf as [Hl _]. specialize (Hl x). simpl in Hl.
  do 3 (apply List.Forall_cons; [reflexivity|]).
  apply List.Forall_cons; [apply topk_label_ok; exact Hl|]. apply List.Forall_nil.
Qed.

(** In a well-formed world every data check of the notebooks holds. *)
Lemma guards_hold (m : mode) (nb : notebook) :
  In nb notebooks ->
  Forall (fun b => b = true)
    (run_guards (World labels img local server) no_failure m nb start).
Proof.
  intros [<-|[<-|[<-|[]]]].
  - rewrite guards_nb02. cbv zeta.
    apply Forall_app_2.
    { destruct Hwf as [Hl _].
      specialize (Hl (normalized mean_02 mean_02 img)). simpl in Hl.
      apply List.Forall_cons; [apply topk_ok; lia|].
      do 2 (apply List.Forall_cons; [reflexivity|]). apply List.Forall_nil. }
    do 3 (apply Forall_app_2; [apply topk_label_check_ok|]).
    apply Forall_app_2; [apply decode_checks_ok|].
    destruct m; [apply List.Forall_nil|apply decode_checks_ok].
  - rewrite guards_nb04. apply decode_checks_ok.
  - rewrite guards_nb05. apply Forall_app_2; [apply decode_checks_ok|].
    destruct m; [apply List.Forall_nil|apply decode_checks_ok].
Qed.
End Guards.

(** In a well-formed world the notebooks run as their unchecked runs. *)
Lemma run_unchecked (w : world) (m : mode) (nb : notebook) :
  wf_world w -> In nb notebooks ->
  run w no_failure m nb = run_cells_unchecked w no_failure m 0 nb start.
Proof.
  destruct w as [labels img local server]. intros Hwf Hnb.
  apply run_cells_unchecked_eq, guards_hold; assumption.
Qed.

(** ** The cells are the cells of the notebook files *)

Lemma cells_as_written :
  map (fun c => logical_lines (render_cell c)) nb02_pytorch
  = map logical_lines source_02 /\
  map (fun c => logical_lines (render_cell c)) nb04_tensorflow
  = map logical_lines source_04 /\
  map (fun c => logical_lines (render_cell c)) nb05_tensorrt
  = map logical_lines source_05.
Proof. split; [|split]; vm_compute; reflexivity. Qed.

(** The cell of notebook 02 that holds the loop: its transcription printed
    as text, and the logical lines of its text in the notebook file. *)
Example loop_cell_text :
  render_cell (nth 5 nb02_pytorch [])
  = text [ "image_tensor = transform(image).unsqueeze(0).cuda()";
           "logits = model(image_tensor)";
           "K = 3";
           "values, indices = torch.topk(logits, K)";
           "values = values.detach().tolist()[0]";
           "indices = indices.detach().tolist()[0]";
           "for i in range(K):";
           "    print(values[i], indices[i], labels[indices[i]])" ].
Proof. vm_compute. reflexivity. Qed.

Example loop_cell_lines :
  logical_lines (nth 5 source_02 EmptyString)
  = [ (0, "image_tensor=transform(image).unsqueeze(0).cuda()");
      (0, "logits=model(image_tensor)");
      (0, "K=3");
      (0, "values,indices=torch.topk(logits,K)");
      (0, "values=values.detach().tolist()[0]");
      (0, "indices=indices.detach().tolist()[0]");
      (0, "foriinrange(K):");
      (4, "print(values[i],indices[i],labels[indices[i]])") ]%nat.
Proof. vm_compute. reflexivity. Qed.

(** No cell uses a keyword that branches, loops without bound, or raises
    or handles an error; [for] occurs twice, in notebook 02. *)
Lemma keyword_census :
  forallb (fun src => negb (uses_control src)) sources = true /\
  map (count_word "for") sources = [2; 0; 0]%nat.
Proof. split; vm_compute; reflexivity. Qed.

(** ** The notebooks in a well-formed world *)

Lemma wf_tiny : wf_world tiny_world.
Proof. split; intros; simpl; lia. Qed.


Lemma trace_unchecked (w : world) (m : mode) (nb : notebook) :
  wf_world w -> In nb notebooks ->
  trace w m nb
  = s_trace (o_session (run_cells_unchecked w no_failure m 0 nb start)).
Proof.
  intros Hwf Hnb. unfold trace. rewrite run_unchecked by assumption.
  reflexivity.
Qed.

Lemma errors_unchecked (w : world) (m : mode) (nb : notebook) :
  wf_world w -> In nb notebooks ->
  errors w m nb = o_errors (run_cells_unchecked w no_failure m 0 nb start).
Proof.
  intros Hwf Hnb. unfold errors. rewrite run_unchecked by assumption.
  reflexivity.
Qed.


(** ** C1: the order of the six steps *)

(** C1, as stated, fails: executed cell by cell from top to bottom,
    notebook 02 performs the request and the print of the result a second
    time, for the ONNX model. *)
Lemma C1_counterexample :
  ~ (forall m nb, In nb notebooks -> stages (trace tiny_world m nb) = six_steps).
Proof.
  intros H. specialize (H Interactive nb02_pytorch (or_introl eq_refl)).
  vm_compute in H. discriminate H.
Qed.

(** C1 (amended): counting the operations of the six kinds only, every
    notebook performs them in the order create directories, export,
    write configuration, poll, request, print result.  Run with "run all",
    notebooks 02 and 05 stop there, at the first placeholder cell, with a
    [NameError]; run cell by cell, they perform request and print a
    second time for their second model.  Notebook 04 has no placeholder.
    Other operations are interleaved with the six steps; those of
    notebook 04 are listed: building the model and preparing the export,
    loading the labels and the image, the local validation, the decoding,
    the removal of the model directory and the kernel shutdown. *)
Theorem C1_steps_in_order (w : world) :
  wf_world w ->
  (forall nb, In nb notebooks -> stages (trace w RunAll nb) = six_steps) /\
  stages (trace w Interactive nb04_tensorflow) = six_steps /\
  stages (trace w Interactive nb02_pytorch)
    = six_steps ++ [SendRequest; PrintResult] /\
  stages (trace w Interactive nb05_tensorrt)
    = six_steps ++ [SendRequest; PrintResult] /\
  errors w RunAll nb02_pytorch = [(20%nat, NameError "FIXME")] /\
  errors w RunAll nb05_tensorrt = [(18%nat, NameError "FIXME")] /\
  errors w RunAll nb04_tensorflow = [] /\
  errors w Interactive nb04_tensorflow = [] /\
  map skeleton (auxiliary_from None (trace w RunAll nb04_tensorflow))
  = [ EvCall "tensorflow.config.optimizer.set_jit";
      EvCall "tensorflow.function";
      EvCall "WrappedModel";
      EvCall "tensorflow.Module.__init__";
      EvCall "tensorflow.keras.applications.ResNet50";
      EvFetch keras_weights;
      EvCall "tensorflow.TensorSpec";
      EvCall "WrappedModel.__call__.get_concrete_function";
      EvOpen "./imagenet-simple-labels.json" "r";
      EvRead "./imagenet-simple-labels.json";
      EvPrint [VNone];
      EvRead "./assets/goldfish.jpg";
      EvDisplay VNone;
      EvCall "tensorflow.keras.applications.resnet50.ResNet50";
      EvFetch keras_weights;
      EvCall "tensorflow.keras.preprocessing.image.load_img";
      EvCall "tensorflow.keras.preprocessing.image.img_to_array";
      EvCall "numpy.expand_dims";
      EvCall "tensorflow.keras.applications.resnet50.preprocess_input";
      EvLocal "tensorflow.keras.applications.resnet50.ResNet50" VNone;
      EvCall "tensorflow.keras.applications.resnet50.decode_predictions";
      EvFetch keras_class_index;
      EvPrint [VNone; VNone];
      EvCall "numpy.asarray";
      EvCall "numpy.argmax";
      EvRemove "models/simple-tensorflow-model";
      EvCall "IPython.Application.instance";
      EvShutdown;
      EvDisplay VNone ].
Proof.
  intros Hwf.
  assert (H02 : In nb02_pytorch notebooks) by (simpl; auto).
  assert (H04 : In nb04_tensorflow notebooks) by (simpl; auto).
  assert (H05 : In nb05_tensorrt notebooks) by (simpl; auto).
  split.
  { intros nb Hnb. rewrite trace_unchecked by assumption.
    destruct w as [labels img local server].
    each_notebook Hnb; vm_compute; reflexivity. }
  rewrite !trace_unchecked, !errors_unchecked by assumption.
  destruct w as [labels img local server].
  do 7 (split; [vm_compute; reflexivity|]). vm_compute; reflexivity.
Qed.

Lemma C1_witness :
  wf_world tiny_world /\
  stages (trace tiny_world Interactive nb05_tensorrt)
    = six_steps ++ [SendRequest; PrintResult].
Proof.
  split; [exact wf_tiny|].
  exact (proj1 (proj2 (proj2 (proj2 (C1_steps_in_order tiny_world wf_tiny))))).
Defined.

(** ** C2: straight-line execution *)




(** ** C3: repository layout and naming *)

(** C3: in every notebook, each configuration is written to
    [models/<m>/config.pbtxt], names [<m>] in its [name] field, and comes
    with an artifact exported under [models/<m>/1/]; every inference
    request names a model whose configuration was written before; and when
    all cells are run, every model that was configured is requested
    afterwards.  The models are the five listed. *)
Theorem C3_layout_and_names (w : world) (m : mode) (nb : notebook) :
  wf_world w -> In nb notebooks ->
  forallb (deployed_ok (trace w m nb)) (writes (trace w m nb)) = true /\
  requests_deployed [] (trace w m nb) = true /\
  forallb (requested_later (trace w Interactive nb))
    (writes (trace w Interactive nb)) = true /\
  deployed (trace w m nb02_pytorch)
    = ["simple-pytorch-model"; "simple-onnx-model"] /\
  deployed (trace w m nb04_tensorflow) = ["simple-tensorflow-model"] /\
  deployed (trace w m nb05_tensorrt)
    = ["simple-tensorrt-fp32-model"; "simple-tensorrt-fp16-model"].
Proof.
  intros Hwf Hnb.
  assert (H02 : In nb02_pytorch notebooks) by (simpl; auto).
  assert (H04 : In nb04_tensorflow notebooks) by (simpl; auto).
  assert (H05 : In nb05_tensorrt notebooks) by (simpl; auto).
  rewrite !trace_unchecked by assumption.
  destruct w as [labels img local server].
  each_notebook Hnb; destruct m; repeat split; vm_compute; reflexivity.
Qed.

Lemma C3_witness :
  wf_world tiny_world /\ In nb05_tensorrt notebooks /\
  forallb (requested_later (trace tiny_world Interactive nb05_tensorrt))
    (writes (trace tiny_world Interactive nb05_tensorrt)) = true.
Proof.
  split; [exact wf_tiny|]. split; [simpl; auto|].
  exact (proj1 (proj2 (proj2
    (C3_layout_and_names tiny_world RunAll nb05_tensorrt wf_tiny
       (or_intror (or_intror (or_introl eq_refl))))))).
Defined.

(** ** C4: the configuration texts *)

Lemma describes_config (name platform input format in_dims output out_dims : string)
    (dims : list Z) :
  name <> EmptyString -> platform <> EmptyString ->
  input <> EmptyString -> output <> EmptyString ->
  length dims = 3%nat ->
  parse_config
    (configuration_text name platform input format in_dims output out_dims)
  = Some (ModelConfig name platform 32
            [Tensor input "TYPE_FP32" dims] [Tensor output "TYPE_FP32" [1000]]) ->
  exists c,
    parse_config
      (configuration_text name platform input format in_dims output out_dims)
    = Some c /\ describes_tensors name c.
Proof.
  intros Hn Hp Hi Ho Hd Hparse. eexists. split; [exact Hparse|].
  unfold describes_tensors; simpl. repeat split; try assumption.
  eexists _, _. repeat split; assumption.
Qed.

(** The five configuration texts. *)
Lemma configs_described :
  Forall (fun dt => exists c, parse_config (snd dt) = Some c
                              /\ describes_tensors (fst dt) c)
    [ ("simple-pytorch-model", pytorch_config);
      ("simple-onnx-model", onnx_config);
      ("simple-tensorflow-model", tensorflow_config);
      ("simple-tensorrt-fp32-model", tensorrt_fp32_config);
      ("simple-tensorrt-fp16-model", tensorrt_fp16_config) ].
Proof.
  repeat apply List.Forall_cons; try apply List.Forall_nil; simpl;
    (eapply describes_config;
     [discriminate|discriminate|discriminate|discriminate| |
      vm_compute; reflexivity]; reflexivity).
Qed.

(** C4: every configuration text a notebook writes parses as a model
    configuration with the name of its model directory, a platform string,
    [max_batch_size: 32], exactly one input and exactly one output, each
    with a name and [data_type: TYPE_FP32], input dims of three elements
    and output dims [[1000]]. *)
Theorem C4_configuration_contents (w : world) (m : mode) (nb : notebook) :
  wf_world w -> In nb notebooks ->
  writes (trace w m nb) <> [] /\
  Forall (fun pd => exists dir c,
            config_dir (fst pd) = Some dir /\
            parse_config (snd pd) = Some c /\
            describes_tensors dir c)
    (writes (trace w m nb)).
Proof.
  intros Hwf Hnb.
  pose proof configs_described as Hc.
  inversion Hc as [|? ? Hpt Hc1]; subst. inversion Hc1 as [|? ? Hox Hc2]; subst.
  inversion Hc2 as [|? ? Htf Hc3]; subst. inversion Hc3 as [|? ? H32 Hc4]; subst.
  inversion Hc4 as [|? ? H16 _]; subst. clear Hc Hc1 Hc2 Hc3 Hc4.
  simpl in Hpt, Hox, Htf, H32, H16.
  assert (Hw :
    writes (trace w m nb02_pytorch)
      = [("models/simple-pytorch-model/config.pbtxt", pytorch_config);
         ("models/simple-onnx-model/config.pbtxt", onnx_config)] /\
    writes (trace w m nb04_tensorflow)
      = [("models/simple-tensorflow-model/config.pbtxt", tensorflow_config)] /\
    writes (trace w m nb05_tensorrt)
      = [("models/simple-tensorrt-fp32-model/config.pbtxt", tensorrt_fp32_config);
         ("models/simple-tensorrt-fp16-model/config.pbtxt", tensorrt_fp16_config)]).
  { rewrite !trace_unchecked by (simpl; auto).
    destruct w as [labels img local server].
    destruct m; repeat split; vm_compute; reflexivity. }
  destruct Hw as (W02 & W04 & W05).
  each_notebook Hnb; [rewrite W02|rewrite W04|rewrite W05];
    (split; [discriminate|]);
    repeat apply List.Forall_cons; try apply List.Forall_nil; simpl.
  - destruct Hpt as (c & ? & ?). exists "simple-pytorch-model", c. auto.
  - destruct Hox as (c & ? & ?). exists "simple-onnx-model", c. auto.
  - destruct Htf as (c & ? & ?). exists "simple-tensorflow-model", c. auto.
  - destruct H32 as (c & ? & ?). exists "simple-tensorrt-fp32-model", c. auto.
  - destruct H16 as (c & ? & ?). exists "simple-tensorrt-fp16-model", c. auto.
Qed.

Lemma C4_witness :
  wf_world tiny_world /\ In nb02_pytorch notebooks /\
  writes (trace tiny_world Interactive nb02_pytorch) <> [].
Proof.
  split; [exact wf_tiny|]. split; [simpl; auto|].
  exact (proj1 (C4_configuration_contents tiny_world Interactive nb02_pytorch
                  wf_tiny (or_introl eq_refl))).
Defined.

(** ** C5: failures are not handled *)

Lemma attempted_snoc (tr : list event) (ev : event) :
  attempted (tr ++ [ev]) = (attempted tr + if fallible ev then 1 else 0)%nat.
Proof.
  unfold attempted. rewrite List.filter_app, length_app. simpl.
  destruct (fallible ev); reflexivity.
Qed.

Lemma perform_extends {A : Type} (fail : oracle) (p : prog A) :
  forall tr n,
    (n <= s_attempts (fst (perform fail p tr n)))%nat /\
    exists rest, s_trace (fst (perform fail p tr n)) = tr ++ rest.
Proof.
  induction p as [a st|e st|ev st k IH|ok e st k IH]; intros tr n; simpl.
  - split; [lia|]. exists []. rewrite app_nil_r. reflexivity.
  - split; [lia|]. exists []. rewrite app_nil_r. reflexivity.
  - assert (Hk : forall n', (n <= n')%nat ->
              (n <= s_attempts (fst (perform fail k (tr ++ [ev]) n')))%nat /\
              exists rest, s_trace (fst (perform fail k (tr ++ [ev]) n')) = tr ++ rest).
    { intros n' Hn. destruct (IH (tr ++ [ev]) n') as [H1 [rest H2]].
      split; [lia|]. exists (ev :: rest). rewrite H2, <- app_assoc. reflexivity. }
    destruct (fallible ev).
    + destruct (fail n); [|apply Hk; lia].
      simpl. split; [lia|]. exists []. rewrite app_nil_r. reflexivity.
    + apply Hk. lia.
  - destruct ok; [apply IH|]. simpl. split; [lia|].
    exists []. rewrite app_nil_r. reflexivity.
Qed.

Lemma perform_counts {A : Type} (p : prog A) :
  forall tr n,
    attempted tr = n ->
    attempted (s_trace (fst (perform no_failure p tr n)))
    = s_attempts (fst (perform no_failure p tr n)).
Proof.
  induction p as [a st|e st|ev st k IH|ok e st k IH]; intros tr n Hn; simpl.
  - exact Hn.
  - exact Hn.
  - destruct (fallible ev) eqn:Hf; apply IH; rewrite attempted_snoc, Hf; lia.
  - destruct ok; [apply IH; exact Hn|exact Hn].
Qed.

Lemma perform_first_failure {A : Type} (fail : oracle) (k : nat) (msg : string)
    (p : prog A) :
  first_failure fail k msg ->
  forall tr n,
    (n <= k)%nat -> attempted tr = n ->
    if (k <? s_attempts (fst (perform no_failure p tr n)))%nat
    then exists st tr' ev rest,
           perform fail p tr n = (Session st tr' (S k), inl (ExternalError msg)) /\
           s_trace (fst (perform no_failure p tr n)) = tr' ++ ev :: rest /\
           fallible ev = true /\ attempted tr' = k
    else perform fail p tr n = perform no_failure p tr n.
Proof.
  intros [Hk Hbefore].
  induction p as [a st|e st|ev st kont IH|ok e st kont IH]; intros tr n Hn Hc; simpl.
  - destruct (Nat.ltb_spec k n); [lia|reflexivity].
  - destruct (Nat.ltb_spec k n); [lia|reflexivity].
  - destruct (fallible ev) eqn:Hf.
    + destruct (Nat.eq_dec n k) as [->|Hne].
      * rewrite Hk.
        destruct (perform_extends no_failure kont (tr ++ [ev]) (S k)) as [Hle [rest Hrest]].
        destruct (Nat.ltb_spec k (s_attempts (fst (perform no_failure kont (tr ++ [ev]) (S k))))); [|lia].
        exists st, tr, ev, rest. repeat split; try assumption.
        rewrite Hrest, <- app_assoc. reflexivity.
      * rewrite (Hbefore n) by lia. apply IH; [lia|].
        rewrite attempted_snoc, Hf. lia.
    + apply IH; [lia|]. rewrite attempted_snoc, Hf. lia.
  - destruct ok; [apply IH; assumption|]. simpl.
    destruct (Nat.ltb_spec k n); [lia|reflexivity].
Qed.

Lemma run_cells_extends (w : world) (fail : oracle) (m : mode) :
  forall cs i s,
    (s_attempts s <= s_attempts (o_session (run_cells w fail m i cs s)))%nat /\
    exists rest, s_trace (o_session (run_cells w fail m i cs s)) = s_trace s ++ rest.
Proof.
  induction cs as [|c cs IH]; intros i s; simpl.
  - split; [lia|]. exists []. rewrite app_nil_r. reflexivity.
  - pose proof (perform_extends fail (exec_cell w c (s_state s)) (s_trace s)
                  (s_attempts s)) as [Hle [rest Hrest]].
    destruct (perform fail (exec_cell w c (s_state s)) (s_trace s) (s_attempts s))
      as [s' [e|u]]; simpl in Hle, Hrest.
    + destruct m; simpl.
      * split; [lia|]. exists rest. exact Hrest.
      * destruct (IH (S i) s') as [Hle' [rest' Hrest']].
        split; [lia|]. exists (rest ++ rest').
        rewrite Hrest', Hrest, <- app_assoc. reflexivity.
    + destruct (IH (S i) s') as [Hle' [rest' Hrest']].
      split; [lia|]. exists (rest ++ rest').
      rewrite Hrest', Hrest, <- app_assoc. reflexivity.
Qed.

Lemma run_cells_first_failure (w : world) (fail : oracle) (k : nat) (msg : string) :
  first_failure fail k msg ->
  forall cs i s,
    (s_attempts s <= k)%nat -> attempted (s_trace s) = s_attempts s ->
    if (k <? s_attempts (o_session (run_cells w no_failure RunAll i cs s)))%nat
    then exists st tr j ev rest,
           run_cells w fail RunAll i cs s
           = Outcome (Session st tr (S k)) [(j, ExternalError msg)] /\
           s_trace (o_session (run_cells w no_failure RunAll i cs s))
           = tr ++ ev :: rest /\
           fallible ev = true /\ attempted tr = k /\
           (i <= j < i + length cs)%nat
    else run_cells w fail RunAll i cs s = run_cells w no_failure RunAll i cs s.
Proof.
  intros Hfail.
  induction cs as [|c cs IH]; intros i s Hle Hc.
  - simpl. destruct (Nat.ltb_spec k (s_attempts s)); [lia|reflexivity].
  - cbn [run_cells].
    pose proof (perform_first_failure fail k msg (exec_cell w c (s_state s)) Hfail
                  (s_trace s) (s_attempts s) Hle Hc) as Hp.
    pose proof (perform_counts (exec_cell w c (s_state s)) (s_trace s)
                  (s_attempts s) Hc) as Hcount.
    destruct (perform no_failure (exec_cell w c (s_state s)) (s_trace s)
                (s_attempts s)) as [s' r] eqn:E0.
    simpl in Hp, Hcount.
    destruct (Nat.ltb_spec k (s_attempts s')) as [Hlt|Hge].
    + destruct Hp as (st & tr & ev & rest & Hrun & Htr & Hf & Hk).
      rewrite Hrun.
      assert (Hfinal :
        (k < s_attempts (o_session
               match r with
               | inl e => Outcome s' [(i, e)]
               | inr _ => run_cells w no_failure RunAll (S i) cs s'
               end))%nat /\
        exists more, s_trace (o_session
               match r with
               | inl e => Outcome s' [(i, e)]
               | inr _ => run_cells w no_failure RunAll (S i) cs s'
               end) = s_trace s' ++ more).
      { destruct r as [e|u]; simpl.
        - split; [lia|]. exists []. rewrite app_nil_r. reflexivity.
        - destruct (run_cells_extends w no_failure RunAll cs (S i) s') as [H1 H2].
          split; [lia|exact H2]. }
      destruct Hfinal as [Hk' [more Hmore]].
      destruct (Nat.ltb_spec k (s_attempts (o_session
               match r with
               | inl e => Outcome s' [(i, e)]
               | inr _ => run_cells w no_failure RunAll (S i) cs s'
               end))); [|lia].
      exists st, tr, i, ev, (rest ++ more). repeat split; try assumption.
      * rewrite Hmore, Htr, <- app_assoc. reflexivity.
      * lia.
      * simpl. lia.
    + rewrite Hp. destruct r as [e|u].
      * simpl. destruct (Nat.ltb_spec k (s_attempts s')); [lia|reflexivity].
      * specialize (IH (S i) s' Hge Hcount).
        destruct (Nat.ltb_spec k (s_attempts (o_session
                    (run_cells w no_failure RunAll (S i) cs s')))).
        -- destruct IH as (st & tr & j & ev & rest & H1 & H2 & H3 & H4 & H5).
           exists st, tr, j, ev, rest. repeat split; try assumption; simpl; lia.
        -- exact IH.
Qed.

Lemma first_failure_fail_at (k : nat) (msg : string) :
  first_failure (fail_at k msg) k msg.
Proof.
  unfold first_failure, fail_at. split.
  - rewrite Nat.eqb_refl. reflexivity.
  - intros j Hj. destruct (Nat.eqb_spec j k); [lia|reflexivity].
Qed.

(** C5: when an operation performed by Python code (opening or writing a
    file, an export call, a client call) raises, the run of the notebook
    ends at once with exactly that error: if attempt [k] is the first that
    fails, with [msg], a run-all execution stops in the cell [j] that made
    the attempt, reports [ExternalError msg] and has performed the
    operations before the failing one [ev] and nothing else.  No cell reads
    anything from a response but its output tensor ([as_numpy]), no cell
    reads the metadata or configuration fetched from the server, and no
    cell of a notebook file uses [try], [except], [if] or another keyword
    of [control_words]. *)
Theorem C5_failures_propagate (w : world) (nb : notebook) (fail : oracle)
    (k : nat) (msg : string) :
  In nb notebooks ->
  first_failure fail k msg ->
  (k < s_attempts (o_session (run w no_failure RunAll nb)))%nat ->
  (exists st tr j ev rest,
     run w fail RunAll nb
     = Outcome (Session st tr (S k)) [(j, ExternalError msg)] /\
     trace w RunAll nb = tr ++ ev :: rest /\
     fallible ev = true /\ attempted tr = k /\ (j < length nb)%nat) /\
  Forall (fun a => a = "as_numpy") (attrs_on "response" nb) /\
  reads "model_metadata" nb = 0%nat /\
  reads "model_config" nb = 0%nat /\
  forallb (fun src => negb (uses_control src)) sources = true.
Proof.
  intros Hnb Hfail Hk. split.
  - pose proof (run_cells_first_failure w fail k msg Hfail nb 0 start
                  (Nat.le_0_l k) eq_refl) as H.
    unfold run in Hk. fold start in Hk.
    destruct (Nat.ltb_spec k
                (s_attempts (o_session (run_cells w no_failure RunAll 0 nb start))));
      [|lia].
    destruct H as (st & tr & j & ev & rest & H1 & H2 & H3 & H4 & H5).
    exists st, tr, j, ev, rest. repeat split; try assumption. lia.
  - pose proof keyword_census as [Hc _].
    each_notebook Hnb;
      (split; [vm_compute; repeat constructor|]);
      (split; [vm_compute; reflexivity|]);
      (split; [vm_compute; reflexivity|exact Hc]).
Qed.

Lemma C5_witness :
  In nb04_tensorflow notebooks /\
  first_failure (fail_at 19 "No space left on device") 19
    "No space left on device" /\
  (19 < s_attempts (o_session (run tiny_world no_failure RunAll nb04_tensorflow)))%nat /\
  exists st tr j ev rest,
    run tiny_world (fail_at 19 "No space left on device") RunAll nb04_tensorflow
    = Outcome (Session st tr 20) [(j, ExternalError "No space left on device")] /\
    trace tiny_world RunAll nb04_tensorflow = tr ++ ev :: rest /\
    fallible ev = true /\ attempted tr = 19%nat /\
    (j < length nb04_tensorflow)%nat.
Proof.
  assert (Hk : (19 < s_attempts (o_session
                   (run tiny_world no_failure RunAll nb04_tensorflow)))%nat).
  { vm_compute. lia. }
  split; [simpl; auto|]. split; [apply first_failure_fail_at|].
  split; [exact Hk|].
  exact (proj1 (C5_failures_propagate tiny_world nb04_tensorflow
                  (fail_at 19 "No space left on device") 19
                  "No space left on device"
                  (or_intror (or_introl eq_refl))
                  (first_failure_fail_at 19 "No space left on device") Hk)).
Defined.

(** The operation that fails in the witness of C5 is the write of the
    configuration file. *)
Example failing_write :
  run tiny_world (fail_at 19 "No space left on device") RunAll nb04_tensorflow
  = Outcome
      (Session (s_state (o_session (run tiny_world
                  (fail_at 19 "No space left on device") RunAll nb04_tensorflow)))
         (take 27 (trace tiny_world RunAll nb04_tensorflow)) 20)
      [(5%nat, ExternalError "No space left on device")] /\
  nth_error (trace tiny_world RunAll nb04_tensorflow) 27
  = Some (EvWrite "models/simple-tensorflow-model/config.pbtxt" tensorflow_config).
Proof. split; vm_compute; reflexivity. Qed.

(** ** C6: the fixed sleep *)

(** C6: a notebook sleeps exactly once, for 45 seconds; the configuration
    files are all written before the sleep and the server is contacted
    only after it; no URL is polled twice. *)
Theorem C6_single_sleep (w : world) (m : mode) (nb : notebook) :
  wf_world w -> In nb notebooks ->
  let tr := trace w m nb in
  sleeps tr = [45] /\
  existsb is_config_write (before_sleep tr) = true /\
  forallb (fun ev => negb (is_server_request ev)) (before_sleep tr) = true /\
  forallb (fun ev => negb (is_config_write ev)) (after_sleep tr) = true /\
  existsb is_server_request (after_sleep tr) = true /\
  NoDup (curls tr).
Proof.
  intros Hwf Hnb tr. subst tr. rewrite !trace_unchecked by assumption.
  destruct w as [labels img local server].
  assert (Hdup : forall l : list string,
            (if decide (NoDup l) then true else false) = true -> NoDup l).
  { intros l H. destruct (decide (NoDup l)); [assumption|discriminate]. }
  each_notebook Hnb; destruct m; repeat split;
    try (apply Hdup); vm_compute; reflexivity.
Qed.

Lemma C6_witness :
  wf_world tiny_world /\ In nb04_tensorflow notebooks /\
  sleeps (trace tiny_world RunAll nb04_tensorflow) = [45].
Proof.
  split; [exact wf_tiny|]. split; [simpl; auto|].
  exact (proj1 (C6_single_sleep tiny_world RunAll nb04_tensorflow wf_tiny
                  (or_intror (or_introl eq_refl)))).
Defined.

(** ** C7: effects on the file system *)

(** When the paths the cells name are inside [models/] and the cache
    files outside, the changes of a trace all stay inside [models/]
    exactly when the caches hold the files the libraries look for. *)
Lemma changes_in_models (cached : string -> bool) (tr : list event) :
  forallb fs_ok tr = true ->
  forallb (fun p => negb (under_models p)) (fetched tr) = true ->
  forallb under_models (flat_map (changed_paths cached) tr)
  = forallb cached (fetched tr).
Proof.
  assert (Hcons : forall ev r,
            fetched (ev :: r) = match ev with
                                | EvFetch p => p :: fetched r
                                | _ => fetched r
                                end).
  { intros ev r. destruct ev; reflexivity. }
  induction tr as [|ev tr IH]; intros Hok Hout; [reflexivity|].
  simpl in Hok. apply andb_prop in Hok as [Hev Hok].
  simpl flat_map. rewrite forallb_app. rewrite Hcons in Hout |- *.
  unfold fs_ok in Hev.
  apply andb_prop in Hev as [Hev _]. apply andb_prop in Hev as [_ Hev].
  destruct ev; simpl in Hev |- *;
    try (rewrite (IH Hok Hout), ?Hev; reflexivity).
  simpl in Hout. apply andb_prop in Hout as [Hp Hout]. rewrite (IH Hok Hout).
  destruct (cached path); simpl; [reflexivity|].
  apply negb_true_iff in Hp. rewrite Hp. reflexivity.
Qed.

(** C7, as stated, fails: on a machine whose Keras cache is empty,
    notebook 04 stores the weights of [ResNet50] and the class index of
    [decode_predictions] in [~/.keras/models], outside [models/]. *)
Lemma C7_counterexample :
  ~ (forall (cached : string -> bool) w m nb,
       wf_world w -> In nb notebooks ->
       forallb under_models (flat_map (changed_paths cached) (trace w m nb))
       = true).
Proof.
  intros H.
  specialize (H (fun _ => false) tiny_world RunAll nb04_tensorflow wf_tiny
                (or_intror (or_introl eq_refl))).
  vm_compute in H. discriminate H.
Qed.

(** C7 (amended): every file a notebook writes at a path a cell gives is
    a [config.pbtxt] in a model directory or an artifact in a version
    directory [models/<m>/1/], and every path a cell names to be created,
    written or removed (directories made with [mkdir -p] and the model
    directory notebook 04 removes at its end included) lies inside
    [models/].  Every library call a notebook makes is one of
    [calls_without_files].  Beyond that, the constructors that load
    pretrained weights and [decode_predictions] look for a file in the
    cache directory of their library, outside [models/], and store it
    there when it is missing: notebook 02 the checkpoint of torchvision's
    ResNet-50, notebook 04 the Keras weights (twice) and the class index,
    notebook 05 nothing.  So all changes of a run stay inside [models/]
    exactly when the caches hold these files. *)
Theorem C7_writes_in_models_or_cache (w : world) (m : mode) (nb : notebook) :
  wf_world w -> In nb notebooks ->
  forallb fs_ok (trace w m nb) = true /\
  flat_map touched_paths (trace w m nb) <> [] /\
  fetched (trace w m nb02_pytorch) = [torch_weights] /\
  fetched (trace w m nb04_tensorflow)
  = [keras_weights; keras_weights; keras_class_index] /\
  fetched (trace w m nb05_tensorrt) = [] /\
  forallb (fun p => negb (under_models p))
    [torch_weights; keras_weights; keras_class_index] = true /\
  (forall cached : string -> bool,
     forallb under_models (flat_map (changed_paths cached) (trace w m nb))
     = forallb cached (fetched (trace w m nb))).
Proof.
  intros Hwf Hnb.
  assert (Hok : forallb fs_ok (trace w m nb) = true).
  { rewrite trace_unchecked by assumption.
    destruct w as [labels img local server].
    each_notebook Hnb; destruct m; vm_compute; reflexivity. }
  assert (Hout : forallb (fun p => negb (under_models p)) (fetched (trace w m nb))
                 = true).
  { rewrite trace_unchecked by assumption.
    destruct w as [labels img local server].
    each_notebook Hnb; destruct m; vm_compute; reflexivity. }
  split; [exact Hok|].
  split.
  { rewrite trace_unchecked by assumption.
    destruct w as [labels img local server].
    each_notebook Hnb; destruct m; vm_compute; discriminate. }
  rewrite !trace_unchecked by (simpl; auto).
  split; [destruct w, m; vm_compute; reflexivity|].
  split; [destruct w, m; vm_compute; reflexivity|].
  split; [destruct w, m; vm_compute; reflexivity|].
  split; [vm_compute; reflexivity|].
  intros cached. rewrite <- (trace_unchecked w m nb) by assumption.
  apply changes_in_models; assumption.
Qed.

Lemma C7_witness :
  wf_world tiny_world /\ In nb04_tensorflow notebooks /\
  forallb fs_ok (trace tiny_world Interactive nb04_tensorflow) = true.
Proof.
  split; [exact wf_tiny|]. split; [simpl; auto|].
  exact (proj1 (C7_writes_in_models_or_cache tiny_world Interactive
                  nb04_tensorflow wf_tiny (or_intror (or_introl eq_refl)))).
Defined.

(** A call the list does not hold, a shell line the interpreter does not
    understand, or a path outside [models/] fails the check. *)
Example fs_ok_detects :
  map fs_ok
    [ EvCall "numpy.asarray";
      EvCall "shutil.copy";
      EvShell ["cp"; "models/a/1/model.pt"; "/tmp/model.pt"];
      EvWrite "models/a/config.pbtxt" "x";
      EvWrite "/tmp/config.pbtxt" "x";
      EvExport "torch.onnx.export" "models/a/model.onnx";
      EvMkdir "/tmp/models" ]
  = [true; false; false; true; false; false; false].
Proof. vm_compute. reflexivity. Qed.

(** ** C8: the decoded result *)

Lemma decoded_prints_raw (w : world) (m : mode) (nb : notebook) :
  wf_world w -> In nb notebooks ->
  decoded_prints None (trace w m nb)
  = map (decoded_raw w) (requests (trace w m nb)).
Proof.
  intros Hwf Hnb. rewrite !trace_unchecked by assumption.
  destruct w as [labels img local server].
  each_notebook Hnb; destruct m; by_vm.
Qed.

(** C8: every notebook reads from the response an output tensor that the
    request named, and the value printed after [np.argmax] is the label at
    the position of the largest number the server returned for that
    request: one such print per request.  The position is inside the
    output and has a label; no number of the output is larger than the
    one there, and every number before it is smaller (of equal largest
    numbers the first decides).  Whether the label is the right one for
    the image lies with the server and the label file: whenever the
    output is largest, and there alone, at a position whose label is
    [goldfish], the notebook prints [goldfish]. *)
Theorem C8_decoded_label (w : world) (m : mode) (nb : notebook) :
  wf_world w -> In nb notebooks ->
  let tr := trace w m nb in
  requests tr <> [] /\
  outputs_requested None tr = true /\
  length (outputs_read tr) = length (requests tr) /\
  decoded_prints None tr
  = map (fun r => [VStr (nth (argmax (served w r)) (w_labels w) EmptyString)])
      (requests tr) /\
  (forall r, In r (requests tr) ->
     let out := served w r in
     (argmax out < length out)%nat /\
     (argmax out < length (w_labels w))%nat /\
     (forall j, (j < length out)%nat ->
                (nth j out 0 <= nth (argmax out) out 0)%Q) /\
     (forall j, (j < argmax out)%nat ->
                (nth j out 0 < nth (argmax out) out 0)%Q)) /\
  (forall r g, In r (requests tr) ->
     let out := served w r in
     (g < length out)%nat ->
     nth g (w_labels w) EmptyString = "goldfish" ->
     (forall j, (j < length out)%nat -> j <> g ->
                (nth j out 0 < nth g out 0)%Q) ->
     In [VStr "goldfish"] (decoded_prints None tr)).
Proof.
  intros Hwf Hnb tr.
  assert (Hd : decoded_prints None tr
               = map (fun r => [VStr (nth (argmax (served w r)) (w_labels w)
                                        EmptyString)]) (requests tr)).
  { subst tr. rewrite decoded_prints_raw by assumption.
    apply map_ext. intros r. unfold decoded_raw.
    rewrite decoded_label; [reflexivity|]. apply Hwf. }
  assert (Hne : forall r, served w r <> []).
  { intros r. destruct Hwf as [_ Hs].
    specialize (Hs (rq_model r) (omap in_data (rq_inputs r))).
    unfold served. destruct (w_server w (rq_model r) (omap in_data (rq_inputs r)));
      [simpl in Hs; lia|discriminate]. }
  split; [|split; [|split; [|split; [exact Hd|split]]]].
  - subst tr. rewrite trace_unchecked by assumption.
    destruct w as [labels img local server].
    each_notebook Hnb; destruct m; vm_compute; discriminate.
  - subst tr. rewrite trace_unchecked by assumption.
    destruct w as [labels img local server].
    each_notebook Hnb; destruct m; vm_compute; reflexivity.
  - subst tr. rewrite trace_unchecked by assumption.
    destruct w as [labels img local server].
    each_notebook Hnb; destruct m; vm_compute; reflexivity.
  - intros r _. cbv zeta.
    destruct (argmax_spec (served w r) (Hne r)) as (Ha & Hle & Hlt).
    split; [exact Ha|]. split; [|split; assumption].
    destruct Hwf as [_ Hs].
    specialize (Hs (rq_model r) (omap in_data (rq_inputs r))).
    unfold served in *. lia.
  - intros r g Hr out Hg Hlabel Hmax. rewrite Hd.
    apply in_map_iff. exists r. split; [|exact Hr].
    subst out. rewrite (argmax_unique (served w r) g Hg Hmax), Hlabel.
    reflexivity.
Qed.

Lemma C8_witness :
  wf_world tiny_world /\ In nb02_pytorch notebooks /\
  decoded_prints None (trace tiny_world Interactive nb02_pytorch)
  = map (fun r => [VStr (nth (argmax (served tiny_world r))
                           (w_labels tiny_world) EmptyString)])
      (requests (trace tiny_world Interactive nb02_pytorch)).
Proof.
  split; [exact wf_tiny|]. split; [simpl; auto|].
  exact (proj1 (proj2 (proj2 (proj2
    (C8_decoded_label tiny_world Interactive nb02_pytorch wf_tiny
       (or_introl eq_refl)))))).
Defined.

(** In the small world the label printed is [goldfish]. *)
Example goldfish_printed :
  decoded_prints None (trace tiny_world Interactive nb02_pytorch)
  = [[VStr "goldfish"]; [VStr "goldfish"]].
Proof. vm_compute. reflexivity. Qed.

(** ** C9: normalization in notebook 02 *)

Lemma map_nums_plane (f : Q -> Q) (rows : list (list Q)) :
  map_nums f (plane rows) = plane (map (map f) rows).
Proof.
  unfold plane. simpl. f_equal.
  induction rows as [|r rows IH]; simpl; [reflexivity|].
  f_equal; [|exact IH]. f_equal.
  induction r as [|x r IHr]; simpl; [reflexivity|]. f_equal. exact IHr.
Qed.

Lemma normalized_image (img : image) :
  normalized mean_02 mean_02 img = image_02 img.
Proof.
  unfold normalized, image_02, normalize_plane.
  rewrite !map_nums_plane. reflexivity.
Qed.

(** C9: the list [imagenet_std] of notebook 02 is the same list of
    constants as [imagenet_mean], namely 0.485, 0.456, 0.406, and not the
    standard deviations of ImageNet.  The tensor given to the local model
    and the data of every inference request is the sample image with each
    number [x] of channel [c] replaced by [(x - m_c) / m_c], [m_c] being the
    mean of the channel.  Numbers are rationals here; rounding to floating
    point is not modelled. *)
Theorem C9_std_is_mean (w : world) (m : mode) :
  wf_world w ->
  let tr := trace w m nb02_pytorch in
  imagenet_std = imagenet_mean /\
  imagenet_mean = EList (map EFloat ["0.485"; "0.456"; "0.406"]) /\
  map float_value ["0.485"; "0.456"; "0.406"] = mean_02 /\
  ~ Forall2 Qeq mean_02 imagenet_std_reference /\
  locals tr = [image_02 (w_image w)] /\
  requests tr <> [] /\
  Forall (fun r => map in_data (rq_inputs r) = [Some (image_02 (w_image w))])
    (requests tr) /\
  (forall c x : Q, normalize_px c c x = ((x - c) / c)%Q).
Proof.
  intros Hwf tr.
  assert (H02 : In nb02_pytorch notebooks) by (simpl; auto).
  split; [reflexivity|]. split; [reflexivity|]. split; [reflexivity|].
  split.
  { intros H. inversion H as [|a b ? ? Hab _]; subst. vm_compute in Hab.
    discriminate Hab. }
  subst tr. rewrite !trace_unchecked by assumption.
  destruct w as [labels img local server]. simpl w_image.
  rewrite <- normalized_image.
  split; [destruct m; by_vm|].
  split; [destruct m; vm_compute; discriminate|].
  split; [|reflexivity].
  destruct m.
  - apply List.Forall_cons; [by_vm|]. apply List.Forall_nil.
  - apply List.Forall_cons; [by_vm|].
    apply List.Forall_cons; [by_vm|]. apply List.Forall_nil.
Qed.

Lemma C9_witness :
  wf_world tiny_world /\
  locals (trace tiny_world RunAll nb02_pytorch)
  = [image_02 (w_image tiny_world)].
Proof.
  split; [exact wf_tiny|].
  exact (proj1 (proj2 (proj2 (proj2 (proj2
    (C9_std_is_mean tiny_world RunAll wf_tiny)))))).
Defined.

(** ** C10: batch bounds of the TensorRT engines *)

(** C10: both [trtexec] runs of notebook 05 build the engine for input
    [actual_input_1] with batch 1 as minimum, 16 as optimum and 32 as
    maximum; both configurations declare [max_batch_size: 32], the
    maximum; and every request the notebook sends is for that input with
    shape 1x3x224x224, a batch size within the bounds of both engines. *)
Theorem C10_batch_bounds (w : world) (m : mode) :
  wf_world w ->
  let tr := trace w m nb05_tensorrt in
  map (fun fl => (shape_flag "--minShapes" fl, shape_flag "--optShapes" fl,
                  shape_flag "--maxShapes" fl)) (trtexecs tr)
  = [ (Some ("actual_input_1", [1; 3; 224; 224]),
       Some ("actual_input_1", [16; 3; 224; 224]),
       Some ("actual_input_1", [32; 3; 224; 224]));
      (Some ("actual_input_1", [1; 3; 224; 224]),
       Some ("actual_input_1", [16; 3; 224; 224]),
       Some ("actual_input_1", [32; 3; 224; 224])) ] /\
  map (fun pd => c_max_batch_size <$> parse_config (snd pd)) (writes tr)
  = [Some 32; Some 32] /\
  requests tr <> [] /\
  Forall (fun r => map in_shape (rq_inputs r) = [[1; 3; 224; 224]])
    (requests tr) /\
  forallb (fun fl =>
     forallb (fun r => forallb (batch_within fl) (rq_inputs r)) (requests tr))
    (trtexecs tr) = true.
Proof.
  intros Hwf tr. subst tr.
  rewrite !trace_unchecked by (simpl; auto).
  destruct w as [labels img local server].
  destruct m; (split; [vm_compute; reflexivity|]);
    (split; [vm_compute; reflexivity|]);
    (split; [vm_compute; discriminate|]);
    (split; [|vm_compute; reflexivity]);
    repeat apply List.Forall_cons; try apply List.Forall_nil; reflexivity.
Qed.

Lemma C10_witness :
  wf_world tiny_world /\
  map (fun pd => c_max_batch_size <$> parse_config (snd pd))
    (writes (trace tiny_world Interactive nb05_tensorrt))
  = [Some 32; Some 32].
Proof.
  split; [exact wf_tiny|].
  exact (proj1 (proj2 (C10_batch_bounds tiny_world Interactive wf_tiny))).
Defined.

(** * Further properties of the notebooks *)

(** ** Requests and configurations *)

(** X1: every inference request a notebook
    sends fits the configuration the notebook wrote for the model it
    names: the request has one input, with the name of the input tensor
    of the configuration, its datatype ([FP32] for [TYPE_FP32]), a shape
    that is a batch size between 1 and [max_batch_size] followed by the
    dims of the tensor, and with data set; it asks for exactly the output
    tensor the configuration names; and its version is the version
    directory of the artifact the notebook exported for the model. *)
Theorem requests_fit_configurations (w : world) (m : mode) (nb : notebook) :
  wf_world w -> In nb notebooks ->
  requests (trace w m nb) <> [] /\
  forallb (request_fits (trace w m nb)) (requests (trace w m nb)) = true.
Proof.
  intros Hwf Hnb. rewrite !trace_unchecked by assumption.
  destruct w as [labels img local server].
  each_notebook Hnb; destruct m;
    (split; [vm_compute; discriminate|vm_compute; reflexivity]).
Qed.

Lemma requests_fit_configurations_witness :
  wf_world tiny_world /\ In nb04_tensorflow notebooks /\
  forallb (request_fits (trace tiny_world RunAll nb04_tensorflow))
    (requests (trace tiny_world RunAll nb04_tensorflow)) = true.
Proof.
  split; [exact wf_tiny|]. split; [simpl; auto|].
  exact (proj2 (requests_fit_configurations tiny_world RunAll nb04_tensorflow
                  wf_tiny (or_intror (or_introl eq_refl)))).
Defined.

(** A request with another input name, datatype, batch size, output or
    version does not fit the configuration of notebook 04. *)
Example request_misfits :
  let tr := trace tiny_world RunAll nb04_tensorflow in
  let r (name : string) (shape : list Z) (dtype output version : string) :=
    Request "simple-tensorflow-model" version
      [InferInput name shape dtype (Some VNone)] [output] in
  map (request_fits tr)
    [ r "input_0" [1; 224; 224; 3] "FP32" "output_0" "1";
      r "input__0" [1; 224; 224; 3] "FP32" "output_0" "1";
      r "input_0" [1; 3; 224; 224] "FP32" "output_0" "1";
      r "input_0" [33; 224; 224; 3] "FP32" "output_0" "1";
      r "input_0" [1; 224; 224; 3] "FP16" "output_0" "1";
      r "input_0" [1; 224; 224; 3] "FP32" "output1" "1";
      r "input_0" [1; 224; 224; 3] "FP32" "output_0" "2" ]
  = [true; false; false; false; false; false; false].
Proof. vm_compute. reflexivity. Qed.

(** ** The file tree *)

(** X2: every file a notebook writes (a
    configuration file, an exported model, a TensorRT engine) is written
    into a directory that the same notebook created before with
    [mkdir -p] and has not removed since. *)
Theorem writes_into_created_directories (w : world) (m : mode) (nb : notebook) :
  wf_world w -> In nb notebooks ->
  parents_exist [] (trace w m nb) = true /\
  exported (trace w m nb) <> [] /\ writes (trace w m nb) <> [].
Proof.
  intros Hwf Hnb. rewrite !trace_unchecked by assumption.
  destruct w as [labels img local server].
  each_notebook Hnb; destruct m;
    (split; [vm_compute; reflexivity|split; vm_compute; discriminate]).
Qed.

Lemma writes_into_created_directories_witness :
  wf_world tiny_world /\ In nb05_tensorrt notebooks /\
  parents_exist [] (trace tiny_world Interactive nb05_tensorrt) = true.
Proof.
  split; [exact wf_tiny|]. split; [simpl; auto|].
  exact (proj1 (writes_into_created_directories tiny_world Interactive
                  nb05_tensorrt wf_tiny
                  (or_intror (or_intror (or_introl eq_refl))))).
Defined.

(** A write into a directory that was not created, or that was removed,
    is detected. *)
Example parents_exist_detects :
  parents_exist [] [EvMkdir "models/a/"; EvWrite "models/a/config.pbtxt" "x"]
  = true /\
  parents_exist [] [EvMkdir "models/a/"; EvWrite "models/b/config.pbtxt" "x"]
  = false /\
  parents_exist [] [EvMkdir "models/a/1"; EvRemove "models/a";
                    EvExport "save" "models/a/1/model.pt"]
  = false.
Proof. vm_compute. auto. Qed.

(** X3: both [trtexec] runs of notebook 05
    read [models/simple-onnx-model/1/model.onnx].  Notebook 05 does not
    create that file: run on an empty tree it lacks it, besides the label
    file and the sample image.  Notebook 02 exports it and notebook 04
    does not remove it, so after notebooks 02 and 04 the only files
    notebook 05 lacks are the label file and the image.  The two engines
    are built with the same flags, except that the second adds [--fp16]. *)
Theorem onnx_file_comes_from_notebook_02 (w : world) (m2 m4 m5 : mode) :
  wf_world w ->
  let tr02 := trace w m2 nb02_pytorch in
  let tr04 := trace w m4 nb04_tensorflow in
  let tr05 := trace w m5 nb05_tensorrt in
  map (flag "--onnx") (trtexecs tr05) = [Some onnx_file; Some onnx_file] /\
  remove_dups (missing_inputs [] tr05) = [onnx_file; labels_file; image_file] /\
  In onnx_file (exported tr02) /\
  remove_dups (missing_inputs (tree_after [] (tr02 ++ tr04)) tr05)
  = [labels_file; image_file] /\
  map build_flags (trtexecs tr05)
  = [ build_flags (nth 0 (trtexecs tr05) []);
      build_flags (nth 0 (trtexecs tr05) []) ++ [("--fp16", EmptyString)] ].
Proof.
  intros Hwf tr02 tr04 tr05. subst tr02 tr04 tr05.
  rewrite !trace_unchecked by (simpl; auto).
  destruct w as [labels img local server].
  split; [destruct m5; vm_compute; reflexivity|].
  split; [destruct m5; vm_compute; reflexivity|].
  split; [destruct m2; vm_compute; auto 10|].
  split; [destruct m2, m4, m5; vm_compute; reflexivity|].
  destruct m5; vm_compute; reflexivity.
Qed.

Lemma onnx_file_comes_from_notebook_02_witness :
  wf_world tiny_world /\
  remove_dups (missing_inputs
     (tree_after [] (trace tiny_world Interactive nb02_pytorch
                     ++ trace tiny_world Interactive nb04_tensorflow))
     (trace tiny_world Interactive nb05_tensorrt))
  = [labels_file; image_file].
Proof.
  split; [exact wf_tiny|].
  exact (proj1 (proj2 (proj2 (proj2
    (onnx_file_comes_from_notebook_02 tiny_world Interactive Interactive
       Interactive wf_tiny))))).
Defined.



(** ** Polling *)

(** X5: after the sleep a notebook asks the
    server once whether it is ready and then, once each and in the order
    of deployment, for the models whose configuration it wrote; the
    client it creates later connects to the address the polls went to. *)
Theorem polls_name_deployed_models (w : world) (m : mode) (nb : notebook) :
  wf_world w -> In nb notebooks ->
  curls (trace w m nb)
  = "triton:8000/v2/health/ready"
    :: map (fun d => "triton:8000/v2/models/" +:+ d) (deployed (trace w m nb)) /\
  Forall (fun u => host_of u = "triton:8000") (curls (trace w m nb)) /\
  binding w m nb "triton_client" = Some (VClient "triton:8000").
Proof.
  intros Hwf Hnb. unfold binding.
  rewrite !trace_unchecked, !run_unchecked by assumption.
  destruct w as [labels img local server].
  split; [each_notebook Hnb; destruct m; vm_compute; reflexivity|].
  split; [|each_notebook Hnb; destruct m; vm_compute; reflexivity].
  assert (H : forallb (fun u => String.eqb (host_of u) "triton:8000")
                (curls (s_trace (o_session (run_cells_unchecked
                   (World labels img local server) no_failure m 0 nb start))))
              = true).
  { each_notebook Hnb; destruct m; vm_compute; reflexivity. }
  apply List.Forall_forall. intros u Hu. apply String.eqb_eq.
  exact (proj1 (List.forallb_forall _ _) H u Hu).
Qed.

Lemma polls_name_deployed_models_witness :
  wf_world tiny_world /\ In nb02_pytorch notebooks /\
  binding tiny_world RunAll nb02_pytorch "triton_client"
  = Some (VClient "triton:8000").
Proof.
  split; [exact wf_tiny|]. split; [simpl; auto|].
  exact (proj2 (proj2 (polls_name_deployed_models tiny_world RunAll nb02_pytorch
                         wf_tiny (or_introl eq_refl)))).
Defined.

(** ** torch.topk *)

Lemma best_of_max (xs : list (nat * Q)) :
  forall b,
    (snd b <= snd (best_of b xs))%Q /\
    forall x, In x xs -> (snd x <= snd (best_of b xs))%Q.
Proof.
  induction xs as [|x xs IH]; intros b; simpl.
  - split; [apply Qle_refl|contradiction].
  - destruct (Qlt_bool (snd b) (snd x)) eqn:E.
    + apply Qlt_bool_true in E. destruct (IH x) as [H1 H2]. split.
      * apply Qle_trans with (snd x); [apply Qlt_le_weak; exact E|exact H1].
      * intros y [<-|Hy]; [exact H1|apply H2, Hy].
    + apply Qlt_bool_false in E. destruct (IH b) as [H1 H2]. split; [exact H1|].
      intros y [<-|Hy]; [apply Qle_trans with (snd b); assumption|apply H2, Hy].
Qed.

Lemma pick_in (ps : list (nat * Q)) : ps <> [] -> In (pick ps) ps.
Proof.
  destruct ps as [|q qs]; [congruence|]. intros _. unfold pick.
  change (from_option id (0%nat, 0%Q) (head (q :: qs))) with q.
  destruct (best_of_cases (q :: qs) q) as [H|H];
    [rewrite H; left; reflexivity|exact H].
Qed.

Lemma pick_max (ps : list (nat * Q)) (x : nat * Q) :
  In x ps -> (snd x <= snd (pick ps))%Q.
Proof. intros H. apply (best_of_max ps _), H. Qed.

Lemma drop_position_in (b : nat * Q) (ps : list (nat * Q)) (p : nat * Q) :
  In p (drop_position b ps) <-> In p ps /\ fst p <> fst b.
Proof.
  unfold drop_position.
  rewrite List.filter_In, negb_true_iff, Nat.eqb_neq. reflexivity.
Qed.

Lemma drop_position_length (b : nat * Q) (ps : list (nat * Q)) :
  List.NoDup (map fst ps) -> In b ps ->
  S (length (drop_position b ps)) = length ps.
Proof.
  induction ps as [|q qs IH]; intros Hnd Hin; [contradiction|].
  simpl in Hnd. apply List.NoDup_cons_iff in Hnd as [Hq Hnd].
  unfold drop_position. simpl.
  destruct (Nat.eqb_spec (fst q) (fst b)) as [E|E]; simpl.
  - f_equal. assert (Hall : forall p, In p qs -> fst p <> fst b).
    { intros p Hp Hpb. apply Hq. rewrite E, <- Hpb. apply in_map, Hp. }
    clear -Hall. induction qs as [|r rs IH]; simpl; [reflexivity|].
    destruct (Nat.eqb_spec (fst r) (fst b)) as [E|E].
    + exfalso. apply (Hall r); [left; reflexivity|exact E].
    + simpl. f_equal. apply IH. intros p Hp. apply Hall. right. exact Hp.
  - f_equal. apply IH; [exact Hnd|].
    destruct Hin as [<-|Hin]; [congruence|exact Hin].
Qed.

Lemma drop_position_NoDup (b : nat * Q) (ps : list (nat * Q)) :
  List.NoDup (map fst ps) -> List.NoDup (map fst (drop_position b ps)).
Proof.
  induction ps as [|q qs IH]; intros Hnd; simpl; [constructor|].
  simpl in Hnd. apply List.NoDup_cons_iff in Hnd as [Hq Hnd].
  unfold drop_position. simpl. destruct (Nat.eqb (fst q) (fst b)); simpl.
  - apply IH, Hnd.
  - apply List.NoDup_cons_iff. split; [|apply IH, Hnd].
    intros Hin. apply Hq. apply in_map_iff in Hin as (p & Hp & Hin).
    apply in_map_iff. exists p. split; [exact Hp|].
    apply drop_position_in in Hin. apply Hin.
Qed.

Lemma topk_pairs_unfold (k : nat) (ps : list (nat * Q)) :
  topk_pairs (S k) ps = pick ps :: topk_pairs k (drop_position (pick ps) ps).
Proof. reflexivity. Qed.

(** What [topk_pairs k] returns on a list with distinct positions and at
    least [k] entries: [k] entries of the list, with distinct positions,
    in non-increasing order, none smaller than an entry left out. *)
Lemma topk_pairs_spec (k : nat) :
  forall ps,
    List.NoDup (map fst ps) -> (k <= length ps)%nat ->
    length (topk_pairs k ps) = k /\
    (forall p, In p (topk_pairs k ps) -> In p ps) /\
    List.NoDup (map fst (topk_pairs k ps)) /\
    (forall i j, (i <= j < k)%nat ->
       (snd (nth j (topk_pairs k ps) (0%nat, 0%Q))
        <= snd (nth i (topk_pairs k ps) (0%nat, 0%Q)))%Q) /\
    (forall p q, In p ps -> ~ In (fst p) (map fst (topk_pairs k ps)) ->
       In q (topk_pairs k ps) -> (snd p <= snd q)%Q).
Proof.
  induction k as [|k IH]; intros ps Hnd Hlen.
  - simpl. repeat split; try contradiction; try constructor. intros; lia.
  - assert (Hne : ps <> []) by (destruct ps; simpl in Hlen; [lia|congruence]).
    pose proof (pick_in ps Hne) as Hpick.
    pose proof (drop_position_length (pick ps) ps Hnd Hpick) as Hdl.
    destruct (IH (drop_position (pick ps) ps) (drop_position_NoDup _ _ Hnd)
                ltac:(lia))
      as (L & Sub & ND & Sorted & Top).
    rewrite topk_pairs_unfold.
    assert (Hrest : forall p, In p (topk_pairs k (drop_position (pick ps) ps)) ->
                      In p ps /\ fst p <> fst (pick ps)).
    { intros p Hp. apply drop_position_in, Sub, Hp. }
    split; [simpl; lia|]. split; [|split; [|split]].
    + intros p [<-|Hp]; [exact Hpick|apply Hrest, Hp].
    + simpl. apply List.NoDup_cons_iff. split; [|exact ND].
      intros Hin. apply in_map_iff in Hin as (p & Hp & Hin).
      apply Hrest in Hin. destruct Hin as [_ Hin]. congruence.
    + intros i j Hij. destruct j as [|j].
      * assert (i = 0%nat) as -> by lia. apply Qle_refl.
      * destruct i as [|i].
        -- change (nth 0 (pick ps :: _) _) with (pick ps).
           change (nth (S j) (pick ps :: ?l) ?d) with (nth j l d).
           apply pick_max. apply Hrest. apply nth_In. lia.
        -- change (nth (S j) (pick ps :: ?l) ?d) with (nth j l d).
           change (nth (S i) (pick ps :: ?l) ?d) with (nth i l d).
           apply Sorted. lia.
    + intros p q Hp Hout [<-|Hq]; [apply pick_max, Hp|].
      apply (Top p q); [|intros H; apply Hout; right; exact H|exact Hq].
      apply drop_position_in. split; [exact Hp|]. intros E. apply Hout. left.
      symmetry. exact E.
Qed.

Lemma number_from_NoDup (xs : list Q) :
  forall i, List.NoDup (map fst (number_from i xs)).
Proof.
  induction xs as [|x xs IH]; intros i; simpl; [constructor|].
  apply List.NoDup_cons_iff. split; [|apply IH].
  intros Hin. apply in_map_iff in Hin as (p & Hp & Hin).
  assert (H : forall xs j p, In p (number_from j xs) -> (j <= fst p)%nat).
  { clear. induction xs as [|x xs IH]; intros j p Hp; simpl in Hp; [contradiction|].
    destruct Hp as [<-|Hp]; [simpl; lia|]. apply IH in Hp. lia. }
  apply H in Hin. lia.
Qed.

Lemma number_from_length (xs : list Q) :
  forall i, length (number_from i xs) = length xs.
Proof.
  induction xs as [|x xs IH]; intros i; simpl; [reflexivity|].
  rewrite IH. reflexivity.
Qed.

Lemma number_from_nth (xs : list Q) :
  forall i p, In p (number_from i xs) ->
    (i <= fst p < i + length xs)%nat /\ snd p = nth (fst p - i) xs 0%Q.
Proof.
  induction xs as [|x xs IH]; intros i p Hp; simpl in Hp; [contradiction|].
  destruct Hp as [<-|Hp]; simpl.
  - split; [lia|]. rewrite Nat.sub_diag. reflexivity.
  - apply IH in Hp. destruct Hp as [Hr Hv]. split; [lia|].
    rewrite Hv. replace (fst p - i)%nat with (S (fst p - S i)) by lia.
    reflexivity.
Qed.

Lemma number_from_in (xs : list Q) :
  forall i j, (j < length xs)%nat ->
    In ((i + j)%nat, nth j xs 0%Q) (number_from i xs).
Proof.
  induction xs as [|x xs IH]; intros i j Hj; simpl in *; [lia|].
  destruct j as [|j].
  - left. rewrite Nat.add_0_r. reflexivity.
  - right. replace (i + S j)%nat with (S i + j)%nat by lia. apply IH. lia.
Qed.

Lemma best_of_number_from (xs : list Q) :
  forall i0 x0 i,
    fst (best_of (i0, x0) (number_from i xs)) = argmax_from i0 x0 i xs.
Proof.
  induction xs as [|x xs IH]; intros i0 x0 i; simpl; [reflexivity|].
  destruct (Qlt_bool x0 x); apply IH.
Qed.

(** The first entry of [topk] is at the position [argmax] gives. *)
Lemma topk_head (k : nat) (xs : list Q) :
  xs <> [] ->
  fst (nth 0 (topk (S k) xs) (0%nat, 0%Q)) = argmax xs.
Proof.
  destruct xs as [|x xs]; [congruence|]. intros _.
  unfold topk. rewrite topk_pairs_unfold.
  change (nth 0 (?a :: _) _) with a.
  unfold pick. simpl. rewrite Qlt_bool_irrefl. apply best_of_number_from.
Qed.

(** [topk k xs] on at least [k] numbers: [k] pairs of a position and the
    number there, at distinct positions, in non-increasing order of the
    numbers, and no number left out is larger than one that is in. *)
Lemma topk_spec (k : nat) (xs : list Q) :
  (k <= length xs)%nat ->
  length (topk k xs) = k /\
  (forall p, In p (topk k xs) ->
     (fst p < length xs)%nat /\ snd p = nth (fst p) xs 0%Q) /\
  List.NoDup (map fst (topk k xs)) /\
  (forall i j, (i <= j < k)%nat ->
     (snd (nth j (topk k xs) (0%nat, 0%Q))
      <= snd (nth i (topk k xs) (0%nat, 0%Q)))%Q) /\
  (forall j q, (j < length xs)%nat -> ~ In j (map fst (topk k xs)) ->
     In q (topk k xs) -> (nth j xs 0 <= snd q)%Q).
Proof.
  intros Hk. unfold topk.
  destruct (topk_pairs_spec k (number_from 0 xs) (number_from_NoDup xs 0)
              ltac:(rewrite number_from_length; exact Hk))
    as (L & Sub & ND & Sorted & Top).
  split; [exact L|]. split; [|split; [exact ND|split; [exact Sorted|]]].
  - intros p Hp. apply Sub, number_from_nth in Hp. destruct Hp as [Hr Hv].
    split; [lia|]. rewrite Hv. f_equal. lia.
  - intros j q Hj Hout Hq.
    apply (Top (j, nth j xs 0%Q) q); [|exact Hout|exact Hq].
    apply (number_from_in xs 0 j Hj).
Qed.

(** ** What notebook 02 prints *)

Lemma shape_of_plane (f : Q -> Q) (rows : list (list Q)) :
  shape_of (plane (map (map f) rows)) = shape_of (plane rows).
Proof.
  destruct rows as [|r rows]; [reflexivity|].
  unfold plane. simpl. rewrite !length_map. destruct r; reflexivity.
Qed.

Lemma topk_line_of_raw (labels : list string) (p : nat * Q) :
  (fst p < length labels)%nat ->
  topk_line_raw labels p = topk_line labels p.
Proof.
  intros H. unfold topk_line_raw, topk_line.
  rewrite py_get_of_nat, nth_label by exact H. reflexivity.
Qed.

(** The prints of notebook 02 as the cells compute them. *)
Lemma prints_raw_02 (labels : list string) (img : image)
    (local : value -> list Q) (server : string -> list value -> list Q)
    (m : mode) :
  prints (s_trace (o_session
            (run_cells_unchecked (World labels img local server) no_failure m 0
               nb02_pytorch start)))
  = [VList (take 5 (map VStr labels))]
    :: map (topk_line_raw labels)
         (topk 3 (flatten (row (local (normalized mean_02 mean_02 img)))))
    ++ [ [shape_value (normalized mean_02 mean_02 img)];
         [shape_value (row_batch (server "simple-pytorch-model"
                                    [normalized mean_02 mean_02 img]))];
         decoded_raw (World labels img local server)
           (Request "simple-pytorch-model" "1"
              [InferInput "input__0" [1; 3; 224; 224] "FP32"
                 (Some (normalized mean_02 mean_02 img))]
              ["output__0"]) ]
    ++ match m with
       | RunAll => []
       | Interactive =>
           [ [shape_value (normalized mean_02 mean_02 img)];
             decoded_raw (World labels img local server)
               (Request "simple-onnx-model" "1"
                  [InferInput "actual_input_1" [1; 3; 224; 224] "FP32"
                     (Some (normalized mean_02 mean_02 img))]
                  ["output1"]) ]
       end.
Proof. destruct m; by_vm. Qed.

(** The prints of notebook 02 in a well-formed world. *)
Lemma prints_02 (w : world) (m : mode) :
  wf_world w ->
  prints (trace w m nb02_pytorch)
  = [VList (map VStr (take 5 (w_labels w)))]
    :: map (topk_line (w_labels w)) (topk 3 (w_local w (image_02 (w_image w))))
    ++ [ [shape_value (image_02 (w_image w))];
         [VTuple [VInt 1;
                  VInt (Z.of_nat (length (w_server w "simple-pytorch-model"
                                            [image_02 (w_image w)])))]];
         [VStr (label_of (w_labels w)
                  (w_server w "simple-pytorch-model" [image_02 (w_image w)]))] ]
    ++ match m with
       | RunAll => []
       | Interactive =>
           [ [shape_value (image_02 (w_image w))];
             [VStr (label_of (w_labels w)
                      (w_server w "simple-onnx-model" [image_02 (w_image w)]))] ]
       end.
Proof.
  intros Hwf. rewrite trace_unchecked by (simpl; auto).
  pose proof Hwf as [Hlocal Hserver].
  destruct w as [labels img local server].
  cbn [w_labels w_image w_local w_server] in Hlocal, Hserver |- *.
  rewrite (prints_raw_02 labels img local server m).
  rewrite normalized_image, flatten_row.
  unfold decoded_raw.
  cbn [rq_model rq_inputs w_labels w_server].
  change (omap in_data [InferInput "input__0" [1; 3; 224; 224] "FP32"
                          (Some (image_02 img))]) with [image_02 img].
  change (omap in_data [InferInput "actual_input_1" [1; 3; 224; 224] "FP32"
                          (Some (image_02 img))]) with [image_02 img].
  rewrite !decoded_label by apply Hserver.
  f_equal; [rewrite <- fmap_take; reflexivity|].
  f_equal.
  - specialize (Hlocal (image_02 img)).
    destruct (topk_spec 3 (local (image_02 img)) ltac:(lia)) as (_ & Hin & _).
    apply map_ext_in. intros p Hp. apply topk_line_of_raw.
    apply Hin in Hp. lia.
  - f_equal. f_equal. f_equal. unfold shape_value, row_batch, row.
    cbn [shape_of map]. rewrite length_map. destruct (server _ _); reflexivity.
Qed.

(** X6: everything notebook 02 prints, in order: the
    first five labels (all of them if the file has fewer); the three
    lines of the local validation, each with a number of the local
    model's output, its position and the label there, for the three
    entries [torch.topk] returns; the shape of the batch sent; the shape
    of the output received, one row of as many numbers as the server
    returned; and the label decoded from it.  Run cell by cell to its
    end, the notebook then prints the shape of the batch and the label
    decoded from the response of the ONNX model.  The batch sent has the
    shape of the sample image, with channel and batch dimensions in
    front. *)
Theorem printed_output_02 (w : world) (m : mode) :
  wf_world w ->
  let labels := w_labels w in
  let x := image_02 (w_image w) in
  let answer name := w_server w name [x] in
  prints (trace w m nb02_pytorch)
  = [VList (map VStr (take 5 labels))]
    :: map (topk_line labels) (topk 3 (w_local w x))
    ++ [ [shape_value x];
         [VTuple [VInt 1;
                  VInt (Z.of_nat (length (answer "simple-pytorch-model")))]];
         [VStr (label_of labels (answer "simple-pytorch-model"))] ]
    ++ match m with
       | RunAll => []
       | Interactive =>
           [ [shape_value x];
             [VStr (label_of labels (answer "simple-onnx-model"))] ]
       end /\
  shape_value x
  = VTuple (map VInt (1 :: 3 :: shape_of (plane (red (w_image w))))).
Proof.
  intros Hwf labels x answer. subst labels x answer. split.
  - apply prints_02, Hwf.
  - unfold shape_value, image_02, normalize_plane.
    cbn [shape_of length map]. rewrite shape_of_plane. reflexivity.
Qed.

Lemma printed_output_02_witness :
  wf_world tiny_world /\
  shape_value (image_02 (w_image tiny_world))
  = VTuple (map VInt (1 :: 3 :: shape_of (plane (red (w_image tiny_world))))).
Proof.
  split; [exact wf_tiny|].
  exact (proj2 (printed_output_02 tiny_world Interactive wf_tiny)).
Defined.

(** In the small world notebook 02 prints these lines. *)
Example printed_in_tiny_world :
  prints (trace tiny_world Interactive nb02_pytorch)
  = [ [VList [VStr "tench"; VStr "goldfish"; VStr "great white shark"]];
      [VNum (9 # 10); VInt 1; VStr "goldfish"];
      [VNum (3 # 10); VInt 2; VStr "great white shark"];
      [VNum (1 # 10); VInt 0; VStr "tench"];
      [VTuple [VInt 1; VInt 3; VInt 1; VInt 2]];
      [VTuple [VInt 1; VInt 3]];
      [VStr "goldfish"];
      [VTuple [VInt 1; VInt 3; VInt 1; VInt 2]];
      [VStr "goldfish"] ].
Proof. vm_compute. reflexivity. Qed.

(** X7: the three lines the local validation of notebook 02
    prints, the second to fourth print of the notebook, show three
    distinct positions of the local model's output with the numbers
    there, largest first; no number of the output that is not shown is
    larger than one that is; and when one position [g] holds a number
    larger than all others, the first line shows that number, [g] and the
    label at [g], which is the label [np.argmax] decoding gives for the
    same output. *)
Theorem top3_lines (w : world) (m : mode) :
  wf_world w ->
  let xs := w_local w (image_02 (w_image w)) in
  let top := topk 3 xs in
  take 3 (skipn 1 (prints (trace w m nb02_pytorch)))
  = map (topk_line (w_labels w)) top /\
  length top = 3%nat /\
  (forall p, In p top -> (fst p < length xs)%nat /\ snd p = nth (fst p) xs 0%Q) /\
  List.NoDup (map fst top) /\
  (forall i j, (i <= j < 3)%nat ->
     (snd (nth j top (0%nat, 0%Q)) <= snd (nth i top (0%nat, 0%Q)))%Q) /\
  (forall j q, (j < length xs)%nat -> ~ In j (map fst top) -> In q top ->
     (nth j xs 0 <= snd q)%Q) /\
  (forall g, (g < length xs)%nat ->
     (forall j, (j < length xs)%nat -> j <> g -> (nth j xs 0 < nth g xs 0)%Q) ->
     topk_line (w_labels w) (nth 0 top (0%nat, 0%Q))
     = [ VNum (nth g xs 0%Q); VInt (Z.of_nat g);
         VStr (nth g (w_labels w) EmptyString) ] /\
     label_of (w_labels w) xs = nth g (w_labels w) EmptyString).
Proof.
  intros Hwf xs top.
  assert (H3 : (3 <= length xs)%nat) by (apply Hwf).
  destruct (topk_spec 3 xs H3) as (L & Hin & ND & Sorted & Top).
  fold top in L, Hin, ND, Sorted, Top.
  split; [|split; [exact L|split; [exact Hin|split; [exact ND|
           split; [exact Sorted|split; [exact Top|]]]]]].
  - rewrite (prints_02 w m Hwf).
    change (skipn 1 (?a :: ?l)) with l.
    apply take_app_length'. rewrite length_map. exact L.
  - intros g Hg Hmax.
    assert (Hne : xs <> []) by (destruct xs; [simpl in H3; lia|discriminate]).
    pose proof (topk_head 2 xs Hne) as Hh. fold top in Hh.
    assert (H0 : In (nth 0 top (0%nat, 0%Q)) top) by (apply nth_In; lia).
    apply Hin in H0. destruct H0 as [_ Hv].
    pose proof (argmax_unique xs g Hg Hmax) as Ha.
    unfold topk_line, label_of. rewrite Hv, Hh, Ha. split; reflexivity.
Qed.

Lemma top3_lines_witness :
  wf_world tiny_world /\
  take 3 (skipn 1 (prints (trace tiny_world RunAll nb02_pytorch)))
  = map (topk_line (w_labels tiny_world))
      (topk 3 (w_local tiny_world (image_02 (w_image tiny_world)))).
Proof.
  split; [exact wf_tiny|].
  exact (proj1 (top3_lines tiny_world RunAll wf_tiny)).
Defined.

(** ** Cells in an arbitrary session *)

Lemma as_int_ints (l : list Z) : omap as_int (map VInt l) = l.
Proof. induction l as [|z l IH]; [reflexivity|]. cbn. f_equal. exact IH. Qed.

(** X8: what a decoding cell does in any session
    that holds the labels and the output of the model: on an empty output
    [np.argmax] raises and nothing is printed; when the position of the
    maximum is beyond the end of the label list, indexing raises
    [IndexError] and nothing is printed; otherwise the cell prints the
    label at that position.  In no case does it change a variable. *)
Theorem decode_cell_contract (w : world) (st : state) (labels : list string)
    (xs : list Q) (tr : list event) (n : nat) :
  between_cells st -> ready_to_decode st labels xs ->
  (xs = [] ->
   exists e, perform no_failure (exec_cell w decode_cell st) tr n
             = (Session st (tr ++ [EvCall "numpy.argmax"]) (S n), inl e)) /\
  (xs <> [] -> (length labels <= argmax xs)%nat ->
   perform no_failure (exec_cell w decode_cell st) tr n
   = (Session st (tr ++ [EvCall "numpy.argmax"]) (S n), inl IndexError)) /\
  (xs <> [] -> (argmax xs < length labels)%nat ->
   perform no_failure (exec_cell w decode_cell st) tr n
   = (Session st (tr ++ [EvCall "numpy.argmax";
                         EvPrint [VStr (label_of labels xs)]]) (S n),
      inr tt)).
Proof.
  intros (Hfr & _ & Hp) (Hl & Hx & Hnp).
  destruct st as [g h obs frs]. simpl in Hfr, Hp, Hl, Hx, Hnp. subst frs.
  assert (Hrun :
    perform no_failure (exec_cell w decode_cell (State g h obs [])) tr n
    = if negb (is_nil (flatten (VList [row xs])))
      then if in_range (map VStr labels)
                (Z.of_nat (argmax (flatten (VList [row xs]))))
           then (Session (State g h obs [])
                   ((tr ++ [EvCall "numpy.argmax"])
                    ++ [EvPrint [py_get (map VStr labels)
                          (Z.of_nat (argmax (flatten (VList [row xs]))))]])
                   (S n), inr tt)
           else (Session (State g h obs []) (tr ++ [EvCall "numpy.argmax"]) (S n),
                 inl IndexError)
      else (Session (State g h obs []) (tr ++ [EvCall "numpy.argmax"]) (S n),
            inl (RuntimeError "attempt to get argmax of an empty sequence"))).
  { unfold decode_cell, exec_cell, eval, call, attr2, lookup_name, resolve, then_.
    simpl. rewrite Hp. simpl. rewrite Hl. simpl. rewrite Hnp. simpl.
    rewrite Hx. simpl. reflexivity. }
  rewrite Hrun, flatten_batch. clear Hrun.
  split; [|split].
  - intros ->. eexists. reflexivity.
  - intros Hne Hge. destruct xs as [|x xs]; [congruence|]. cbn [is_nil negb].
    unfold in_range. rewrite length_map.
    replace (Z.of_nat (argmax (x :: xs)) <? Z.of_nat (length labels)) with false
      by (symmetry; apply Z.ltb_ge; lia).
    rewrite andb_false_r. reflexivity.
  - intros Hne Hlt. destruct xs as [|x xs]; [congruence|]. cbn [is_nil negb].
    rewrite in_range_of_nat by (rewrite length_map; exact Hlt).
    rewrite py_get_of_nat, nth_label by exact Hlt.
    rewrite <- app_assoc. reflexivity.
Qed.

(** A session ready for decoding: two labels, and an output that is
    largest at position 1. *)
Lemma decode_cell_contract_witness :
  let st := State (<["labels" := VList (map VStr ["tench"; "goldfish"])]>
                  (<["logits" := row_batch [1 # 4; 3 # 4]]>
                  (<["np" := VLib "numpy"]> ∅))) [] [] [] in
  between_cells st /\
  ready_to_decode st ["tench"; "goldfish"] [1 # 4; 3 # 4] /\
  perform no_failure (exec_cell tiny_world decode_cell st) [] 0
  = (Session st [EvCall "numpy.argmax"; EvPrint [VStr "goldfish"]] 1, inr tt).
Proof.
  assert (Hb : between_cells
            (State (<["labels" := VList (map VStr ["tench"; "goldfish"])]>
                   (<["logits" := row_batch [1 # 4; 3 # 4]]>
                   (<["np" := VLib "numpy"]> ∅))) [] [] [])).
  { repeat split; vm_compute; reflexivity. }
  assert (Hr : ready_to_decode
            (State (<["labels" := VList (map VStr ["tench"; "goldfish"])]>
                   (<["logits" := row_batch [1 # 4; 3 # 4]]>
                   (<["np" := VLib "numpy"]> ∅))) [] [] [])
            ["tench"; "goldfish"] [1 # 4; 3 # 4]).
  { repeat split; vm_compute; reflexivity. }
  split; [exact Hb|]. split; [exact Hr|].
  refine (proj2 (proj2 (decode_cell_contract tiny_world _ _ _ [] 0 Hb Hr)) _ _).
  - discriminate.
  - vm_compute. lia.
Defined.

(** X9: the cell that loads the labels and prints
    the first five.  In any session between two cells it opens and reads
    the label file, binds [json], [file] and [labels], and prints the
    first five labels: all of them when the file holds fewer than five,
    none when it holds none; the slice does not raise, unlike the
    indexing of the decoding cell.  Notebooks 02 and 04 have this cell. *)
Theorem labels_cell_contract (w : world) (st : state) (tr : list event) (n : nat) :
  between_cells st ->
  perform no_failure (exec_cell w labels_cell st) tr n
  = (Session
       (with_globals st
          (<["labels" := VList (map VStr (w_labels w))]>
           (<["file" := VFile labels_file "r"]>
           (<["json" := VLib "json"]> (ns st))))
          (heap st))
       (tr ++ [ EvOpen labels_file "r"; EvRead labels_file;
                EvPrint [VList (map VStr (take 5 (w_labels w)))] ])
       (n + 2),
     inr tt) /\
  nth 2 nb02_pytorch [] = labels_cell /\
  nth 2 nb04_tensorflow [] = labels_cell.
Proof.
  intros (Hfr & Ho & Hp). split; [|split; reflexivity].
  destruct st as [g h obs frs]. simpl in Hfr, Ho, Hp. subst frs.
  unfold labels_cell, load_labels, exec_cell, exec_stmt, eval, call, attr2,
    assign, lookup_name, resolve, import_as, then_, with_globals.
  simpl.
  repeat (first [ rewrite lookup_insert_eq
                | rewrite lookup_insert_ne by done
                | rewrite Ho | rewrite Hp
                | progress unfold scope, with_scope, set_var, top_package,
                    split_on ]; simpl).
  rewrite <- !app_assoc. change (Z.to_nat 5) with 5%nat.
  rewrite <- fmap_take.
  replace (n + 2)%nat with (S (S n)) by lia. reflexivity.
Qed.

Lemma labels_cell_contract_witness :
  between_cells initial /\
  nth 2 nb04_tensorflow [] = labels_cell.
Proof.
  assert (Hb : between_cells initial) by (repeat split; vm_compute; reflexivity).
  split; [exact Hb|].
  exact (proj2 (proj2 (labels_cell_contract tiny_world initial [] 0 Hb))).
Defined.

(** With fewer than five labels, or none, the cell prints what there
    is. *)
Example short_label_file :
  let w labels := World labels (w_image tiny_world) (w_local tiny_world)
                    (w_server tiny_world) in
  map (fun labels =>
         prints (s_trace (fst (perform no_failure
                                 (exec_cell (w labels) labels_cell initial) [] 0))))
    [ []; ["tench"; "goldfish"] ]
  = [ [[VList []]]; [[VList [VStr "tench"; VStr "goldfish"]]] ].
Proof. vm_compute. reflexivity. Qed.

(** X10: what an inference cell does in any session
    that holds the names of the request, the client and the data.  It
    builds one input object with the name, shape and datatype of the
    variables, fills it in place with the data, asks for the output named
    by [output_name], and sends one request for the model and version of
    the variables; the request carries the data because the object in
    the list [inputs] is the object that was filled.  It reads the output
    it asked for and leaves the server's numbers in [logits].  The cell
    binds [input0], [output], [response] and [logits] and adds one object
    to the store; it changes nothing else. *)
Theorem infer_cell_contract (w : world) (st : state) (q : request_names)
    (data : value) (tr : list event) (n : nat) :
  frames st = [] -> ready_to_infer st q data ->
  perform no_failure (exec_cell w infer_cell st) tr n
  = (Session
       (with_globals st
          (<["logits" := row_batch (w_server w (n_model q) [data])]>
           (<["response" := VResponse (n_model q) [n_output q] [data]]>
           (<["output" := VOutput (n_output q)]>
           (<["input0" := VRef (length (heap st))]> (ns st)))))
          (heap st ++ [InferInput (n_input q) (n_shape q) (n_dtype q)
                         (Some data)]))
       (tr ++ [ EvCall "tritonclient.http.InferInput";
                EvCall "tritonclient.http.InferInput.set_data_from_numpy";
                EvCall "tritonclient.http.InferRequestedOutput";
                EvInfer (request_of q data);
                EvOutput (n_model q) (n_output q);
                EvCall "numpy.asarray" ])
       (n + 5),
     inr tt).
Proof.
  intros Hfr (Hc & Hnp & Hi & Hs & Hd & Ho & Hm & Hv & Hcl & Hdata).
  destruct st as [g h obs frs]. simpl in *. subst frs.
  unfold infer_cell, build_input, send_request, read_logits, assign, call, attr2.
  simpl app.
  unfold exec_cell, exec_stmt, eval, lookup_name, resolve, then_, with_globals.
  simpl.
  repeat (first [ rewrite Hc | rewrite Hnp | rewrite Hi | rewrite Hs | rewrite Hd
                | rewrite Ho | rewrite Hm | rewrite Hv | rewrite Hcl | rewrite Hdata
                | rewrite lookup_insert_eq
                | rewrite lookup_insert_ne by done
                | rewrite as_int_ints
                | rewrite list_lookup_middle by reflexivity
                | rewrite insert_app_r_alt by reflexivity
                | rewrite Nat.sub_diag
                | rewrite insert_insert_eq
                | rewrite String.eqb_refl
                | progress unfold load, store, alloc, then_, call_client, kwarg,
                    load_inputs, scope, with_scope, set_var ]; simpl).
  rewrite <- !app_assoc. simpl.
  replace (n + 5)%nat with (S (S (S (S (S n))))) by lia. reflexivity.
Qed.

Lemma infer_cell_contract_witness :
  let q := RequestNames "input_0" [1; 224; 224; 3] "FP32" "output_0"
             "simple-tensorflow-model" "1" "triton:8000" in
  let st := State (list_to_map
                     [ ("tritonhttpclient", VLib "tritonclient.http");
                       ("np", VLib "numpy");
                       ("input_name", VStr "input_0");
                       ("input_shape", VTuple (map VInt [1; 224; 224; 3]));
                       ("input_dtype", VStr "FP32");
                       ("output_name", VStr "output_0");
                       ("model_name", VStr "simple-tensorflow-model");
                       ("model_version", VStr "1");
                       ("triton_client", VClient "triton:8000");
                       ("image_numpy", VObj "image") ]) [] [] [] in
  frames st = [] /\ ready_to_infer st q (VObj "image") /\
  requests (s_trace (fst (perform no_failure
                             (exec_cell tiny_world infer_cell st) [] 0)))
  = [request_of q (VObj "image")].
Proof.
  cbv zeta.
  match goal with |- frames ?s = [] /\ ready_to_infer ?s ?q ?d /\ _ =>
    assert (Hr : ready_to_infer s q d) by (repeat split; vm_compute; reflexivity);
    split; [reflexivity|]; split; [exact Hr|];
    rewrite (infer_cell_contract tiny_world s q d [] 0 eq_refl Hr)
  end.
  vm_compute. reflexivity.
Defined.

(** ** The classes of the cells *)

Lemma frame_hit (k : string) (v : value) (fr : gmap string value) :
  <[k := v]> fr !! k = Some v.
Proof. apply lookup_insert_eq. Qed.

Lemma frame_miss (k k' : string) (v : value) (fr : gmap string value) :
  k <> k' -> <[k := v]> fr !! k' = fr !! k'.
Proof. apply lookup_insert_ne. Qed.

Lemma frame_empty (k : string) : (∅ : gmap string value) !! k = None.
Proof. apply lookup_empty. Qed.

Lemma new_object_at (obs : list object) (o : object) :
  (obs ++ [o]) !! length obs = Some o.
Proof. apply list_lookup_middle. reflexivity. Qed.

(** One call of a class or an instance, step by step; [H1], [H2] and [H3]
    say what the session binds. *)
Ltac step_call H1 H2 H3 :=
  repeat (first [ rewrite H1 | rewrite H2 | rewrite H3
                | rewrite frame_hit
                | rewrite frame_miss by done
                | rewrite frame_empty
                | rewrite new_object_at
                | progress unfold then_, ret, emit
                | progress unfold lookup_name, resolve, in_function
                | progress unfold load_object, store_object, alloc_object,
                    in_frame
                | progress unfold get_attr, set_attr
                | progress unfold call_value
                | progress unfold call_builtin, call_method
                | progress unfold call_lib ]; simpl).

Lemma instance_call_at_depth (d : nat) (w : world) (st : state) (cls : value)
    (name : string) (l : nat) (c : string) (x : value) (tr : list event)
    (n : nat) :
  In cls notebook_classes ->
  frames st = [] ->
  holds_model st l cls (VNet c) ->
  perform no_failure (call_user (S d) w (VInst name l) [x] [] st) tr n
  = (Session st (tr ++ [EvLocal c x]) (S n), inr (row_batch (w_local w x))).
Proof.
  intros Hcls Hfr (attrs & Hob & Hattr).
  destruct st as [g h obs frs]. simpl in Hfr, Hob. subst frs.
  generalize (eq_refl (call_user d w)). generalize (call_user d w) at 1.
  intros cu _.
  destruct Hcls as [<-|[<-|[<-|[]]]];
    cbn [call_user]; unfold then_, load_object; simpl; rewrite Hob; simpl;
    step_call Hob Hattr Hattr; reflexivity.
Qed.

(** X11: [forward] of [Model] and of
    [PyTorch_to_TorchScript] and [__call__] of [WrappedModel].  Calling an
    instance of one of the three classes, in any session between two
    cells, runs the network held in the attribute [model] on the argument,
    once, and returns its output; no variable and no object changes.  The
    three classes are read off the class statements of the notebooks. *)
Theorem instances_run_their_network (w : world) (st : state) (cls : value)
    (name : string) (l : nat) (c : string) (x : value) (tr : list event)
    (n : nat) :
  In cls notebook_classes ->
  frames st = [] ->
  holds_model st l cls (VNet c) ->
  perform no_failure (call_value w (calls w) (VInst name l) [x] [] st) tr n
  = (Session st (tr ++ [EvLocal c x]) (S n), inr (row_batch (w_local w x))).
Proof.
  intros Hcls Hfr Hm.
  exact (instance_call_at_depth 999 w st cls name l c x tr n Hcls Hfr Hm).
Qed.

Lemma Model_at_depth (d : nat) (w : world) (st : state) (tr : list event)
    (n : nat) :
  frames st = [] ->
  ns st !! "super" = None ->
  ns st !! "Model" = Some Model_class ->
  ns st !! "models" = Some (VLib "torchvision.models") ->
  perform no_failure (call_user (S d) w Model_class [] [] st) tr n
  = (Session
       (with_new_object st
          (Object Model_class
             (<["model" := VNet "torchvision.models.resnet50"]> ∅)))
       (tr ++ [ EvCall "Model"; EvCall "torch.nn.Module.__init__";
                EvCall "torchvision.models.resnet50"; EvFetch torch_weights ])
       (n + 3),
     inr (VInst "Model" (length (objects st)))).
Proof.
  intros Hfr Hs Hm Hl.
  destruct st as [g h obs frs]. simpl in Hfr, Hs, Hm, Hl. subst frs.
  generalize (eq_refl (call_user d w)). generalize (call_user d w) at 1.
  intros cu _.
  cbn [call_user Model_class]. unfold then_, alloc_object, emit. simpl.
  step_call Hs Hm Hl.
  unfold with_new_object, pop_frame. simpl.
  rewrite insert_app_r_alt by lia. rewrite Nat.sub_diag. simpl.
  rewrite <- !app_assoc. simpl.
  replace (n + 3)%nat with (S (S (S n))) by lia. reflexivity.
Qed.

Lemma instances_run_their_network_witness :
  In Model_class notebook_classes /\
  frames session_with_model = [] /\
  holds_model session_with_model 0 Model_class
    (VNet "torchvision.models.resnet50") /\
  perform no_failure
    (call_value tiny_world (calls tiny_world) (VInst "Model" 0) [VInt 7] []
       session_with_model) [] 0
  = (Session session_with_model
       [EvLocal "torchvision.models.resnet50" (VInt 7)] 1,
     inr (row_batch (w_local tiny_world (VInt 7)))).
Proof.
  assert (Hc : In Model_class notebook_classes) by (left; reflexivity).
  assert (Hh : holds_model session_with_model 0 Model_class
                 (VNet "torchvision.models.resnet50")).
  { eexists. split; reflexivity. }
  split; [exact Hc|]. split; [reflexivity|]. split; [exact Hh|].
  exact (instances_run_their_network tiny_world session_with_model Model_class
           "Model" 0 "torchvision.models.resnet50" (VInt 7) [] 0
           Hc eq_refl Hh).
Defined.

(** X12: [Model.__init__] of notebook 02.  In any
    session between two cells in which [Model] and [models] are bound as
    the first cells bind them, [Model()] runs the initialiser of
    [nn.Module], builds the pretrained network, which fetches the weights
    into the cache of torch, stores the network in the attribute [model]
    of one new instance and returns that instance; no variable changes and
    no other instance changes. *)
Theorem Model_builds_the_network (w : world) (st : state) (tr : list event)
    (n : nat) :
  frames st = [] ->
  ns st !! "super" = None ->
  ns st !! "Model" = Some Model_class ->
  ns st !! "models" = Some (VLib "torchvision.models") ->
  perform no_failure (call_value w (calls w) Model_class [] [] st) tr n
  = (Session
       (with_new_object st
          (Object Model_class
             (<["model" := VNet "torchvision.models.resnet50"]> ∅)))
       (tr ++ [ EvCall "Model"; EvCall "torch.nn.Module.__init__";
                EvCall "torchvision.models.resnet50"; EvFetch torch_weights ])
       (n + 3),
     inr (VInst "Model" (length (objects st)))).
Proof.
  intros Hfr Hs Hm Hl.
  exact (Model_at_depth 999 w st tr n Hfr Hs Hm Hl).
Qed.

Lemma Model_builds_the_network_witness :
  frames session_with_class = [] /\
  ns session_with_class !! "super" = None /\
  ns session_with_class !! "Model" = Some Model_class /\
  ns session_with_class !! "models" = Some (VLib "torchvision.models") /\
  snd (perform no_failure
         (call_value tiny_world (calls tiny_world) Model_class [] []
            session_with_class) [] 0)
  = inr (VInst "Model" 0).
Proof.
  assert (H1 : ns session_with_class !! "super" = None)
    by (vm_compute; reflexivity).
  assert (H2 : ns session_with_class !! "Model" = Some Model_class)
    by (vm_compute; reflexivity).
  assert (H3 : ns session_with_class !! "models"
               = Some (VLib "torchvision.models"))
    by (vm_compute; reflexivity).
  split; [reflexivity|]. split; [exact H1|]. split; [exact H2|].
  split; [exact H3|].
  rewrite (Model_builds_the_network tiny_world session_with_class [] 0
             eq_refl H1 H2 H3).
  reflexivity.
Defined.

Lemma wrapper_at_depth (d : nat) (w : world) (st : state) (inner : string)
    (l : nat) (c : value) (attrs : gmap string value) (tr : list event)
    (n : nat) :
  frames st = [] ->
  ns st !! "super" = None ->
  ns st !! "PyTorch_to_TorchScript" = Some PyTorch_to_TorchScript_class ->
  objects st !! l = Some (Object c attrs) ->
  (forall v, attrs !! "model" = Some v ->
     perform no_failure
       (call_user (S d) w PyTorch_to_TorchScript_class [VInst inner l] [] st)
       tr n
     = (Session
          (with_new_object st
             (Object PyTorch_to_TorchScript_class (<["model" := v]> ∅)))
          (tr ++ [ EvCall "PyTorch_to_TorchScript";
                   EvCall "torch.nn.Module.__init__" ])
          (n + 2),
        inr (VInst "PyTorch_to_TorchScript" (length (objects st))))) /\
  (attrs !! "model" = None -> find_method "model" (class_body c) = None ->
     perform no_failure
       (call_user (S d) w PyTorch_to_TorchScript_class [VInst inner l] [] st)
       tr n
     = (Session
          (with_new_object st (Object PyTorch_to_TorchScript_class ∅))
          (tr ++ [ EvCall "PyTorch_to_TorchScript";
                   EvCall "torch.nn.Module.__init__" ])
          (n + 2),
        inl (AttributeError "model"))).
Proof.
  intros Hfr Hs Hm Hob.
  destruct st as [g h obs frs]. simpl in Hfr, Hs, Hm, Hob. subst frs.
  generalize (eq_refl (call_user d w)). generalize (call_user d w) at 1.
  intros cu _.
  assert (Hob' : forall o, (obs ++ [o]) !! l = Some (Object c attrs))
    by (intros o; apply lookup_app_l_Some; exact Hob).
  split; [intros v Hattr|intros Hattr Hmth].
  all: cbn [call_user PyTorch_to_TorchScript_class];
    unfold then_, alloc_object, emit; simpl.
  all: step_call Hs Hm Hob'.
  all: rewrite ?Hattr, ?Hmth; simpl.
  all: step_call Hs Hm Hob'.
  all: unfold with_new_object, pop_frame; simpl.
  all: rewrite ?insert_app_r_alt by lia; rewrite ?Nat.sub_diag; simpl.
  all: rewrite <- !app_assoc; simpl.
  all: replace (n + 2)%nat with (S (S n)) by lia; reflexivity.
Qed.

(** X13: [PyTorch_to_TorchScript.__init__] of
    notebook 02.  In any session between two cells in which the class is
    bound as its cell binds it, [PyTorch_to_TorchScript(m)] for an
    instance [m] runs the initialiser of [nn.Module] and makes one new
    instance.  When [m] has an attribute [model], the new instance holds
    the very same value in its own attribute [model]: no network is built
    or copied, and nothing is fetched.  When [m] has neither an attribute
    nor a method of that name, the call raises [AttributeError]; the new
    instance exists by then, without attributes. *)
Theorem wrapper_shares_the_network (w : world) (st : state) (inner : string)
    (l : nat) (c : value) (attrs : gmap string value) (tr : list event)
    (n : nat) :
  frames st = [] ->
  ns st !! "super" = None ->
  ns st !! "PyTorch_to_TorchScript" = Some PyTorch_to_TorchScript_class ->
  objects st !! l = Some (Object c attrs) ->
  (forall v, attrs !! "model" = Some v ->
     perform no_failure
       (call_value w (calls w) PyTorch_to_TorchScript_class [VInst inner l] []
          st) tr n
     = (Session
          (with_new_object st
             (Object PyTorch_to_TorchScript_class (<["model" := v]> ∅)))
          (tr ++ [ EvCall "PyTorch_to_TorchScript";
                   EvCall "torch.nn.Module.__init__" ])
          (n + 2),
        inr (VInst "PyTorch_to_TorchScript" (length (objects st))))) /\
  (attrs !! "model" = None -> find_method "model" (class_body c) = None ->
     perform no_failure
       (call_value w (calls w) PyTorch_to_TorchScript_class [VInst inner l] []
          st) tr n
     = (Session
          (with_new_object st (Object PyTorch_to_TorchScript_class ∅))
          (tr ++ [ EvCall "PyTorch_to_TorchScript";
                   EvCall "torch.nn.Module.__init__" ])
          (n + 2),
        inl (AttributeError "model"))).
Proof.
  intros Hfr Hs Hm Hob.
  exact (wrapper_at_depth 999 w st inner l c attrs tr n Hfr Hs Hm Hob).
Qed.

Lemma wrapper_shares_the_network_witness :
  frames session_with_model = [] /\
  ns session_with_model !! "super" = None /\
  ns session_with_model !! "PyTorch_to_TorchScript"
  = Some PyTorch_to_TorchScript_class /\
  objects session_with_model !! 0%nat
  = Some (Object Model_class
            (<["model" := VNet "torchvision.models.resnet50"]> ∅)) /\
  snd (perform no_failure
         (call_value tiny_world (calls tiny_world) PyTorch_to_TorchScript_class
            [VInst "Model" 0] [] session_with_model) [] 0)
  = inr (VInst "PyTorch_to_TorchScript" 1).
Proof.
  assert (H1 : ns session_with_model !! "super" = None)
    by (vm_compute; reflexivity).
  assert (H2 : ns session_with_model !! "PyTorch_to_TorchScript"
               = Some PyTorch_to_TorchScript_class)
    by (vm_compute; reflexivity).
  split; [reflexivity|]. split; [exact H1|]. split; [exact H2|].
  split; [reflexivity|].
  rewrite (proj1 (wrapper_shares_the_network tiny_world session_with_model
                    "Model" 0 Model_class _ [] 0 eq_refl H1 H2 eq_refl)
             (VNet "torchvision.models.resnet50") ltac:(vm_compute; reflexivity)).
  reflexivity.
Defined.

(** X14: the classes and networks of whole runs.
    Notebook 02 binds [Model] and [PyTorch_to_TorchScript] to the classes
    above, builds one network, and ends with two instances that both hold
    it; the local inference runs that network.  Notebook 04 binds
    [WrappedModel], builds two networks: the one the only instance holds,
    and a second one bound to [model] afterwards, which is the one the
    local inference runs.  Notebook 05 defines no class,
    builds no network and runs none locally. *)
Theorem networks_of_the_notebooks (w : world) (m : mode) :
  wf_world w ->
  (binding w m nb02_pytorch "Model" = Some Model_class /\
   binding w m nb02_pytorch "PyTorch_to_TorchScript"
   = Some PyTorch_to_TorchScript_class /\
   binding w m nb02_pytorch "model" = Some (VInst "Model" 0) /\
   binding w m nb02_pytorch "torchscript_model"
   = Some (VInst "PyTorch_to_TorchScript" 1) /\
   instances w m nb02_pytorch
   = [ ("Model", Some (VNet "torchvision.models.resnet50"));
       ("PyTorch_to_TorchScript", Some (VNet "torchvision.models.resnet50")) ] /\
   networks_built (trace w m nb02_pytorch) = ["torchvision.models.resnet50"] /\
   networks_run (trace w m nb02_pytorch) = ["torchvision.models.resnet50"]) /\
  (binding w m nb04_tensorflow "WrappedModel" = Some WrappedModel_class /\
   binding w m nb04_tensorflow "model"
   = Some (VNet "tensorflow.keras.applications.resnet50.ResNet50") /\
   instances w m nb04_tensorflow
   = [ ("WrappedModel", Some (VNet "tensorflow.keras.applications.ResNet50")) ] /\
   networks_built (trace w m nb04_tensorflow)
   = [ "tensorflow.keras.applications.ResNet50";
       "tensorflow.keras.applications.resnet50.ResNet50" ] /\
   networks_run (trace w m nb04_tensorflow)
   = ["tensorflow.keras.applications.resnet50.ResNet50"]) /\
  (instances w m nb05_tensorrt = [] /\
   networks_built (trace w m nb05_tensorrt) = [] /\
   networks_run (trace w m nb05_tensorrt) = []).
Proof.
  intros Hwf. unfold binding, instances.
  rewrite !trace_unchecked, !run_unchecked by (simpl; auto).
  destruct w as [labels img local server].
  split; [|split].
  - split; [destruct m; vm_compute; reflexivity|].
    split; [destruct m; vm_compute; reflexivity|].
    split; [destruct m; vm_compute; reflexivity|].
    split; [destruct m; vm_compute; reflexivity|].
    split; [destruct m; vm_compute; reflexivity|].
    split; [destruct m; vm_compute; reflexivity|].
    destruct m; vm_compute; reflexivity.
  - split; [destruct m; vm_compute; reflexivity|].
    split; [destruct m; vm_compute; reflexivity|].
    split; [destruct m; vm_compute; reflexivity|].
    split; [destruct m; vm_compute; reflexivity|].
    destruct m; vm_compute; reflexivity.
  - split; [destruct m; vm_compute; reflexivity|].
    split; [destruct m; vm_compute; reflexivity|].
    destruct m; vm_compute; reflexivity.
Qed.

Lemma networks_of_the_notebooks_witness :
  wf_world tiny_world /\
  networks_built (trace tiny_world RunAll nb04_tensorflow)
  = [ "tensorflow.keras.applications.ResNet50";
      "tensorflow.keras.applications.resnet50.ResNet50" ].
Proof.
  split; [exact wf_tiny|].
  exact (proj1 (proj2 (proj2 (proj2 (proj1 (proj2
           (networks_of_the_notebooks tiny_world RunAll wf_tiny))))))).
Defined.

(** ** The names given to the ONNX export *)

(** X15: the ONNX export cell of notebook 02.  It binds
    [input_names] to seventeen distinct names, ['actual_input_1'] and
    [learned_0] to [learned_15], and [output_names] to ['output1']; the
    variable [i] of the comprehension is local to it, so [i] still holds
    the [2] the loop over the three best classes left.  The first input
    name and the output name are the tensor names of the configuration
    written for [simple-onnx-model]. *)
Theorem onnx_export_names (w : world) (m : mode) :
  wf_world w ->
  binding w m nb02_pytorch "input_names"
  = Some (VList (map VStr onnx_input_names)) /\
  length onnx_input_names = 17%nat /\
  NoDup onnx_input_names /\
  binding w m nb02_pytorch "output_names" = Some (VList [VStr "output1"]) /\
  binding w m nb02_pytorch "i" = Some (VInt 2) /\
  exists c,
    config_of (trace w m nb02_pytorch) "simple-onnx-model" = Some c /\
    map t_name (c_inputs c) = take 1 onnx_input_names /\
    map t_name (c_outputs c) = ["output1"].
Proof.
  intros Hwf. unfold binding.
  rewrite !trace_unchecked, !run_unchecked by (simpl; auto).
  destruct w as [labels img local server].
  split; [destruct m; vm_compute; reflexivity|].
  split; [reflexivity|].
  split.
  { apply (bool_decide_unpack _). vm_compute. exact I. }
  split; [destruct m; vm_compute; reflexivity|].
  split; [destruct m; vm_compute; reflexivity|].
  destruct m; eexists; (split; [vm_compute; reflexivity|]);
    split; vm_compute; reflexivity.
Qed.

Lemma onnx_export_names_witness :
  wf_world tiny_world /\
  binding tiny_world RunAll nb02_pytorch "i" = Some (VInt 2).
Proof.
  split; [exact wf_tiny|].
  exact (proj1 (proj2 (proj2 (proj2 (proj2
           (onnx_export_names tiny_world RunAll wf_tiny)))))).
Defined.
